(** * Toolchanger

    A shallow embedding of [klipper/extras/toolchanger.py]: the tool
    registry, the hook runner, the position/offset calculator and the
    tool-change state machine, followed by the properties proved about
    them.

    Conventions of the embedding.
    - The Python object [self] is the record [Toolchanger]; a method
      is a computation in the monad [M], which threads [self] and
      returns either a value or a raised exception.  The state
      survives a raise, as it does in Python.
    - Calls into Klipper (responses to the user, scripts handed to the
      gcode dispatcher, moves, tool activation) are recorded, in
      order, in the [trace] of the [Printer].
    - Numbers read from the configuration or from the motion system
      are Python floats, here binary64 primitive floats.
    - Commands formatted with [%f] are kept structured: the embedding
      records the values that are formatted, not their decimal
      rendering.
    - A tool object is a record of what this module reads of it; the
      dictionaries [tool.params] and [tool.modified_params], which a
      command writes, are kept in the [Printer], by the name of the
      tool. *)

From Stdlib Require Import ZArith String Ascii List Lia.
From Stdlib Require Import Floats.PrimFloat.
From stdpp Require Import base option list sorting gmap strings pretty.

(** ** Constants of the module (lines 9-18) *)

Inductive Status :=
| STATUS_UNINITALIZED
| STATUS_INITIALIZING
| STATUS_READY
| STATUS_CHANGING
| STATUS_ERROR.

(** The Python constants are strings; this is the string each one is. *)
Definition status_str (s : Status) : string :=
  match s with
  | STATUS_UNINITALIZED => "uninitialized"
  | STATUS_INITIALIZING => "initializing"
  | STATUS_READY => "ready"
  | STATUS_CHANGING => "changing"
  | STATUS_ERROR => "error"
  end.

#[global] Instance Status_eq_dec : EqDecision Status.
Proof. solve_decision. Defined.

Inductive InitMode :=
| INIT_ON_HOME
| INIT_MANUAL
| INIT_FIRST_USE.

#[global] Instance InitMode_eq_dec : EqDecision InitMode.
Proof. solve_decision. Defined.

(** [XYZ_TO_INDEX]: a lookup of any other key raises [KeyError]. *)
Definition XYZ_TO_INDEX (i : ascii) : option nat :=
  if decide (i = "x"%char) then Some 0
  else if decide (i = "X"%char) then Some 0
  else if decide (i = "y"%char) then Some 1
  else if decide (i = "Y"%char) then Some 1
  else if decide (i = "z"%char) then Some 2
  else if decide (i = "Z"%char) then Some 2
  else None.

(** [INDEX_TO_XYZ = 'XYZ']: indexing past the end raises [IndexError]. *)
Definition INDEX_TO_XYZ (index : nat) : option string :=
  match index with
  | 0 => Some "X"
  | 1 => Some "Y"
  | 2 => Some "Z"
  | _ => None
  end.

(** ** Exceptions *)

Inductive Exn :=
| Exception (msg : string)      (* raise Exception(msg) *)
| CommandError (msg : string)   (* raise gcmd.error(msg), self.gcode.error(msg) *)
| ConfigError (msg : string)    (* raised by printer.lookup_object *)
| TypeError (msg : string)
| AttributeError (msg : string)
| KeyError (msg : string)
| IndexError (msg : string)
| ValueError (msg : string)
| RecursionError (msg : string)
| SyntaxError (msg : string).

(** [str(e)] *)
Definition exn_str (e : Exn) : string :=
  match e with
  | Exception msg | CommandError msg | ConfigError msg | TypeError msg
  | AttributeError msg | KeyError msg | IndexError msg | ValueError msg | RecursionError msg
  | SyntaxError msg => msg
  end.

Inductive Outcome (A : Type) :=
| Return (a : A)
| Raise (e : Exn).
Arguments Return {A} a.
Arguments Raise {A} e.

(** A value of [ast.literal_eval]: a Python literal.  This module
    stores such values and never looks into them. *)
#[warnings="-register-all"]
Inductive Literal :=
| LitNone
| LitBool (b : bool)
| LitInt (n : Z)
| LitFloat (x : float)
| LitStr (s : string)
| LitSeq (items : list Literal).

#[global] Instance Outcome_ret : MRet Outcome := fun A a => Return a.
#[global] Instance Outcome_bind : MBind Outcome := fun A B f m =>
  match m with
  | Return a => f a
  | Raise e => Raise e
  end.

(** ** What a script sees and what it is made of *)

(** One line of a rendered script: a command with the parameters the
    handlers of this module read ([gcmd.get], [gcmd.get_int]), or an
    error raised by the script itself. *)
Record GCodeCommand := {
  g_command : string;
  g_TOOL : option string;          (* gcmd.get('TOOL', None) *)
  g_T : option Z;                  (* gcmd.get_int('T', None) *)
  g_RESTORE_AXIS : option string;  (* gcmd.get('RESTORE_AXIS', ...) *)
  g_MESSAGE : option string;       (* gcmd.get('MESSAGE', ...) *)
  g_TARGET : option float;         (* gcmd.get_float('TARGET', ...) *)
  g_WAIT : option Z;               (* gcmd.get_int('WAIT', ...) *)
  g_PARAMETER : option string;     (* gcmd.get('PARAMETER') *)
  (** [ast.literal_eval(gcmd.get('VALUE'))]: [None] when the command
      has no [VALUE], otherwise what [literal_eval] makes of its
      text, a value or the error it raises. *)
  g_VALUE : option (Outcome Literal);
}.

Inductive ScriptLine :=
| Command (gcmd : GCodeCommand)
| RaiseError (msg : string).

(** The dictionary built by [get_status] (lines 87-95), without the
    configured [params_*] entries. *)
Record StatusSnapshot := {
  s_name : string;
  s_status : string;
  s_tool : option string;
  s_tool_number : Z;
  s_tool_numbers : list Z;
  s_tool_names : list string;
}.

(** Modelled from the spec: the class of a tool is not part of this
    file; this is what [tool.get_status] hands to a script, "the active
    tool's current status fields". *)
Record ToolStatus := {
  ts_name : string;
  ts_tool_number : Z;
  ts_gcode_x_offset : option float;
  ts_gcode_y_offset : option float;
  ts_gcode_z_offset : option float;
}.

(** [extra_context] of [select_tool] and [test_tool_selection]. *)
Record ExtraContext := {
  dropoff_tool : option string;
  pickup_tool : option string;
  restore_position : gmap string float;
}.

(** The context of [run_gcode] (lines 351-356); [ctx_tool = None] is
    the empty dictionary, and so is [ctx_extra = None]. *)
Record Context := {
  ctx_tool : option ToolStatus;
  ctx_toolchanger : StatusSnapshot;
  ctx_extra : option ExtraContext;
}.

(** A template renders, from a context, the script that is run. *)
Definition Template : Type := Context -> list ScriptLine.

(** ** Tools *)

Module Tool.
(** Modelled from the spec: the class of a tool is not part of this
    file.  The fields are the ones this module reads; each offset is
    "present or absent", as [_set_tool_gcode_offset] tests it. *)
Record t := {
  name : string;
  tool_number : Z;
  gcode_x_offset : option float;
  gcode_y_offset : option float;
  gcode_z_offset : option float;
  pickup_gcode : Template;
  dropoff_gcode : Template;
  t_command_restore_axis : string;
  (** [tool.extruder]: the extruder of the tool, if it has one *)
  extruder : option string;
}.

Definition get_status (tool : t) : ToolStatus :=
  {| ts_name := name tool;
     ts_tool_number := tool_number tool;
     ts_gcode_x_offset := gcode_x_offset tool;
     ts_gcode_y_offset := gcode_y_offset tool;
     ts_gcode_z_offset := gcode_z_offset tool |}.

(** [a == b] on tools is object identity; Klipper registers each
    tool object under a name of its own, which stands for it here. *)
Definition eqb (a b : t) : bool := bool_decide (name a = name b).

(** [self.active_tool == tool], either side possibly [None]. *)
Definition opt_eqb (a b : option t) : bool :=
  match a, b with
  | Some a, Some b => eqb a b
  | None, None => true
  | _, _ => false
  end.
End Tool.

(** ** The printer around the toolchanger *)

(** [gcode_move.get_status()['gcode_position']]: a [Coord]. *)
Record Coord := {
  coord_x : float;
  coord_y : float;
  coord_z : float;
  coord_e : float;
}.

(** [position[index]] *)
Definition coord_index (position : Coord) (index : nat) : option float :=
  match index with
  | 0 => Some (coord_x position)
  | 1 => Some (coord_y position)
  | 2 => Some (coord_z position)
  | 3 => Some (coord_e position)
  | _ => None
  end.

(** The scripts this module hands to [gcode.run_script_from_command]. *)
Inductive GcodeScript :=
| SAVE_GCODE_STATE (NAME : string)
| RESTORE_GCODE_STATE (NAME : string) (MOVE : Z)
| SET_GCODE_OFFSET (X Y Z : option float)
| BED_MESH_OFFSET (X Y : float).

Inductive Event :=
| EvRespondInfo (msg : option string)      (* gcmd.respond_info, gcode.respond_info *)
| EvRunScript (script : GcodeScript)       (* gcode.run_script_from_command *)
| EvMove (params : gmap string float)      (* gcode_move.cmd_G1 of a G0 command *)
| EvDeactivate (tool : string)             (* tool.deactivate() *)
| EvActivate (tool : string)               (* tool.activate() *)
| EvHook (name : string)                   (* template.run_gcode_from_command *)
| EvSetTemperature (extruder : string) (temp : float) (wait : bool)
                                           (* heaters.set_temperature *)
| EvOther (gcmd : GCodeCommand).           (* a command of another module *)

Record Printer := {
  gcode_position : Coord;
  (** [lookup_object('bed_mesh')]: [None] when the lookup is falsy,
      otherwise whether [mesh.get_mesh()] is truthy. *)
  bed_mesh : option bool;
  (** the tool objects [lookup_object] finds by name *)
  objects : gmap string Tool.t;
  (** [tool.params] and [tool.modified_params] of each tool object,
      by the name of the tool *)
  tool_params : gmap string (gmap string Literal);
  tool_modified_params : gmap string (gmap string Literal);
  trace : list Event;
}.

(** ** The toolchanger object (lines 21-58) *)

Record Toolchanger := {
  printer : Printer;
  name : string;
  initialize_on : InitMode;
  initialize_gcode : Template;
  before_change_gcode : Template;
  after_change_gcode : Template;
  status : Status;
  active_tool : option Tool.t;
  tools : gmap Z Tool.t;
  tool_numbers : list Z;      (* Ordered list of registered tool numbers. *)
  tool_names : list string;   (* Tool names, in the same order as numbers. *)
  error_message : string;
}.

Definition set_printer (p : Printer) (self : Toolchanger) : Toolchanger :=
  {| printer := p; name := name self; initialize_on := initialize_on self;
     initialize_gcode := initialize_gcode self;
     before_change_gcode := before_change_gcode self;
     after_change_gcode := after_change_gcode self;
     status := status self; active_tool := active_tool self;
     tools := tools self; tool_numbers := tool_numbers self;
     tool_names := tool_names self; error_message := error_message self |}.

Definition set_status (s : Status) (self : Toolchanger) : Toolchanger :=
  {| printer := printer self; name := name self;
     initialize_on := initialize_on self;
     initialize_gcode := initialize_gcode self;
     before_change_gcode := before_change_gcode self;
     after_change_gcode := after_change_gcode self;
     status := s; active_tool := active_tool self;
     tools := tools self; tool_numbers := tool_numbers self;
     tool_names := tool_names self; error_message := error_message self |}.

Definition set_active_tool (t : option Tool.t) (self : Toolchanger) : Toolchanger :=
  {| printer := printer self; name := name self;
     initialize_on := initialize_on self;
     initialize_gcode := initialize_gcode self;
     before_change_gcode := before_change_gcode self;
     after_change_gcode := after_change_gcode self;
     status := status self; active_tool := t;
     tools := tools self; tool_numbers := tool_numbers self;
     tool_names := tool_names self; error_message := error_message self |}.

Definition set_tools (m : gmap Z Tool.t) (self : Toolchanger) : Toolchanger :=
  {| printer := printer self; name := name self;
     initialize_on := initialize_on self;
     initialize_gcode := initialize_gcode self;
     before_change_gcode := before_change_gcode self;
     after_change_gcode := after_change_gcode self;
     status := status self; active_tool := active_tool self;
     tools := m; tool_numbers := tool_numbers self;
     tool_names := tool_names self; error_message := error_message self |}.

Definition set_tool_numbers (l : list Z) (self : Toolchanger) : Toolchanger :=
  {| printer := printer self; name := name self;
     initialize_on := initialize_on self;
     initialize_gcode := initialize_gcode self;
     before_change_gcode := before_change_gcode self;
     after_change_gcode := after_change_gcode self;
     status := status self; active_tool := active_tool self;
     tools := tools self; tool_numbers := l;
     tool_names := tool_names self; error_message := error_message self |}.

Definition set_tool_names (l : list string) (self : Toolchanger) : Toolchanger :=
  {| printer := printer self; name := name self;
     initialize_on := initialize_on self;
     initialize_gcode := initialize_gcode self;
     before_change_gcode := before_change_gcode self;
     after_change_gcode := after_change_gcode self;
     status := status self; active_tool := active_tool self;
     tools := tools self; tool_numbers := tool_numbers self;
     tool_names := l; error_message := error_message self |}.

Definition set_error_message (m : string) (self : Toolchanger) : Toolchanger :=
  {| printer := printer self; name := name self;
     initialize_on := initialize_on self;
     initialize_gcode := initialize_gcode self;
     before_change_gcode := before_change_gcode self;
     after_change_gcode := after_change_gcode self;
     status := status self; active_tool := active_tool self;
     tools := tools self; tool_numbers := tool_numbers self;
     tool_names := tool_names self; error_message := m |}.

(** Appends one call to the trace of the printer. *)
Definition log (ev : Event) (self : Toolchanger) : Toolchanger :=
  set_printer
    {| gcode_position := gcode_position (printer self);
       bed_mesh := bed_mesh (printer self);
       objects := objects (printer self);
       tool_params := tool_params (printer self);
       tool_modified_params := tool_modified_params (printer self);
       trace := trace (printer self) ++ [ev] |} self.

(** [tool.params[name] = value] *)
Definition set_tool_param (tool : Tool.t) (name : string) (value : Literal)
    (self : Toolchanger) : Toolchanger :=
  let params := default ∅ (tool_params (printer self) !! Tool.name tool) in
  set_printer
    {| gcode_position := gcode_position (printer self);
       bed_mesh := bed_mesh (printer self);
       objects := objects (printer self);
       tool_params := <[Tool.name tool := <[name := value]> params]> (tool_params (printer self));
       tool_modified_params := tool_modified_params (printer self);
       trace := trace (printer self) |} self.

(** [tool.modified_params[name] = value] *)
Definition set_tool_modified_param (tool : Tool.t) (name : string) (value : Literal)
    (self : Toolchanger) : Toolchanger :=
  let params := default ∅ (tool_modified_params (printer self) !! Tool.name tool) in
  set_printer
    {| gcode_position := gcode_position (printer self);
       bed_mesh := bed_mesh (printer self);
       objects := objects (printer self);
       tool_params := tool_params (printer self);
       tool_modified_params :=
         <[Tool.name tool := <[name := value]> params]> (tool_modified_params (printer self));
       trace := trace (printer self) |} self.

(** ** The monad of methods *)

Definition M (A : Type) : Type := Toolchanger -> Outcome A * Toolchanger.

#[global] Instance M_ret : MRet M := fun A a self => (Return a, self).
#[global] Instance M_bind : MBind M := fun A B f m self =>
  match m self with
  | (Return a, self') => f a self'
  | (Raise e, self') => (Raise e, self')
  end.

Definition get : M Toolchanger := fun self => (Return self, self).
Definition modify (f : Toolchanger -> Toolchanger) : M unit :=
  fun self => (Return tt, f self).
Definition raise {A : Type} (e : Exn) : M A := fun self => (Raise e, self).
Definition lift {A : Type} (o : Outcome A) : M A := fun self => (o, self).
Definition emit (ev : Event) : M unit := modify (log ev).

(** ** Python's lists and [bisect] *)

(** [l.remove(x)]: drops the first occurrence; [None] stands for the
    [ValueError] raised when there is none. *)
Fixpoint list_remove {A : Type} `{EqDecision A} (x : A) (l : list A) : option (list A) :=
  match l with
  | [] => None
  | y :: l' => if decide (x = y) then Some l' else (y ::.) <$> list_remove x l'
  end.

(** [l.insert(position, x)] for [0 <= position]. *)
Definition list_insert_at {A : Type} (position : nat) (x : A) (l : list A) : list A :=
  take position l ++ x :: drop position l.

(** The loop of [bisect.bisect_left(a, x)] on [lo, hi); [n] bounds the
    number of iterations. *)
Fixpoint bisect_loop (n : nat) (a : list Z) (x : Z) (lo hi : nat) : nat :=
  match n with
  | O => lo
  | S n' =>
    if decide (lo < hi) then
      let mid := (lo + hi) / 2 in
      match a !! mid with
      | Some v =>
        if decide (v < x)%Z then bisect_loop n' a x (mid + 1) hi
        else bisect_loop n' a x lo mid
      | None => lo
      end
    else lo
  end.

(** [hi - lo] halves at each iteration, so [len(a)] iterations are
    more than the loop can make. *)
Definition bisect_left (a : list Z) (x : Z) : nat :=
  bisect_loop (length a) a x 0 (length a).

(** ** Small helpers for Python's idioms *)

(** ['%s' % v] where [v] is a string or [None]. *)
Definition str_opt (v : option string) : string := default "None" v.

(** [if s:] on a value that is a string or [None]. *)
Definition truthy (v : option string) : bool :=
  match v with
  | Some s => negb (bool_decide (s = ""))
  | None => false
  end.

(** [key in d] *)
Definition contains {V : Type} (d : gmap Z V) (key : Z) : bool :=
  match d !! key with
  | Some _ => true
  | None => false
  end.

Definition remove {A : Type} `{EqDecision A} (x : A) (l : list A) : M (list A) :=
  match list_remove x l with
  | Some l' => mret l'
  | None => raise (ValueError "list.remove(x): x not in list")
  end.

Definition respond_info (msg : option string) : M unit := emit (EvRespondInfo msg).

Definition run_script_from_command (script : GcodeScript) : M unit :=
  emit (EvRunScript script).

(** ** The tool registry *)

(** [get_status] (lines 87-95) *)
Definition get_status (self : Toolchanger) : StatusSnapshot :=
  {| s_name := name self;
     s_status := status_str (status self);
     s_tool := Tool.name <$> active_tool self;
     s_tool_number :=
       match active_tool self with
       | Some t => Tool.tool_number t
       | None => (-1)%Z
       end;
     s_tool_numbers := tool_numbers self;
     s_tool_names := tool_names self |}.

(** [assign_tool] (lines 97-107) *)
Definition assign_tool (tool : Tool.t) (number prev_number : Z) (replace : bool) : M unit :=
  self ← get;
  if contains (tools self) number && negb replace then
    raise (Exception ("Duplicate tools with number " +:+ pretty number))
  else
    (if contains (tools self) prev_number then
       modify (fun self => set_tools (delete prev_number (tools self)) self);;
       self ← get;
       numbers ← remove prev_number (tool_numbers self);
       modify (set_tool_numbers numbers);;
       self ← get;
       names ← remove (Tool.name tool) (tool_names self);
       modify (set_tool_names names)
     else mret tt);;
    modify (fun self => set_tools (<[number := tool]> (tools self)) self);;
    self ← get;
    let position := bisect_left (tool_numbers self) number in
    modify (fun self => set_tool_numbers (list_insert_at position number (tool_numbers self)) self);;
    modify (fun self => set_tool_names (list_insert_at position (Tool.name tool) (tool_names self)) self).

(** [lookup_tool] (lines 293-294) *)
Definition lookup_tool (self : Toolchanger) (number : Z) : option Tool.t :=
  tools self !! number.

(** [get_selected_tool] (lines 296-297) *)
Definition get_selected_tool (self : Toolchanger) : option Tool.t :=
  active_tool self.

(** ** The position and offset calculator *)

(** [v += offset], where [offset] is a float or [None]. *)
Definition add_offset (v : float) (offset : option float) : Outcome float :=
  match offset with
  | Some o => Return (v + o)%float
  | None =>
    Raise (TypeError "unsupported operand type(s) for +=: 'float' and 'NoneType'")
  end.

(** The body of the loop of [_restore_position_with_tool_offset]
    (lines 327-338) for one character [i] of [axis]. *)
Definition restore_axis_step (position : Coord) (tool : option Tool.t)
    (i : ascii) (result : gmap string float) : Outcome (gmap string float) :=
  match XYZ_TO_INDEX i with
  | None => Raise (KeyError ("'" +:+ String i "" +:+ "'"))
  | Some index =>
    match coord_index position index with
    | None => Raise (IndexError "tuple index out of range")
    | Some v =>
      v ← match tool with
          | Some tool =>
            let offset :=
              if decide (index = 0) then Tool.gcode_x_offset tool
              else if decide (index = 1) then Tool.gcode_y_offset tool
              else if decide (index = 2) then Tool.gcode_z_offset tool
              else Some 0%float in
            add_offset v offset
          | None => Return v
          end;
      match INDEX_TO_XYZ index with
      | Some key => Return (<[key := v]> result)
      | None => Raise (IndexError "string index out of range")
      end
    end
  end.

Fixpoint restore_position_loop (position : Coord) (axis : string)
    (tool : option Tool.t) (result : gmap string float) : Outcome (gmap string float) :=
  match axis with
  | EmptyString => Return result
  | String i axis' =>
    result ← restore_axis_step position tool i result;
    restore_position_loop position axis' tool result
  end.

(** [_restore_position_with_tool_offset] (lines 324-339) *)
Definition _restore_position_with_tool_offset (position : Coord) (axis : string)
    (tool : option Tool.t) : Outcome (gmap string float) :=
  restore_position_loop position axis tool ∅.

(** [_restore_axis] (lines 341-345) *)
Definition _restore_axis (position : Coord) (axis : string) (tool : option Tool.t) : M unit :=
  if bool_decide (axis = "") then mret tt
  else
    pos ← lift (_restore_position_with_tool_offset position axis tool);
    emit (EvMove pos).

(** [-offset], where [offset] is a float or [None]. *)
Definition neg_offset (offset : option float) : Outcome float :=
  match offset with
  | Some o => Return (- o)%float
  | None => Raise (TypeError "bad operand type for unary -: 'NoneType'")
  end.

(** [_set_tool_gcode_offset] (lines 306-322) *)
Definition _set_tool_gcode_offset (tool : option Tool.t) : M unit :=
  match tool with
  | None => mret tt
  | Some tool =>
    match Tool.gcode_x_offset tool, Tool.gcode_y_offset tool, Tool.gcode_z_offset tool with
    | None, None, None => mret tt
    | x, y, z =>
      run_script_from_command (SET_GCODE_OFFSET x y z);;
      self ← get;
      match bed_mesh (printer self) with
      | Some true =>
        nx ← lift (neg_offset x);
        ny ← lift (neg_offset y);
        run_script_from_command (BED_MESH_OFFSET nx ny)
      | _ => mret tt
      end
    end
  end.

(** [_configure_toolhead_for_tool] (lines 299-304) *)
Definition _configure_toolhead_for_tool (tool : option Tool.t) : M unit :=
  self ← get;
  match active_tool self with
  | Some old => emit (EvDeactivate (Tool.name old))
  | None => mret tt
  end;;
  modify (set_active_tool tool);;
  self ← get;
  match active_tool self with
  | Some new => emit (EvActivate (Tool.name new))
  | None => mret tt
  end.

(** [cmd_SELECT_TOOL_ERROR] (lines 167-173) *)
Definition cmd_SELECT_TOOL_ERROR (gcmd : GCodeCommand) : M unit :=
  self ← get;
  if bool_decide (status self ≠ STATUS_CHANGING) && bool_decide (status self ≠ STATUS_INITIALIZING) then
    respond_info (Some "SELECT_TOOL_ERROR called while not selecting, doing nothing")
  else
    modify (set_status STATUS_ERROR);;
    modify (set_error_message (default "" (g_MESSAGE gcmd))).

(** [try: body / except Exception as e: handler(e)] *)
Definition try_except {A : Type} (body : M A) (handler : Exn -> M A) : M A :=
  fun self =>
    match body self with
    | (Raise e, self') => handler e self'
    | r => r
    end.

(** [self.printer.lookup_object(name)] for a tool; Klipper raises when
    no object has that name. *)
Definition lookup_object (name : string) : M Tool.t :=
  self ← get;
  match objects (printer self) !! name with
  | Some tool => mret tool
  | None => raise (ConfigError ("Unknown config object '" +:+ name +:+ "'"))
  end.

(** [_get_tool_from_gcmd] (lines 150-163) *)
Definition _get_tool_from_gcmd (gcmd : GCodeCommand) : M Tool.t :=
  let tool_name := g_TOOL gcmd in
  let tool_nr := g_T gcmd in
  if truthy tool_name then lookup_object (str_opt tool_name)
  else
    match tool_nr with
    | Some nr =>
      self ← get;
      match lookup_tool self nr with
      | Some tool => mret tool
      | None => raise (CommandError ("SET_TOOL_TEMPERATURE: T" +:+ pretty nr +:+ " not found"))
      end
    | None =>
      self ← get;
      match active_tool self with
      | Some tool => mret tool
      | None =>
        raise (CommandError "SET_TOOL_TEMPERATURE: No tool specified and no active tool")
      end
    end.

(** [cmd_SET_TOOL_TEMPERATURE] (lines 141-148) *)
Definition cmd_SET_TOOL_TEMPERATURE (gcmd : GCodeCommand) : M unit :=
  let temp := default 0%float (g_TARGET gcmd) in
  let wait := bool_decide (default 0%Z (g_WAIT gcmd) = 1%Z) in
  tool ← _get_tool_from_gcmd gcmd;
  match Tool.extruder tool with
  | None =>
    raise (CommandError ("SET_TOOL_TEMPERATURE: No extruder specified for tool "
                         +:+ Tool.name tool))
  | Some extruder => emit (EvSetTemperature extruder temp wait)
  end.

(** [gcmd.get(name)] with no default: Klipper raises when the command
    has no such parameter; its message quotes the command line, which
    is the name of the command here. *)
Definition gcmd_get {A : Type} (gcmd : GCodeCommand) (name : string) (value : option A) : M A :=
  match value with
  | Some a => mret a
  | None =>
    raise (CommandError ("Error on '" +:+ g_command gcmd +:+ "': missing " +:+ name))
  end.

(** [cmd_SET_TOOL_PARAMETER] (lines 364-369) *)
Definition cmd_SET_TOOL_PARAMETER (gcmd : GCodeCommand) : M unit :=
  tool ← _get_tool_from_gcmd gcmd;
  name ← gcmd_get gcmd "PARAMETER" (g_PARAMETER gcmd);
  evaluated ← gcmd_get gcmd "VALUE" (g_VALUE gcmd);
  value ← lift evaluated;
  modify (set_tool_param tool name value);;
  modify (set_tool_modified_param tool name value).

(** ** The hook runner and the state machine

    The script-execution service, [template.run_gcode_from_command],
    belongs to Klipper: the methods below are written against any
    behaviour it may have.  A script may change [self], since the
    commands it runs are dispatched back to this object. *)

Section Methods.

Variable run_gcode_from_command : Template -> Context -> M unit.

(** [run_gcode] (lines 347-362) *)
Definition run_gcode (name : string) (template : Template)
    (extra_context : option ExtraContext) : M unit :=
  self ← get;
  let current_status := status self in
  try_except
    (let context :=
       {| ctx_tool := Tool.get_status <$> active_tool self;
          ctx_toolchanger := get_status self;
          ctx_extra := extra_context |} in
     emit (EvHook name);;
     run_gcode_from_command template context)
    (fun e => raise (Exception ("Script running error: " +:+ exn_str e)));;
  self ← get;
  if bool_decide (current_status ≠ status self) then
    raise (Exception ("Unexpected status during " +:+ name
                      +:+ ", status = " +:+ status_str (status self)
                      +:+ ", message = " +:+ error_message self
                      +:+ ", aborting"))
  else mret tt.

(** [initialize] (lines 189-213) *)
Definition initialize (select_tool : option Tool.t) : M unit :=
  self ← get;
  if bool_decide (status self = STATUS_CHANGING) then
    raise (Exception "Cannot initialize while changing tools")
  else
    let should_run_initialize := bool_decide (status self ≠ STATUS_INITIALIZING) in
    (if should_run_initialize then
       modify (set_status STATUS_INITIALIZING);;
       self ← get;
       run_gcode "initialize_gcode" (initialize_gcode self) None
     else mret tt);;
    match select_tool with
    | Some tool =>
      _configure_toolhead_for_tool (Some tool);;
      self ← get;
      run_gcode "after_change_gcode" (after_change_gcode self) None;;
      _set_tool_gcode_offset (Some tool)
    | None => mret tt
    end;;
    if should_run_initialize then
      self ← get;
      if bool_decide (status self = STATUS_INITIALIZING) then
        modify (set_status STATUS_READY);;
        self ← get;
        respond_info (Some (name self +:+ " initialized, active "
                            +:+ str_opt (Tool.name <$> active_tool self)))
      else
        raise (CommandError (name self +:+ " failed to initialize, error: "
                             +:+ error_message self))
    else mret tt.

(** [_handle_home_rails_begin] (lines 83-85) *)
Definition _handle_home_rails_begin : M unit :=
  self ← get;
  if bool_decide (initialize_on self = INIT_ON_HOME)
     && bool_decide (status self = STATUS_UNINITALIZED) then
    initialize None
  else mret tt.

(** [select_tool] (lines 215-265) *)
Definition select_tool (gcmd : GCodeCommand) (tool : option Tool.t)
    (restore_axis : string) : M unit :=
  self ← get;
  (if bool_decide (status self = STATUS_UNINITALIZED)
      && bool_decide (initialize_on self = INIT_FIRST_USE) then
     initialize None
   else mret tt);;
  self ← get;
  if bool_decide (status self ≠ STATUS_READY) then
    raise (CommandError ("Cannot select tool, toolchanger status is "
                         +:+ status_str (status self)))
  else if Tool.opt_eqb (active_tool self) tool then
    respond_info
      match tool with
      | Some t => Some ("Tool " +:+ Tool.name t +:+ " already selected")
      | None => None
      end
  else
    modify (set_status STATUS_CHANGING);;
    self ← get;
    let gcode_position := gcode_position (printer self) in
    restore ← lift (_restore_position_with_tool_offset gcode_position restore_axis tool);
    let extra_context :=
      {| dropoff_tool := Tool.name <$> active_tool self;
         pickup_tool := Tool.name <$> tool;
         restore_position := restore |} in
    run_script_from_command (SAVE_GCODE_STATE "_toolchange_state");;
    self ← get;
    run_gcode "before_change_gcode" (before_change_gcode self) (Some extra_context);;
    run_script_from_command
      (SET_GCODE_OFFSET (Some 0.0%float) (Some 0.0%float) (Some 0.0%float));;
    self ← get;
    match active_tool self with
    | Some active =>
      run_gcode "tool.dropoff_gcode" (Tool.dropoff_gcode active) (Some extra_context)
    | None => mret tt
    end;;
    match tool with
    | Some t =>
      _configure_toolhead_for_tool tool;;
      run_gcode "tool.pickup_gcode" (Tool.pickup_gcode t) (Some extra_context);;
      self ← get;
      run_gcode "after_change_gcode" (after_change_gcode self) (Some extra_context)
    | None => mret tt
    end;;
    _restore_axis gcode_position restore_axis tool;;
    run_script_from_command (RESTORE_GCODE_STATE "_toolchange_state" 0);;
    match tool with
    | Some _ => _set_tool_gcode_offset tool
    | None => mret tt
    end;;
    modify (set_status STATUS_READY);;
    match tool with
    | Some t =>
      respond_info (Some ("Selected tool " +:+ pretty (Tool.tool_number t)
                          +:+ " (" +:+ Tool.name t +:+ ")"))
    | None => respond_info (Some "Tool unselected")
    end.

(** [test_tool_selection] (lines 267-291) *)
Definition test_tool_selection (gcmd : GCodeCommand) (restore_axis : string) : M unit :=
  self ← get;
  if bool_decide (status self ≠ STATUS_READY) then
    raise (CommandError ("Cannot test tool, toolchanger status is "
                         +:+ status_str (status self)))
  else
    match active_tool self with
    | None => raise (CommandError "Cannot test tool, no active tool")
    | Some tool =>
      modify (set_status STATUS_CHANGING);;
      self ← get;
      let gcode_position := gcode_position (printer self) in
      restore ← lift (_restore_position_with_tool_offset
                        gcode_position restore_axis (Some tool));
      let extra_context :=
        {| dropoff_tool := Tool.name <$> active_tool self;
           pickup_tool := Some (Tool.name tool);
           restore_position := restore |} in
      run_script_from_command
        (SET_GCODE_OFFSET (Some 0.0%float) (Some 0.0%float) (Some 0.0%float));;
      self ← get;
      match active_tool self with
      | Some active =>
        run_gcode "tool.dropoff_gcode" (Tool.dropoff_gcode active) (Some extra_context)
      | None =>
        raise (AttributeError "'NoneType' object has no attribute 'dropoff_gcode'")
      end;;
      run_gcode "tool.pickup_gcode" (Tool.pickup_gcode tool) (Some extra_context);;
      _restore_axis gcode_position restore_axis None;;
      modify (set_status STATUS_READY);;
      respond_info (Some "Tool testing done")
    end.

(** [cmd_INITIALIZE_TOOLCHANGER] (lines 110-120) *)
Definition cmd_INITIALIZE_TOOLCHANGER (gcmd : GCodeCommand) : M unit :=
  let tool_name := g_TOOL gcmd in
  let tool_number := g_T gcmd in
  tool ← (if truthy tool_name then
            found ← lookup_object (str_opt tool_name); mret (Some found)
          else mret None);
  tool ← match tool_number with
         | Some number =>
           self ← get;
           match lookup_tool self number with
           | Some t => mret (Some t)
           | None => raise (CommandError ("Tool #" +:+ pretty number +:+ " is not assigned"))
           end
         | None => mret tool
         end;
  initialize tool.

(** [cmd_SELECT_TOOL] (lines 123-138) *)
Definition cmd_SELECT_TOOL (gcmd : GCodeCommand) : M unit :=
  let tool_name := g_TOOL gcmd in
  if truthy tool_name then
    tool ← lookup_object (str_opt tool_name);
    let restore_axis := default (Tool.t_command_restore_axis tool) (g_RESTORE_AXIS gcmd) in
    select_tool gcmd (Some tool) restore_axis
  else
    match g_T gcmd with
    | Some tool_nr =>
      self ← get;
      match lookup_tool self tool_nr with
      | None => raise (CommandError ("Select tool: T" +:+ pretty tool_nr +:+ " not found"))
      | Some tool =>
        let restore_axis :=
          default (Tool.t_command_restore_axis tool) (g_RESTORE_AXIS gcmd) in
        select_tool gcmd (Some tool) restore_axis
      end
    | None => raise (CommandError "Select tool: Either TOOL or T needs to be specified")
    end.

(** [cmd_UNSELECT_TOOL] (lines 176-180) *)
Definition cmd_UNSELECT_TOOL (gcmd : GCodeCommand) : M unit :=
  self ← get;
  match active_tool self with
  | None => mret tt
  | Some active =>
    let restore_axis :=
      default (Tool.t_command_restore_axis active) (g_RESTORE_AXIS gcmd) in
    select_tool gcmd None restore_axis
  end.

(** [cmd_TEST_TOOL_DOCKING] (lines 183-187) *)
Definition cmd_TEST_TOOL_DOCKING (gcmd : GCodeCommand) : M unit :=
  self ← get;
  match active_tool self with
  | None => raise (CommandError "Cannot test tool, no active tool")
  | Some active =>
    let restore_axis :=
      default (Tool.t_command_restore_axis active) (g_RESTORE_AXIS gcmd) in
    test_tool_selection gcmd restore_axis
  end.

(** The commands registered in [__init__] (lines 62-81), as the gcode
    dispatcher routes them; a command of another module only leaves
    its mark in the trace. *)
Definition dispatch (gcmd : GCodeCommand) : M unit :=
  let command := g_command gcmd in
  if bool_decide (command = "INITIALIZE_TOOLCHANGER") then cmd_INITIALIZE_TOOLCHANGER gcmd
  else if bool_decide (command = "SET_TOOL_TEMPERATURE") then cmd_SET_TOOL_TEMPERATURE gcmd
  else if bool_decide (command = "SELECT_TOOL") then cmd_SELECT_TOOL gcmd
  else if bool_decide (command = "SELECT_TOOL_ERROR") then cmd_SELECT_TOOL_ERROR gcmd
  else if bool_decide (command = "UNSELECT_TOOL") then cmd_UNSELECT_TOOL gcmd
  else if bool_decide (command = "TEST_TOOL_DOCKING") then cmd_TEST_TOOL_DOCKING gcmd
  else if bool_decide (command = "SET_TOOL_PARAMETER") then cmd_SET_TOOL_PARAMETER gcmd
  else emit (EvOther gcmd).

(** A rendered script runs line by line and stops at the first error. *)
Fixpoint run_lines (script : list ScriptLine) : M unit :=
  match script with
  | [] => mret tt
  | Command gcmd :: script' => dispatch gcmd;; run_lines script'
  | RaiseError msg :: _ => raise (CommandError msg)
  end.

End Methods.

(** ** Scripts that call back into the toolchanger

    One behaviour of the script-execution service: a template is
    rendered and its commands are dispatched, to the handlers above
    for the commands of this module.  [depth] is the number of scripts
    that may be nested before Python gives up with [RecursionError]
    (an [Exception], so the [except] of [run_gcode] catches it). *)
Fixpoint run_template (depth : nat) (template : Template) (context : Context) : M unit :=
  match depth with
  | O => raise (RecursionError "maximum recursion depth exceeded")
  | S depth' => run_lines (run_template depth') (template context)
  end.

(** ** Relations between states, used to state the properties *)

(** [self'] is [self] but for its printer: the status, the active
    tool, the registry, the error message and the configuration are
    the same. *)
Definition same_toolchanger (self self' : Toolchanger) : Prop :=
  self' = set_printer (printer self') self.

(** What a script that returns may have done to the toolchanger: if
    the status is "changing" afterwards, nothing but calls into the
    printer. *)
Definition changing_kept (self self' : Toolchanger) : Prop :=
  status self' = STATUS_CHANGING -> same_toolchanger self self'.

(** The registry as the comments of lines 56-57 describe it: the
    numbers in ascending order without repetition, the names "in the
    same order as numbers", no name twice, and an entry at each index
    for exactly the tools of the mapping. *)
Definition registry_ok (self : Toolchanger) : Prop :=
  length (tool_numbers self) = length (tool_names self) /\
  StronglySorted Z.lt (tool_numbers self) /\
  NoDup (tool_names self) /\
  forall (n : Z) (name : string),
    (n, name) ∈ zip (tool_numbers self) (tool_names self)
    <-> exists t, tools self !! n = Some t /\ Tool.name t = name.

(** The offset a tool defines on the axis of index [index], as the
    chain of tests of lines 330-336 selects it. *)
Definition tool_offset (tool : Tool.t) (index : nat) : option float :=
  if decide (index = 0) then Tool.gcode_x_offset tool
  else if decide (index = 1) then Tool.gcode_y_offset tool
  else if decide (index = 2) then Tool.gcode_z_offset tool
  else Some 0%float.

(** Whether [axis] names the axis of index [index], in either case. *)
Fixpoint axis_listed (axis : string) (index : nat) : bool :=
  match axis with
  | EmptyString => false
  | String i axis' => bool_decide (XYZ_TO_INDEX i = Some index) || axis_listed axis' index
  end.

(** Whether every character of [axis] names an axis. *)
Fixpoint axis_valid (axis : string) : bool :=
  match axis with
  | EmptyString => true
  | String i axis' =>
    match XYZ_TO_INDEX i with
    | Some _ => axis_valid axis'
    | None => false
    end
  end.

(** The registry and the configuration of [self'] are those of
    [self]. *)
Definition same_registry (self self' : Toolchanger) : Prop :=
  tools self' = tools self /\
  tool_numbers self' = tool_numbers self /\
  tool_names self' = tool_names self /\
  name self' = name self /\
  initialize_on self' = initialize_on self /\
  initialize_gcode self' = initialize_gcode self /\
  before_change_gcode self' = before_change_gcode self /\
  after_change_gcode self' = after_change_gcode self.

(** Whatever its outcome, a value or an exception, the computation
    [m] takes a state to one related to it by [R]. *)
Definition keeps {A : Type} (R : Toolchanger -> Toolchanger -> Prop) (m : M A) : Prop :=
  forall self out self', m self = (out, self') -> R self self'.

(** A script line that is not for this object: a command other than
    the seven that [__init__] registers (lines 62-81). *)
Definition other_module (line : ScriptLine) : bool :=
  match line with
  | Command gcmd =>
    negb (bool_decide (g_command gcmd ∈ ["INITIALIZE_TOOLCHANGER"; "SET_TOOL_TEMPERATURE";
                                         "SELECT_TOOL"; "SELECT_TOOL_ERROR";
                                         "UNSELECT_TOOL"; "TEST_TOOL_DOCKING";
                                         "SET_TOOL_PARAMETER"]))
  | RaiseError _ => false
  end.

(** A template whose scripts never call back into the toolchanger and
    never raise. *)
Definition plain (template : Template) : Prop :=
  forall context, forallb other_module (template context) = true.

(** ** A machine with a few tools, on which the definitions are run *)

Module Example.

Definition no_script : Template := fun _ => [].

Definition gcmd (command : string) : GCodeCommand :=
  {| g_command := command; g_TOOL := None; g_T := None;
     g_RESTORE_AXIS := None; g_MESSAGE := None;
     g_TARGET := None; g_WAIT := None; g_PARAMETER := None; g_VALUE := None |}.

Definition tool (name : string) (number : Z) (x y z : option float) : Tool.t :=
  {| Tool.name := name; Tool.tool_number := number;
     Tool.gcode_x_offset := x; Tool.gcode_y_offset := y; Tool.gcode_z_offset := z;
     Tool.pickup_gcode := no_script; Tool.dropoff_gcode := no_script;
     Tool.t_command_restore_axis := ""; Tool.extruder := None |}.

Definition T1 : Tool.t :=
  tool "tool T1" 1 (Some 1.0%float) (Some 2.0%float) (Some 0.0%float).
Definition T2 : Tool.t :=
  tool "tool T2" 2 (Some 0.5%float) (Some 0.25%float) None.
Definition T3 : Tool.t :=
  tool "tool T3" 3 (Some 0.0%float) (Some 0.0%float) (Some 5.0%float).

Definition position : Coord :=
  {| coord_x := 100.0%float; coord_y := 50.0%float;
     coord_z := 10.0%float; coord_e := 0.0%float |}.

Definition the_printer (mesh : option bool) : Printer :=
  {| gcode_position := position; bed_mesh := mesh;
     objects := <["tool T1" := T1]> (<["tool T2" := T2]> (<["tool T3" := T3]> ∅));
     tool_params := ∅; tool_modified_params := ∅;
     trace := [] |}.

(** The registry after the three tools were assigned, in any status
    and with any active tool. *)
Definition machine_with
    (initialize_gcode before_change_gcode after_change_gcode : Template)
    (s : Status) (active : option Tool.t) : Toolchanger :=
  {| printer := the_printer None; name := "toolchanger";
     initialize_on := INIT_FIRST_USE;
     initialize_gcode := initialize_gcode;
     before_change_gcode := before_change_gcode;
     after_change_gcode := after_change_gcode;
     status := s; active_tool := active;
     tools := <[1%Z := T1]> (<[2%Z := T2]> (<[3%Z := T3]> ∅));
     tool_numbers := [1; 2; 3]%Z;
     tool_names := ["tool T1"; "tool T2"; "tool T3"];
     error_message := "" |}.

Definition machine : Status -> option Tool.t -> Toolchanger :=
  machine_with no_script no_script no_script.

(** A script that fails, as a macro calling [action_raise_error]. *)
Definition failing (msg : string) : Template := fun _ => [RaiseError msg].

(** A script that reports a failed change: [SELECT_TOOL_ERROR]. *)
Definition signalling (msg : string) : Template := fun _ =>
  [Command {| g_command := "SELECT_TOOL_ERROR"; g_TOOL := None; g_T := None;
              g_RESTORE_AXIS := None; g_MESSAGE := Some msg;
     g_TARGET := None; g_WAIT := None; g_PARAMETER := None; g_VALUE := None |}].

(** An initialize script that sets the starting tool by number. *)
Definition starting_with (number : Z) : Template := fun _ =>
  [Command {| g_command := "INITIALIZE_TOOLCHANGER"; g_TOOL := None;
              g_T := Some number; g_RESTORE_AXIS := None; g_MESSAGE := None;
     g_TARGET := None; g_WAIT := None; g_PARAMETER := None; g_VALUE := None |}].

(** A script of moves only, as a docking macro. *)
Definition moving : Template := fun _ => [Command (gcmd "G0"); Command (gcmd "M400")].

End Example.

(** * Properties *)

(** ** Lists: [remove], [insert] and [bisect_left] *)

Arguments list_insert_at : simpl never.
Arguments bisect_left : simpl never.
Arguments _set_tool_gcode_offset : simpl never.
Arguments _configure_toolhead_for_tool : simpl never.
Arguments _restore_axis : simpl never.
Arguments run_gcode : simpl never.
Arguments initialize : simpl never.
Arguments select_tool : simpl never.
Arguments test_tool_selection : simpl never.

Lemma list_remove_split {A : Type} `{EqDecision A} (x : A) (l l' : list A) :
  list_remove x l = Some l' ->
  exists l1 l2, l = l1 ++ x :: l2 /\ l' = l1 ++ l2 /\ x ∉ l1.
Proof.
  revert l'. induction l as [|y l IH]; intros l' Hrm; simpl in Hrm; [discriminate|].
  destruct (decide (x = y)) as [->|Hne].
  - injection Hrm as <-. exists [], l. split_and!; [done|done|]. apply not_elem_of_nil.
  - destruct (list_remove x l) as [r|] eqn:Hr; simpl in Hrm; [|discriminate].
    injection Hrm as <-.
    destruct (IH r eq_refl) as (l1 & l2 & -> & -> & Hnin).
    exists (y :: l1), l2. split_and!; [done|done|].
    rewrite not_elem_of_cons. done.
Qed.

Lemma list_remove_is_Some {A : Type} `{EqDecision A} (x : A) (l : list A) :
  x ∈ l -> is_Some (list_remove x l).
Proof.
  induction l as [|y l IH]; intros Hin; [by apply elem_of_nil in Hin|].
  simpl. destruct (decide (x = y)); [by eexists|].
  apply elem_of_cons in Hin as [?|Hin]; [done|].
  destruct (IH Hin) as [r ->]. by eexists.
Qed.



Lemma list_insert_at_length {A : Type} (position : nat) (x : A) (l : list A) :
  length (list_insert_at position x l) = S (length l).
Proof.
  unfold list_insert_at. rewrite length_app. simpl.
  rewrite length_take, length_drop. lia.
Qed.

Lemma StronglySorted_lookup_le (a : list Z) (i j : nat) (vi vj : Z) :
  StronglySorted Z.le a -> i <= j -> a !! i = Some vi -> a !! j = Some vj ->
  (vi <= vj)%Z.
Proof.
  intros Hs. revert i j. induction Hs as [|v a Hs IH Hall]; intros i j Hij Hi Hj.
  - by rewrite lookup_nil in Hi.
  - destruct i as [|i], j as [|j]; simpl in *; simplify_eq; try lia.
    + rewrite Forall_lookup in Hall. eauto.
    + apply (IH i j); [lia|done|done].
Qed.

(** What the loop of [bisect_left] leaves on a sorted list: every
    element before the result is below [x], every other is not. *)
Lemma bisect_loop_spec (n : nat) (a : list Z) (x : Z) (lo hi : nat) :
  StronglySorted Z.le a ->
  lo <= hi -> hi <= length a -> hi - lo <= n ->
  (forall i v, i < lo -> a !! i = Some v -> (v < x)%Z) ->
  (forall i v, hi <= i -> a !! i = Some v -> (x <= v)%Z) ->
  let p := bisect_loop n a x lo hi in
  lo <= p /\ p <= hi /\
  (forall i v, i < p -> a !! i = Some v -> (v < x)%Z) /\
  (forall i v, p <= i -> a !! i = Some v -> (x <= v)%Z).
Proof.
  intros Hs. revert lo hi.
  induction n as [|n IH]; intros lo hi Hle Hhi Hn Hlo Hge; cbn [bisect_loop].
  - assert (hi = lo) as -> by lia. auto.
  - destruct (decide (lo < hi)) as [Hlt|Hnlt].
    + assert (lo <= (lo + hi) / 2 < hi) as [Hm1 Hm2].
      { split.
        - apply Nat.div_le_lower_bound; lia.
        - apply Nat.Div0.div_lt_upper_bound; lia. }
      destruct (a !! ((lo + hi) / 2)) as [v|] eqn:Hmid.
      * destruct (decide (v < x)%Z) as [Hvx|Hvx].
        -- assert (forall i w, i < (lo + hi) / 2 + 1 -> a !! i = Some w -> (w < x)%Z) as Hlo'.
           { intros i w Hi Hw.
             assert (w <= v)%Z; [|lia].
             apply (StronglySorted_lookup_le a i ((lo + hi) / 2)); [done|lia|done|done]. }
           pose proof (IH ((lo + hi) / 2 + 1) hi ltac:(lia) Hhi ltac:(lia) Hlo' Hge)
             as (H1 & H2 & H3 & H4).
           split_and!; [lia|done|done|done].
        -- assert (forall i w, (lo + hi) / 2 <= i -> a !! i = Some w -> (x <= w)%Z) as Hge'.
           { intros i w Hi Hw.
             assert (v <= w)%Z; [|lia].
             apply (StronglySorted_lookup_le a ((lo + hi) / 2) i); [done|lia|done|done]. }
           pose proof (IH lo ((lo + hi) / 2) Hm1 ltac:(lia) ltac:(lia) Hlo Hge')
             as (H1 & H2 & H3 & H4).
           split_and!; [done|lia|done|done].
      * apply lookup_ge_None in Hmid. lia.
    + assert (hi = lo) as -> by lia. auto.
Qed.

Lemma bisect_left_spec (a : list Z) (x : Z) :
  StronglySorted Z.le a ->
  bisect_left a x <= length a /\
  Forall (fun v => (v < x)%Z) (take (bisect_left a x) a) /\
  Forall (fun v => (x <= v)%Z) (drop (bisect_left a x) a).
Proof.
  intros Hs. unfold bisect_left.
  assert (forall i v, i < 0 -> a !! i = Some v -> (v < x)%Z) as Hlo by (intros; lia).
  assert (forall i v, length a <= i -> a !! i = Some v -> (x <= v)%Z) as Hhi.
  { intros i v Hi Hv. apply lookup_lt_Some in Hv. lia. }
  pose proof (bisect_loop_spec (length a) a x 0 (length a) Hs
                ltac:(lia) ltac:(lia) ltac:(lia) Hlo Hhi) as (_ & Hp & Hlt & Hge).
  split_and!; [done| |].
  - apply Forall_lookup. intros i v Hv.
    apply lookup_take_Some in Hv as [Hv Hi]. eauto.
  - apply Forall_lookup. intros i v Hv.
    rewrite lookup_drop in Hv. apply (Hge _ _ (Nat.le_add_r _ i) Hv).
Qed.


(** ** Running computations of the monad *)

Lemma bind_run {A B : Type} (m : M A) (f : A -> M B) (self : Toolchanger) :
  (m ≫= f) self =
  match m self with
  | (Return a, self') => f a self'
  | (Raise e, self') => (Raise e, self')
  end.
Proof. reflexivity. Qed.

Lemma bind_Return_inv {A B : Type} (m : M A) (f : A -> M B)
    (self self' : Toolchanger) (b : B) :
  (m ≫= f) self = (Return b, self') ->
  exists a self1, m self = (Return a, self1) /\ f a self1 = (Return b, self').
Proof.
  rewrite bind_run. destruct (m self) as [[a|e] self1]; [eauto|discriminate].
Qed.

Lemma get_bind {B : Type} (f : Toolchanger -> M B) (self : Toolchanger) :
  (get ≫= f) self = f self self.
Proof. reflexivity. Qed.

Lemma modify_bind {B : Type} (g : Toolchanger -> Toolchanger) (f : unit -> M B)
    (self : Toolchanger) :
  (modify g ≫= f) self = f tt (g self).
Proof. reflexivity. Qed.

Lemma mret_bind {A B : Type} (a : A) (f : A -> M B) (self : Toolchanger) :
  (mret a ≫= f) self = f a self.
Proof. reflexivity. Qed.

Lemma lift_Return_bind {A B : Type} (a : A) (f : A -> M B) (self : Toolchanger) :
  (lift (Return a) ≫= f) self = f a self.
Proof. reflexivity. Qed.

Lemma run_script_from_command_bind {B : Type} (script : GcodeScript) (f : unit -> M B)
    (self : Toolchanger) :
  (run_script_from_command script ≫= f) self = f tt (log (EvRunScript script) self).
Proof. reflexivity. Qed.

Lemma bind_unit_r (m : M unit) (self : Toolchanger) :
  (m ≫= fun _ => mret tt) self = m self.
Proof.
  rewrite bind_run. by destruct (m self) as [[[]|e] self1].
Qed.

(** Splits a hypothesis [(m ≫= f) self = (Return b, self')] into the
    run of [m] and the run of [f]. *)
Ltac bind_inv H :=
  let a := fresh "a" in
  let s := fresh "self" in
  let H1 := fresh H in
  apply bind_Return_inv in H as (a & s & H1 & H);
  try match type of a with unit => destruct a end.

(** ** The tool registry *)


(** [assign_tool], with the binds of the monad carried out. *)
Lemma assign_tool_unfold (tool : Tool.t) (number prev_number : Z) (replace : bool)
    (self : Toolchanger) :
  assign_tool tool number prev_number replace self =
  if contains (tools self) number && negb replace then
    (Raise (Exception ("Duplicate tools with number " +:+ pretty number)), self)
  else
    let insert_into (self : Toolchanger) :=
      let self1 := set_tools (<[number := tool]> (tools self)) self in
      let position := bisect_left (tool_numbers self1) number in
      let self2 :=
        set_tool_numbers (list_insert_at position number (tool_numbers self1)) self1 in
      (Return tt,
       set_tool_names (list_insert_at position (Tool.name tool) (tool_names self2)) self2) in
    if contains (tools self) prev_number then
      let self1 := set_tools (delete prev_number (tools self)) self in
      match list_remove prev_number (tool_numbers self1) with
      | None => (Raise (ValueError "list.remove(x): x not in list"), self1)
      | Some numbers =>
        let self2 := set_tool_numbers numbers self1 in
        match list_remove (Tool.name tool) (tool_names self2) with
        | None => (Raise (ValueError "list.remove(x): x not in list"), self2)
        | Some names => insert_into (set_tool_names names self2)
        end
      end
    else insert_into self.
Proof.
  unfold assign_tool, mbind, M_bind, get. cbn beta iota.
  destruct (contains (tools self) number && negb replace); [reflexivity|].
  destruct (contains (tools self) prev_number); [|reflexivity].
  unfold remove, modify. cbn.
  destruct (list_remove prev_number (tool_numbers self)); [|reflexivity]. cbn.
  destruct (list_remove (Tool.name tool) (tool_names self)); reflexivity.
Qed.

Lemma contains_is_Some {V : Type} (d : gmap Z V) (key : Z) :
  contains d key = true <-> is_Some (d !! key).
Proof.
  unfold contains. destruct (d !! key); split; intros H; done.
Qed.




(** ** The error signal *)

(** C4. [SELECT_TOOL_ERROR] while changing or initializing sets the
    status to error and records the message; in any other status it
    returns without raising, tells the caller that it did nothing, and
    leaves the status, the error message, the active tool and the
    registry as they were. *)
Theorem cmd_SELECT_TOOL_ERROR_correct (gcmd : GCodeCommand) (self : Toolchanger) :
  exists self',
    cmd_SELECT_TOOL_ERROR gcmd self = (Return tt, self') /\
    active_tool self' = active_tool self /\
    tools self' = tools self /\
    tool_numbers self' = tool_numbers self /\
    tool_names self' = tool_names self /\
    if bool_decide (status self = STATUS_CHANGING \/ status self = STATUS_INITIALIZING)
    then
      status self' = STATUS_ERROR /\
      error_message self' = default "" (g_MESSAGE gcmd) /\
      printer self' = printer self
    else
      status self' = status self /\
      error_message self' = error_message self /\
      trace (printer self') =
        trace (printer self)
        ++ [EvRespondInfo
              (Some "SELECT_TOOL_ERROR called while not selecting, doing nothing")].
Proof.
  unfold cmd_SELECT_TOOL_ERROR, mbind, M_bind, get, respond_info, emit, modify.
  cbn beta iota.
  destruct (status self) eqn:Hst; cbn; eexists; (split; [reflexivity|]);
    cbn; rewrite ?Hst; split_and!; try reflexivity;
    (case_bool_decide as Hd;
     [ try (destruct Hd; discriminate) | try (exfalso; apply Hd; auto; fail) ]);
    auto.
Qed.

(** ** Unselecting with no active tool *)

(** C10. With no active tool, [UNSELECT_TOOL] returns at once: nothing
    is raised, no hook runs, no move is issued, and the toolchanger and
    the trace of the printer are exactly as before. *)
Theorem cmd_UNSELECT_TOOL_no_active_tool
    (run_gcode_from_command : Template -> Context -> M unit)
    (gcmd : GCodeCommand) (self : Toolchanger) :
  active_tool self = None ->
  cmd_UNSELECT_TOOL run_gcode_from_command gcmd self = (Return tt, self).
Proof.
  intros Hnone. unfold cmd_UNSELECT_TOOL, mbind, M_bind, get. cbn beta iota.
  rewrite Hnone. reflexivity.
Qed.

Lemma cmd_UNSELECT_TOOL_no_active_tool_witness :
  cmd_UNSELECT_TOOL (run_template 8) (Example.gcmd "UNSELECT_TOOL")
    (Example.machine STATUS_READY None)
  = (Return tt, Example.machine STATUS_READY None).
Proof.
  apply cmd_UNSELECT_TOOL_no_active_tool. reflexivity.
Defined.

(** ** Applying the gcode offset of a tool *)




(** ** The hook runner *)

(** [run_gcode], with the binds of the monad carried out, in terms of
    what the script-execution service does. *)
Lemma run_gcode_unfold
    (run_gcode_from_command : Template -> Context -> M unit)
    (hook : string) (template : Template) (extra_context : option ExtraContext)
    (self : Toolchanger) :
  run_gcode run_gcode_from_command hook template extra_context self =
  match run_gcode_from_command template
          {| ctx_tool := Tool.get_status <$> active_tool self;
             ctx_toolchanger := get_status self;
             ctx_extra := extra_context |} (log (EvHook hook) self) with
  | (Raise e, self') =>
    (Raise (Exception ("Script running error: " +:+ exn_str e)), self')
  | (Return _, self') =>
    if bool_decide (status self' = status self) then (Return tt, self')
    else
      (Raise (Exception ("Unexpected status during " +:+ hook
                         +:+ ", status = " +:+ status_str (status self')
                         +:+ ", message = " +:+ error_message self'
                         +:+ ", aborting")), self')
  end.
Proof.
  unfold run_gcode, mbind, M_bind, get, try_except, emit, modify, raise.
  cbn beta iota.
  destruct (run_gcode_from_command template _ (log (EvHook hook) self)) as [[[]|e] self'];
    [|reflexivity].
  cbn beta iota. repeat case_bool_decide; first [reflexivity | congruence].
Qed.

(** C3, as the code has it.  [run_gcode] hands the template and the
    context to the script-execution service.  When the script
    completes and the status is not the one captured before the call,
    an error carrying the name of the hook, the new status and the
    recorded error message is raised.  A fault of the script is caught
    and raised again as a script-running error that carries the
    message of the fault (the name of the hook is not in it). *)
Theorem run_gcode_correct
    (run_gcode_from_command : Template -> Context -> M unit)
    (hook : string) (template : Template) (extra_context : option ExtraContext)
    (self : Toolchanger) :
  let script :=
    run_gcode_from_command template
      {| ctx_tool := Tool.get_status <$> active_tool self;
         ctx_toolchanger := get_status self;
         ctx_extra := extra_context |} (log (EvHook hook) self) in
  (forall self',
     script = (Return tt, self') -> status self' <> status self ->
     run_gcode run_gcode_from_command hook template extra_context self
     = (Raise (Exception ("Unexpected status during " +:+ hook
                          +:+ ", status = " +:+ status_str (status self')
                          +:+ ", message = " +:+ error_message self'
                          +:+ ", aborting")), self'))
  /\
  (forall e self',
     script = (Raise e, self') ->
     run_gcode run_gcode_from_command hook template extra_context self
     = (Raise (Exception ("Script running error: " +:+ exn_str e)), self'))
  /\
  (forall self',
     script = (Return tt, self') -> status self' = status self ->
     run_gcode run_gcode_from_command hook template extra_context self
     = (Return tt, self')).
Proof.
  cbn zeta. rewrite run_gcode_unfold. split_and!.
  - intros self' -> Hst. by rewrite bool_decide_false.
  - intros e self' ->. reflexivity.
  - intros self' -> Hst. by rewrite bool_decide_true.
Qed.

(** A before-change script that calls [SELECT_TOOL_ERROR]: the hook
    returns, the status has become "error", and [run_gcode] raises
    with the name of the hook, the status and the message. *)
Lemma run_gcode_correct_witness :
  let self := Example.machine STATUS_CHANGING (Some Example.T1) in
  (run_gcode (run_template 4) "before_change_gcode"
     (Example.signalling "probe failed") None self).1
  = Raise (Exception "Unexpected status during before_change_gcode, status = error, message = probe failed, aborting").
Proof.
  intros self.
  pose proof (proj1 (run_gcode_correct (run_template 4) "before_change_gcode"
                       (Example.signalling "probe failed") None self)) as H.
  cbn zeta in H. erewrite H; cycle 1;
    [vm_compute; reflexivity | vm_compute; discriminate | vm_compute; reflexivity].
Defined.

(** C3, as stated, fails: the same failing script run as two different
    hooks raises the same error, whose message does not contain the
    name of either hook. *)
Lemma run_gcode_fault_omits_hook_name :
  let self := Example.machine STATUS_CHANGING (Some Example.T1) in
  let raised (hook : string) :=
    (run_gcode (run_template 4) hook (Example.failing "boom") None self).1 in
  raised "before_change_gcode" = Raise (Exception "Script running error: boom") /\
  raised "tool.pickup_gcode" = Raise (Exception "Script running error: boom") /\
  String.index 0 "before_change_gcode" "Script running error: boom" = None /\
  String.index 0 "tool.pickup_gcode" "Script running error: boom" = None.
Proof.
  split_and!; vm_compute; reflexivity.
Qed.

(** ** What the calls into Klipper leave alone *)

Lemma same_toolchanger_refl (self : Toolchanger) : same_toolchanger self self.
Proof. by destruct self. Qed.

Lemma same_toolchanger_trans (self1 self2 self3 : Toolchanger) :
  same_toolchanger self1 self2 -> same_toolchanger self2 self3 ->
  same_toolchanger self1 self3.
Proof. unfold same_toolchanger. intros -> ->. reflexivity. Qed.

Lemma same_toolchanger_log (ev : Event) (self : Toolchanger) :
  same_toolchanger self (log ev self).
Proof. reflexivity. Qed.

Lemma same_toolchanger_fields (self self' : Toolchanger) :
  same_toolchanger self self' ->
  status self' = status self /\
  active_tool self' = active_tool self /\
  tools self' = tools self /\
  tool_numbers self' = tool_numbers self /\
  tool_names self' = tool_names self /\
  error_message self' = error_message self /\
  after_change_gcode self' = after_change_gcode self.
Proof. intros ->. repeat split. Qed.

Lemma _restore_axis_same (position : Coord) (axis : string) (tool : option Tool.t)
    (self self' : Toolchanger) (out : Outcome unit) :
  _restore_axis position axis tool self = (out, self') -> same_toolchanger self self'.
Proof.
  unfold _restore_axis. case_bool_decide.
  - intros [= _ <-]. apply same_toolchanger_refl.
  - rewrite bind_run. unfold lift.
    destruct (_restore_position_with_tool_offset position axis tool).
    + intros [= _ <-]. apply same_toolchanger_log.
    + intros [= _ <-]. apply same_toolchanger_refl.
Qed.

Lemma _set_tool_gcode_offset_same (tool : option Tool.t)
    (self self' : Toolchanger) (out : Outcome unit) :
  _set_tool_gcode_offset tool self = (out, self') -> same_toolchanger self self'.
Proof.
  unfold _set_tool_gcode_offset.
  destruct tool as [tool|]; [|intros [= _ <-]; apply same_toolchanger_refl].
  destruct (Tool.gcode_x_offset tool) as [x|], (Tool.gcode_y_offset tool) as [y|],
    (Tool.gcode_z_offset tool) as [z|];
    unfold mbind, M_bind, run_script_from_command, emit, modify, get, lift, neg_offset;
    cbn;
    try (destruct (bed_mesh (printer self)) as [[]|]);
    intros [= _ <-]; first [apply same_toolchanger_refl | reflexivity].
Qed.

Lemma _get_tool_from_gcmd_same (gcmd : GCodeCommand) (self self' : Toolchanger)
    (out : Outcome Tool.t) :
  _get_tool_from_gcmd gcmd self = (out, self') -> self' = self.
Proof.
  unfold _get_tool_from_gcmd, lookup_object. cbn zeta.
  destruct (truthy (g_TOOL gcmd)).
  - rewrite get_bind. destruct (objects (printer self) !! _); by intros [= _ <-].
  - destruct (g_T gcmd) as [nr|]; rewrite get_bind.
    + destruct (lookup_tool self nr); by intros [= _ <-].
    + destruct (active_tool self); by intros [= _ <-].
Qed.

Lemma cmd_SET_TOOL_TEMPERATURE_same (gcmd : GCodeCommand) (self self' : Toolchanger)
    (out : Outcome unit) :
  cmd_SET_TOOL_TEMPERATURE gcmd self = (out, self') -> same_toolchanger self self'.
Proof.
  unfold cmd_SET_TOOL_TEMPERATURE. cbn zeta. rewrite bind_run.
  destruct (_get_tool_from_gcmd gcmd self) as [[tool|e] self1] eqn:Htool;
    apply _get_tool_from_gcmd_same in Htool as ->.
  - destruct (Tool.extruder tool); intros [= _ <-];
      [apply same_toolchanger_log|apply same_toolchanger_refl].
  - intros [= _ <-]. apply same_toolchanger_refl.
Qed.

Lemma cmd_SET_TOOL_PARAMETER_same (gcmd : GCodeCommand) (self self' : Toolchanger)
    (out : Outcome unit) :
  cmd_SET_TOOL_PARAMETER gcmd self = (out, self') -> same_toolchanger self self'.
Proof.
  unfold cmd_SET_TOOL_PARAMETER, gcmd_get, lift. rewrite bind_run.
  destruct (_get_tool_from_gcmd gcmd self) as [[tool|e] self1] eqn:Htool;
    apply _get_tool_from_gcmd_same in Htool as ->;
    [|intros [= _ <-]; apply same_toolchanger_refl].
  destruct (g_PARAMETER gcmd) as [name|];
    [|intros [= _ <-]; apply same_toolchanger_refl].
  destruct (g_VALUE gcmd) as [[value|e]|];
    intros [= _ <-]; first [apply same_toolchanger_refl | reflexivity].
Qed.

Lemma _configure_toolhead_for_tool_run (tool : option Tool.t) (self : Toolchanger) :
  exists self',
    _configure_toolhead_for_tool tool self = (Return tt, self') /\
    active_tool self' = tool /\
    same_toolchanger (set_active_tool tool self) self'.
Proof.
  unfold _configure_toolhead_for_tool, mbind, M_bind, get, emit, modify.
  cbn beta iota.
  destruct (active_tool self) as [old|], tool as [new|]; cbn;
    eexists; (split; [reflexivity|]); split; reflexivity.
Qed.

Lemma run_gcode_Return
    (run_gcode_from_command : Template -> Context -> M unit)
    (hook : string) (template : Template) (extra_context : option ExtraContext)
    (self self' : Toolchanger) :
  run_gcode run_gcode_from_command hook template extra_context self = (Return tt, self') ->
  status self' = status self /\
  run_gcode_from_command template
    {| ctx_tool := Tool.get_status <$> active_tool self;
       ctx_toolchanger := get_status self;
       ctx_extra := extra_context |} (log (EvHook hook) self) = (Return tt, self').
Proof.
  rewrite run_gcode_unfold.
  destruct (run_gcode_from_command template _ (log (EvHook hook) self))
    as [[[]|e] self1]; [|discriminate].
  case_bool_decide; [|discriminate]. intros [= <-]. done.
Qed.

(** ** Initialization *)

Lemma initialize_changing
    (run_gcode_from_command : Template -> Context -> M unit)
    (select_tool : option Tool.t) (self : Toolchanger) :
  status self = STATUS_CHANGING ->
  initialize run_gcode_from_command select_tool self
  = (Raise (Exception "Cannot initialize while changing tools"), self).
Proof.
  intros Hst. unfold initialize. rewrite get_bind.
  rewrite bool_decide_true by done. reflexivity.
Qed.

Lemma initialize_nested
    (run_gcode_from_command : Template -> Context -> M unit)
    (select_tool : option Tool.t) (self : Toolchanger) :
  status self = STATUS_INITIALIZING ->
  initialize run_gcode_from_command select_tool self
  = match select_tool with
    | Some tool =>
      (_configure_toolhead_for_tool (Some tool);;
       self ← get;
       run_gcode run_gcode_from_command "after_change_gcode"
         (after_change_gcode self) None;;
       _set_tool_gcode_offset (Some tool)) self
    | None => (Return tt, self)
    end.
Proof.
  intros Hst. unfold initialize. rewrite get_bind.
  rewrite bool_decide_false by (rewrite Hst; done).
  rewrite (bool_decide_false (status self ≠ STATUS_INITIALIZING)) by (rewrite Hst; auto).
  rewrite mret_bind, bind_unit_r.
  destruct select_tool; reflexivity.
Qed.

Lemma initialize_nested_status
    (run_gcode_from_command : Template -> Context -> M unit)
    (select_tool : option Tool.t) (self self' : Toolchanger) :
  status self = STATUS_INITIALIZING ->
  initialize run_gcode_from_command select_tool self = (Return tt, self') ->
  status self' = STATUS_INITIALIZING.
Proof.
  intros Hst. rewrite initialize_nested by done.
  destruct select_tool as [tool|]; [|by intros [= <-]].
  intros Hrun.
  bind_inv Hrun. bind_inv Hrun. bind_inv Hrun.
  destruct (_configure_toolhead_for_tool_run (Some tool) self) as (s & Hc & _ & Hsame).
  rewrite Hc in Hrun0. injection Hrun0 as <-.
  injection Hrun1 as <- <-.
  apply run_gcode_Return in Hrun2 as [Hst2 _].
  apply _set_tool_gcode_offset_same, same_toolchanger_fields in Hrun as (-> & _).
  rewrite Hst2.
  apply same_toolchanger_fields in Hsame as (-> & _). exact Hst.
Qed.

Lemma initialize_outer_ready
    (run_gcode_from_command : Template -> Context -> M unit)
    (select_tool : option Tool.t) (self self' : Toolchanger) :
  status self <> STATUS_CHANGING -> status self <> STATUS_INITIALIZING ->
  initialize run_gcode_from_command select_tool self = (Return tt, self') ->
  status self' = STATUS_READY.
Proof.
  intros Hc Hi. unfold initialize. rewrite get_bind.
  rewrite bool_decide_false by done.
  rewrite (bool_decide_true (status self ≠ STATUS_INITIALIZING)) by done.
  intros Hrun.
  bind_inv Hrun. bind_inv Hrun.
  rewrite get_bind in Hrun.
  case_bool_decide; [|discriminate].
  rewrite modify_bind, get_bind in Hrun.
  injection Hrun as <-. reflexivity.
Qed.

Lemma bind_Raise_inv {A B : Type} (m : M A) (f : A -> M B)
    (self self' : Toolchanger) (e : Exn) :
  (m ≫= f) self = (Raise e, self') ->
  m self = (Raise e, self') \/
  exists a self1, m self = (Return a, self1) /\ f a self1 = (Raise e, self').
Proof.
  rewrite bind_run. destruct (m self) as [[a|e1] self1]; [eauto|].
  intros [= <- <-]. by left.
Qed.

Lemma run_gcode_Raise
    (run_gcode_from_command : Template -> Context -> M unit)
    (hook : string) (template : Template) (extra_context : option ExtraContext)
    (self self' : Toolchanger) (e : Exn) :
  run_gcode run_gcode_from_command hook template extra_context self = (Raise e, self') ->
  exists msg, e = Exception msg.
Proof.
  rewrite run_gcode_unfold.
  destruct (run_gcode_from_command template _ (log (EvHook hook) self))
    as [[[]|e1] self1].
  - case_bool_decide; [discriminate|]. intros [= <- _]. by eexists.
  - intros [= <- _]. by eexists.
Qed.

Lemma _set_tool_gcode_offset_Raise (tool : option Tool.t) (self self' : Toolchanger)
    (e : Exn) :
  _set_tool_gcode_offset tool self = (Raise e, self') -> exists msg, e = TypeError msg.
Proof.
  unfold _set_tool_gcode_offset.
  destruct tool as [tool|]; [|discriminate].
  destruct (Tool.gcode_x_offset tool) as [x|], (Tool.gcode_y_offset tool) as [y|],
    (Tool.gcode_z_offset tool) as [z|];
    unfold mbind, M_bind, run_script_from_command, emit, modify, get, lift, neg_offset;
    cbn;
    try (destruct (bed_mesh (printer self)) as [[]|]);
    intros [= <- _]; by eexists.
Qed.

(** The activation of the tool, the after-change hook and the offset
    (lines 201-204) keep the status when they return, and raise an
    [Exception] of [run_gcode] or the [TypeError] of a missing offset
    otherwise. *)
Lemma initialize_activation
    (run_gcode_from_command : Template -> Context -> M unit)
    (select_tool : option Tool.t) (self self' : Toolchanger) (out : Outcome unit) :
  match select_tool with
  | Some tool =>
    _configure_toolhead_for_tool (Some tool);;
    self ← get;
    run_gcode run_gcode_from_command "after_change_gcode" (after_change_gcode self) None;;
    _set_tool_gcode_offset (Some tool)
  | None => mret tt
  end self = (out, self') ->
  match out with
  | Return _ => status self' = status self
  | Raise e => exists msg, e = Exception msg \/ e = TypeError msg
  end.
Proof.
  destruct select_tool as [tool|]; [|by intros [= <- <-]].
  rewrite bind_run.
  destruct (_configure_toolhead_for_tool_run (Some tool) self) as (s1 & -> & _ & Hsame).
  apply same_toolchanger_fields in Hsame as (Hst1 & _). cbn in Hst1.
  rewrite get_bind, bind_run.
  destruct (run_gcode _ _ _ _ s1) as [[[]|e1] s2] eqn:Hhook.
  - apply run_gcode_Return in Hhook as [Hst2 _].
    destruct out as [[]|e]; intros Hoff.
    + apply _set_tool_gcode_offset_same, same_toolchanger_fields in Hoff as (-> & _).
      congruence.
    + apply _set_tool_gcode_offset_Raise in Hoff as [msg ->]. eauto.
  - apply run_gcode_Raise in Hhook as [msg ->]. intros [= <- _]. eauto.
Qed.

(** The outermost call: the initialize hook and the activation steps
    run first; if they return, the status is still initializing, is set
    to ready, and the initialization is reported; if they raise, the
    call raises the same error. *)
Lemma initialize_outer
    (run_gcode_from_command : Template -> Context -> M unit)
    (select_tool : option Tool.t) (self self1 : Toolchanger) (out : Outcome unit) :
  status self <> STATUS_CHANGING -> status self <> STATUS_INITIALIZING ->
  ((modify (set_status STATUS_INITIALIZING);;
    self ← get;
    run_gcode run_gcode_from_command "initialize_gcode" (initialize_gcode self) None);;
   match select_tool with
   | Some tool =>
     _configure_toolhead_for_tool (Some tool);;
     self ← get;
     run_gcode run_gcode_from_command "after_change_gcode" (after_change_gcode self) None;;
     _set_tool_gcode_offset (Some tool)
   | None => mret tt
   end) self = (out, self1) ->
  match out with
  | Return _ =>
    status self1 = STATUS_INITIALIZING /\
    initialize run_gcode_from_command select_tool self
    = (Return tt,
       log (EvRespondInfo (Some (name self1 +:+ " initialized, active "
                                 +:+ str_opt (Tool.name <$> active_tool self1))))
         (set_status STATUS_READY self1))
  | Raise e => initialize run_gcode_from_command select_tool self = (Raise e, self1)
  end.
Proof.
  intros Hc Hi Hsteps.
  unfold initialize. rewrite get_bind.
  rewrite bool_decide_false by done.
  rewrite (bool_decide_true (status self ≠ STATUS_INITIALIZING)) by done.
  rewrite bind_run in Hsteps. rewrite bind_run.
  destruct ((modify (set_status STATUS_INITIALIZING);;
             self ← get;
             run_gcode run_gcode_from_command "initialize_gcode"
               (initialize_gcode self) None) self) as [[[]|e1] s1] eqn:Hhook.
  - rewrite bind_run, Hsteps.
    destruct out as [[]|e]; [|reflexivity].
    rewrite modify_bind, get_bind in Hhook.
    apply run_gcode_Return in Hhook as [Hst1 _]. cbn in Hst1.
    apply initialize_activation in Hsteps.
    assert (status self1 = STATUS_INITIALIZING) as Hst by congruence.
    split; [exact Hst|].
    rewrite get_bind, bool_decide_true by exact Hst.
    reflexivity.
  - injection Hsteps as <- <-. reflexivity.
Qed.

(** C8, as the code has it.  While changing tools [initialize] raises
    and changes nothing.  A call made while already initializing (from
    inside the initialize script) is exactly: the activation of the
    tool, the after-change hook and the offset of the tool, when a tool
    is given, and nothing otherwise; the initialize hook is not run,
    and the status is still initializing when the call returns.  Any
    other call is the outermost one: once the initialize hook and the
    activation steps have returned, the status is still initializing,
    and the call sets it to ready, reports the initialization and
    returns; if they raise, the call raises the same error, and the
    status is not set.  So an outermost call that returns has set the
    status to ready. *)
Theorem initialize_correct
    (run_gcode_from_command : Template -> Context -> M unit)
    (select_tool : option Tool.t) (self : Toolchanger) :
  (status self = STATUS_CHANGING ->
   initialize run_gcode_from_command select_tool self
   = (Raise (Exception "Cannot initialize while changing tools"), self))
  /\
  (status self = STATUS_INITIALIZING ->
   initialize run_gcode_from_command select_tool self
   = match select_tool with
     | Some tool =>
       (_configure_toolhead_for_tool (Some tool);;
        self ← get;
        run_gcode run_gcode_from_command "after_change_gcode"
          (after_change_gcode self) None;;
        _set_tool_gcode_offset (Some tool)) self
     | None => (Return tt, self)
     end
   /\
   forall self',
     initialize run_gcode_from_command select_tool self = (Return tt, self') ->
     status self' = STATUS_INITIALIZING)
  /\
  (status self <> STATUS_CHANGING -> status self <> STATUS_INITIALIZING ->
   forall self',
     initialize run_gcode_from_command select_tool self = (Return tt, self') ->
     status self' = STATUS_READY)
  /\
  (status self <> STATUS_CHANGING -> status self <> STATUS_INITIALIZING ->
   forall out self1,
     ((modify (set_status STATUS_INITIALIZING);;
       self ← get;
       run_gcode run_gcode_from_command "initialize_gcode" (initialize_gcode self) None);;
      match select_tool with
      | Some tool =>
        _configure_toolhead_for_tool (Some tool);;
        self ← get;
        run_gcode run_gcode_from_command "after_change_gcode"
          (after_change_gcode self) None;;
        _set_tool_gcode_offset (Some tool)
      | None => mret tt
      end) self = (out, self1) ->
     match out with
     | Return _ =>
       status self1 = STATUS_INITIALIZING /\
       initialize run_gcode_from_command select_tool self
       = (Return tt,
          log (EvRespondInfo (Some (name self1 +:+ " initialized, active "
                                    +:+ str_opt (Tool.name <$> active_tool self1))))
            (set_status STATUS_READY self1))
     | Raise e => initialize run_gcode_from_command select_tool self = (Raise e, self1)
     end).
Proof.
  split_and!.
  - apply initialize_changing.
  - intros Hst. split.
    + by apply initialize_nested.
    + intros self'. by apply initialize_nested_status.
  - intros Hc Hi self'. by apply initialize_outer_ready.
  - intros Hc Hi out self1. by apply initialize_outer.
Qed.

(** The initialize script of this machine selects the starting tool by
    calling [INITIALIZE_TOOLCHANGER T=1] itself: the hook returns with
    the status still initializing, and the outer call returns with the
    status ready and reports the tool. *)
Lemma initialize_correct_witness :
  let self :=
    Example.machine_with (Example.starting_with 1) Example.no_script Example.no_script
      STATUS_UNINITALIZED None in
  let result := initialize (run_template 4) None self in
  result.1 = Return tt /\
  status result.2 = STATUS_READY /\
  last (trace (printer result.2))
  = Some (EvRespondInfo (Some "toolchanger initialized, active tool T1")).
Proof.
  intros self result.
  destruct (initialize_correct (run_template 4) None self) as (_ & _ & _ & Houter).
  edestruct (Houter ltac:(discriminate) ltac:(discriminate) (Return tt)) as [_ Hrun].
  { vm_compute. reflexivity. }
  subst result. rewrite Hrun. split_and!; reflexivity.
Defined.

(** C8, as stated, fails: a call made while initializing does more
    than activate the tool and apply its offset.  Here the after-change
    script fails; the activation and the offset alone return, but
    [initialize] runs the after-change hook and raises. *)
Lemma initialize_reentrant_runs_after_change :
  let self :=
    Example.machine_with Example.no_script Example.no_script (Example.failing "jam")
      STATUS_INITIALIZING None in
  let result := initialize (run_template 4) (Some Example.T1) self in
  ((_configure_toolhead_for_tool (Some Example.T1);;
    _set_tool_gcode_offset (Some Example.T1)) self).1 = Return tt /\
  result.1 = Raise (Exception "Script running error: jam") /\
  trace (printer result.2) = [EvActivate "tool T1"; EvHook "after_change_gcode"].
Proof.
  split_and!; vm_compute; reflexivity.
Qed.

(** ** Where the code departs from its specification *)

(** C6 on the code: tool T1, registered under 1, is re-registered
    under 2 with [replace = True] while 2 is the number of T2.  The
    call returns; the number 2 is then listed twice, the name of T2 is
    still listed although T2 is no longer registered, and the two
    sequences have three entries for a mapping of two. *)
Theorem assign_tool_replace_leaves_stale_entry :
  let self := Example.machine STATUS_READY None in
  let result := assign_tool Example.T1 2 1 true self in
  result.1 = Return tt /\
  tool_numbers result.2 = [2; 2; 3]%Z /\
  tool_names result.2 = ["tool T1"; "tool T2"; "tool T3"] /\
  lookup_tool result.2 1 = None /\
  lookup_tool result.2 2 = Some Example.T1 /\
  lookup_tool result.2 3 = Some Example.T3 /\
  size (tools result.2) = 2.
Proof.
  split_and!; vm_compute; reflexivity.
Qed.

(** C2 on the code: tool T2 defines no Z offset; restoring Z with it
    raises instead of leaving the coordinate as it is. *)
Theorem _restore_position_with_tool_offset_undefined_axis :
  _restore_position_with_tool_offset Example.position "Z" (Some Example.T2)
  = Raise (TypeError "unsupported operand type(s) for +=: 'float' and 'NoneType'").
Proof. vm_compute. reflexivity. Qed.

(** C1 on the code: [UNSELECT_TOOL] with tool T1 active returns, the
    status is ready and the user is told "Tool unselected", yet T1 is
    still the active tool. *)
Theorem cmd_UNSELECT_TOOL_keeps_active_tool :
  let self := Example.machine STATUS_READY (Some Example.T1) in
  let result := cmd_UNSELECT_TOOL (run_template 4) (Example.gcmd "UNSELECT_TOOL") self in
  result.1 = Return tt /\
  status result.2 = STATUS_READY /\
  active_tool result.2 = Some Example.T1 /\
  trace (printer result.2)
  = [EvRunScript (SAVE_GCODE_STATE "_toolchange_state");
     EvHook "before_change_gcode";
     EvRunScript (SET_GCODE_OFFSET (Some 0.0%float) (Some 0.0%float) (Some 0.0%float));
     EvHook "tool.dropoff_gcode";
     EvRunScript (RESTORE_GCODE_STATE "_toolchange_state" 0);
     EvRespondInfo (Some "Tool unselected")].
Proof.
  split_and!; vm_compute; reflexivity.
Qed.

(** C7 on the code: with no active tool, selecting no tool changes
    nothing, but what is reported is [None], not a message that the
    tool is already selected. *)
Theorem select_tool_none_reports_nothing
    (run_gcode_from_command : Template -> Context -> M unit)
    (restore_axis : string) :
  let self := Example.machine STATUS_READY None in
  select_tool run_gcode_from_command (Example.gcmd "UNSELECT_TOOL") None restore_axis self
  = (Return tt, log (EvRespondInfo None) self).
Proof. reflexivity. Qed.

(** ** Selecting a tool *)

(** The already-selected guard (lines 222-224) for a tool that is
    given: the call reports that the tool is selected and does nothing
    else. *)
Theorem select_tool_already_selected
    (run_gcode_from_command : Template -> Context -> M unit)
    (gcmd : GCodeCommand) (tool : Tool.t) (restore_axis : string)
    (self : Toolchanger) :
  status self = STATUS_READY ->
  Tool.opt_eqb (active_tool self) (Some tool) = true ->
  select_tool run_gcode_from_command gcmd (Some tool) restore_axis self
  = (Return tt,
     log (EvRespondInfo (Some ("Tool " +:+ Tool.name tool +:+ " already selected"))) self).
Proof.
  intros Hst Heq. unfold select_tool. rewrite get_bind.
  rewrite (bool_decide_false (status self = STATUS_UNINITALIZED)) by (rewrite Hst; done).
  cbn [andb]. rewrite mret_bind, get_bind.
  rewrite bool_decide_false by (rewrite Hst; auto).
  rewrite Heq. reflexivity.
Qed.

Lemma select_tool_already_selected_witness :
  select_tool (run_template 4) (Example.gcmd "SELECT_TOOL") (Some Example.T3) "XY"
    (Example.machine STATUS_READY (Some Example.T3))
  = (Return tt,
     log (EvRespondInfo (Some "Tool tool T3 already selected"))
       (Example.machine STATUS_READY (Some Example.T3))).
Proof.
  apply (select_tool_already_selected (run_template 4) (Example.gcmd "SELECT_TOOL")
           Example.T3 "XY" (Example.machine STATUS_READY (Some Example.T3)));
    reflexivity.
Defined.

(** A [select_tool] that returns leaves the status ready, whatever the
    scripts did. *)
Lemma select_tool_Return_ready
    (run_gcode_from_command : Template -> Context -> M unit)
    (gcmd : GCodeCommand) (tool : option Tool.t) (restore_axis : string)
    (self self' : Toolchanger) :
  select_tool run_gcode_from_command gcmd tool restore_axis self = (Return tt, self') ->
  status self' = STATUS_READY.
Proof.
  unfold select_tool. rewrite get_bind. intros Hrun.
  bind_inv Hrun. rewrite get_bind in Hrun.
  case_bool_decide as Hst; [discriminate|].
  destruct (Tool.opt_eqb (active_tool self0) tool).
  { injection Hrun as <-. exact Hst. }
  do 13 bind_inv Hrun.
  rewrite modify_bind in Hrun.
  destruct tool; injection Hrun as <-; reflexivity.
Qed.

Lemma test_tool_selection_Return_ready
    (run_gcode_from_command : Template -> Context -> M unit)
    (gcmd : GCodeCommand) (restore_axis : string) (self self' : Toolchanger) :
  test_tool_selection run_gcode_from_command gcmd restore_axis self = (Return tt, self') ->
  status self' = STATUS_READY.
Proof.
  unfold test_tool_selection. rewrite get_bind. intros Hrun.
  case_bool_decide as Hst; [discriminate|].
  destruct (active_tool self) as [tool|]; [|discriminate].
  do 8 bind_inv Hrun.
  rewrite modify_bind in Hrun. injection Hrun as <-. reflexivity.
Qed.

Lemma initialize_Return_not_changing
    (run_gcode_from_command : Template -> Context -> M unit)
    (select_tool : option Tool.t) (self self' : Toolchanger) :
  initialize run_gcode_from_command select_tool self = (Return tt, self') ->
  status self' <> STATUS_CHANGING.
Proof.
  intros Hrun.
  destruct (decide (status self = STATUS_CHANGING)) as [Hc|Hc].
  { rewrite (initialize_changing _ _ _ Hc) in Hrun. discriminate. }
  destruct (decide (status self = STATUS_INITIALIZING)) as [Hi|Hi].
  - rewrite (initialize_nested_status _ _ _ _ Hi Hrun). discriminate.
  - rewrite (initialize_outer_ready _ _ _ _ Hc Hi Hrun). discriminate.
Qed.

(** ** Scripts that call back *)

Lemma changing_kept_refl (self : Toolchanger) : changing_kept self self.
Proof. intros _. apply same_toolchanger_refl. Qed.

Lemma changing_kept_trans (self1 self2 self3 : Toolchanger) :
  changing_kept self1 self2 -> changing_kept self2 self3 -> changing_kept self1 self3.
Proof.
  intros H12 H23 Hst. specialize (H23 Hst).
  apply (same_toolchanger_trans _ self2); [|done].
  apply H12. apply same_toolchanger_fields in H23 as (Hst' & _). congruence.
Qed.

Lemma changing_kept_ready (self self' : Toolchanger) :
  status self' <> STATUS_CHANGING -> changing_kept self self'.
Proof. intros Hne Hst. done. Qed.

Lemma dispatch_changing_kept
    (run_gcode_from_command : Template -> Context -> M unit)
    (gcmd : GCodeCommand) (self self' : Toolchanger) :
  dispatch run_gcode_from_command gcmd self = (Return tt, self') ->
  changing_kept self self'.
Proof.
  unfold dispatch. cbn zeta. repeat case_bool_decide.
  - unfold cmd_INITIALIZE_TOOLCHANGER. intros Hrun. do 2 bind_inv Hrun.
    apply changing_kept_ready. by eapply initialize_Return_not_changing.
  - intros Hrun _. by apply cmd_SET_TOOL_TEMPERATURE_same in Hrun.
  - unfold cmd_SELECT_TOOL. intros Hrun. apply changing_kept_ready.
    destruct (truthy (g_TOOL gcmd)).
    + bind_inv Hrun. apply select_tool_Return_ready in Hrun. congruence.
    + destruct (g_T gcmd) as [nr|]; [|discriminate].
      rewrite get_bind in Hrun.
      destruct (lookup_tool self nr); [|discriminate].
      apply select_tool_Return_ready in Hrun. congruence.
  - unfold cmd_SELECT_TOOL_ERROR. rewrite get_bind.
    destruct (bool_decide _ && bool_decide _).
    + intros [= <-] _. apply same_toolchanger_log.
    + rewrite modify_bind. intros [= <-] Hst. discriminate Hst.
  - unfold cmd_UNSELECT_TOOL. rewrite get_bind.
    destruct (active_tool self).
    + intros Hrun. apply changing_kept_ready.
      apply select_tool_Return_ready in Hrun. congruence.
    + intros [= <-]. apply changing_kept_refl.
  - unfold cmd_TEST_TOOL_DOCKING. rewrite get_bind.
    destruct (active_tool self); [|discriminate].
    intros Hrun. apply changing_kept_ready.
    apply test_tool_selection_Return_ready in Hrun. congruence.
  - intros Hrun _. by apply cmd_SET_TOOL_PARAMETER_same in Hrun.
  - intros [= <-] _. apply same_toolchanger_log.
Qed.

Lemma run_lines_changing_kept
    (run_gcode_from_command : Template -> Context -> M unit)
    (script : list ScriptLine) (self self' : Toolchanger) :
  run_lines run_gcode_from_command script self = (Return tt, self') ->
  changing_kept self self'.
Proof.
  revert self. induction script as [|[gcmd|msg] script IH]; intros self; cbn [run_lines].
  - intros [= <-]. apply changing_kept_refl.
  - intros Hrun. bind_inv Hrun.
    apply dispatch_changing_kept in Hrun0. apply IH in Hrun.
    by apply (changing_kept_trans _ self0).
  - discriminate.
Qed.

(** A script that returns and leaves the status "changing" has not
    touched the toolchanger: from that status, every command of this
    module either raises or moves the status away for good. *)
Lemma run_template_changing_kept (depth : nat) (template : Template) (context : Context)
    (self self' : Toolchanger) :
  run_template depth template context self = (Return tt, self') ->
  changing_kept self self'.
Proof.
  destruct depth as [|depth]; cbn [run_template]; [discriminate|].
  apply run_lines_changing_kept.
Qed.

Lemma run_gcode_changing (depth : nat) (hook : string) (template : Template)
    (extra_context : option ExtraContext) (self self' : Toolchanger) :
  status self = STATUS_CHANGING ->
  run_gcode (run_template depth) hook template extra_context self = (Return tt, self') ->
  same_toolchanger self self'.
Proof.
  intros Hst Hrun. apply run_gcode_Return in Hrun as [Hst' Hrun].
  apply run_template_changing_kept in Hrun.
  apply (same_toolchanger_trans _ (log (EvHook hook) self)).
  - apply same_toolchanger_log.
  - apply Hrun. congruence.
Qed.

Lemma same_toolchanger_set_status (s : Status) (self self' : Toolchanger) :
  same_toolchanger self self' -> same_toolchanger (set_status s self) (set_status s self').
Proof. intros ->. reflexivity. Qed.

Lemma same_toolchanger_set_active_tool (t : option Tool.t) (self self' : Toolchanger) :
  same_toolchanger self self' ->
  same_toolchanger (set_active_tool t self) (set_active_tool t self').
Proof. intros ->. reflexivity. Qed.

Lemma opt_eqb_refl (tool : option Tool.t) : Tool.opt_eqb tool tool = true.
Proof.
  destruct tool as [t|]; [|reflexivity]. cbn. unfold Tool.eqb.
  by rewrite bool_decide_true.
Qed.

(** The steps of [select_tool] after the guard, as they change the
    toolchanger when the scripts are run by [run_template]: the status
    goes to ready, the active tool becomes the tool that was asked for
    when one was, and is left as it was when none was. *)
Lemma select_tool_change (depth : nat) (gcmd : GCodeCommand) (tool : option Tool.t)
    (restore_axis : string) (self self' : Toolchanger) :
  status self = STATUS_READY ->
  Tool.opt_eqb (active_tool self) tool = false ->
  select_tool (run_template depth) gcmd tool restore_axis self = (Return tt, self') ->
  same_toolchanger
    (set_status STATUS_READY
       (match tool with
        | Some _ => set_active_tool tool self
        | None => self
        end)) self'.
Proof.
  intros Hst Hne. unfold select_tool. rewrite get_bind.
  rewrite (bool_decide_false (status self = STATUS_UNINITALIZED)) by (rewrite Hst; done).
  cbn [andb]. rewrite mret_bind, get_bind.
  rewrite bool_decide_false by (rewrite Hst; auto).
  rewrite Hne, modify_bind, get_bind. intros Hrun.
  set (self1 := set_status STATUS_CHANGING self) in *.
  assert (forall s, same_toolchanger self1 s -> status s = STATUS_CHANGING) as Hchanging.
  { intros s Hs. by apply same_toolchanger_fields in Hs as (-> & _). }
  bind_inv Hrun. unfold lift in Hrun0. injection Hrun0 as _ <-.
  bind_inv Hrun. injection Hrun0 as <-.
  rewrite get_bind in Hrun. bind_inv Hrun.
  apply run_gcode_changing in Hrun0; [|reflexivity].
  assert (same_toolchanger self1 self0) as Hsame0.
  { eapply same_toolchanger_trans; [apply same_toolchanger_log|exact Hrun0]. }
  clear Hrun0.
  bind_inv Hrun. injection Hrun0 as <-.
  rewrite get_bind in Hrun. bind_inv Hrun.
  assert (same_toolchanger self1 self2) as Hsame2.
  { eapply same_toolchanger_trans; [exact Hsame0|].
    eapply same_toolchanger_trans; [apply same_toolchanger_log|].
    destruct (active_tool (log _ self0)).
    - apply run_gcode_changing in Hrun0; [done|].
      apply Hchanging. eapply same_toolchanger_trans; [exact Hsame0|].
      apply same_toolchanger_log.
    - injection Hrun0 as <-. apply same_toolchanger_refl. }
  clear Hrun0 Hsame0.
  bind_inv Hrun.
  assert (same_toolchanger
            (match tool with Some _ => set_active_tool tool self1 | None => self1 end)
            self3) as Hsame3.
  { destruct tool as [t|].
    - bind_inv Hrun0.
      destruct (_configure_toolhead_for_tool_run (Some t) self2) as (s & Hc & _ & Hsame).
      rewrite Hc in Hrun1. injection Hrun1 as <-.
      assert (same_toolchanger (set_active_tool (Some t) self1) s) as Hs.
      { eapply same_toolchanger_trans; [|exact Hsame].
        by apply same_toolchanger_set_active_tool. }
      assert (forall s', same_toolchanger (set_active_tool (Some t) self1) s' ->
                         status s' = STATUS_CHANGING) as Hchanging'.
      { intros s' Hs'. by apply same_toolchanger_fields in Hs' as (-> & _). }
      bind_inv Hrun0. rewrite get_bind in Hrun0.
      apply run_gcode_changing in Hrun1; [|by apply Hchanging'].
      assert (same_toolchanger (set_active_tool (Some t) self1) self4) as Hs4.
      { by eapply same_toolchanger_trans. }
      apply run_gcode_changing in Hrun0; [|by apply Hchanging'].
      by eapply same_toolchanger_trans.
    - by injection Hrun0 as <-. }
  clear Hrun0 Hsame2.
  bind_inv Hrun. apply _restore_axis_same in Hrun0.
  bind_inv Hrun. injection Hrun1 as <-.
  bind_inv Hrun.
  assert (same_toolchanger
            (log (EvRunScript (RESTORE_GCODE_STATE "_toolchange_state" 0)) self4)
            self5) as Hsame5.
  { destruct tool.
    - by apply _set_tool_gcode_offset_same in Hrun1.
    - injection Hrun1 as <-. apply same_toolchanger_refl. }
  rewrite modify_bind in Hrun.
  assert (self' = log (EvRespondInfo
                         (Some (match tool with
                                | Some t => "Selected tool " +:+ pretty (Tool.tool_number t)
                                            +:+ " (" +:+ Tool.name t +:+ ")"
                                | None => "Tool unselected"
                                end))) (set_status STATUS_READY self5)) as ->.
  { destruct tool; by injection Hrun as <-. }
  eapply same_toolchanger_trans; [|apply same_toolchanger_log].
  assert (same_toolchanger
            (match tool with Some _ => set_active_tool tool self1 | None => self1 end)
            self5) as Hsame.
  { eapply same_toolchanger_trans; [exact Hsame3|].
    eapply same_toolchanger_trans; [exact Hrun0|].
    eapply same_toolchanger_trans; [apply same_toolchanger_log|exact Hsame5]. }
  apply (same_toolchanger_set_status STATUS_READY) in Hsame.
  destruct tool; exact Hsame.
Qed.

(** When the guard of lines 216-217 ran (or was skipped) and left the
    status ready, the rest of [select_tool] is [select_tool] from the
    state it left. *)
Lemma select_tool_after_guard
    (run_gcode_from_command : Template -> Context -> M unit)
    (gcmd : GCodeCommand) (tool : option Tool.t) (restore_axis : string)
    (self self' : Toolchanger) :
  select_tool run_gcode_from_command gcmd tool restore_axis self = (Return tt, self') ->
  exists self0,
    (if bool_decide (status self = STATUS_UNINITALIZED)
        && bool_decide (initialize_on self = INIT_FIRST_USE)
     then initialize run_gcode_from_command None
     else mret tt) self = (Return tt, self0) /\
    status self0 = STATUS_READY /\
    select_tool run_gcode_from_command gcmd tool restore_axis self0 = (Return tt, self').
Proof.
  unfold select_tool at 1. rewrite get_bind. intros Hrun.
  bind_inv Hrun. exists self0. split; [exact Hrun0|].
  rewrite get_bind in Hrun.
  case_bool_decide as Hst; [discriminate|].
  split; [exact Hst|].
  unfold select_tool. rewrite get_bind.
  rewrite (bool_decide_false (status self0 = STATUS_UNINITALIZED)) by (rewrite Hst; done).
  cbn [andb]. rewrite mret_bind, get_bind.
  rewrite bool_decide_false by (rewrite Hst; auto).
  exact Hrun.
Qed.

(** The part of C1 that holds.  Scripts are run by [run_template], so
    they may call back into the toolchanger.  A [select_tool] for a
    tool that returns leaves the status ready and that tool active. *)
Theorem select_tool_selects (depth : nat) (gcmd : GCodeCommand) (tool : Tool.t)
    (restore_axis : string) (self self' : Toolchanger) :
  select_tool (run_template depth) gcmd (Some tool) restore_axis self = (Return tt, self') ->
  status self' = STATUS_READY /\
  Tool.opt_eqb (active_tool self') (Some tool) = true.
Proof.
  intros Hrun.
  split; [by apply select_tool_Return_ready in Hrun|].
  apply select_tool_after_guard in Hrun as (self0 & _ & Hst & Hrun).
  destruct (Tool.opt_eqb (active_tool self0) (Some tool)) eqn:Heq.
  - revert Hrun. unfold select_tool. rewrite get_bind.
    rewrite (bool_decide_false (status self0 = STATUS_UNINITALIZED)) by (rewrite Hst; done).
    cbn [andb]. rewrite mret_bind, get_bind.
    rewrite bool_decide_false by (rewrite Hst; auto).
    rewrite Heq. intros [= <-]. exact Heq.
  - apply select_tool_change in Hrun; [|done|done].
    apply same_toolchanger_fields in Hrun as (_ & -> & _).
    apply (opt_eqb_refl (Some tool)).
Qed.

(** A fresh machine with the first-use policy: selecting tool T3
    initializes first, then changes the tool. *)
Lemma select_tool_selects_witness :
  let self :=
    Example.machine STATUS_UNINITALIZED None in
  let self' :=
    (select_tool (run_template 4) (Example.gcmd "SELECT_TOOL") (Some Example.T3) "Z" self).2 in
  status self' = STATUS_READY /\
  Tool.opt_eqb (active_tool self') (Some Example.T3) = true.
Proof.
  intros self self'.
  apply (select_tool_selects 4 (Example.gcmd "SELECT_TOOL") Example.T3 "Z" self self').
  vm_compute. reflexivity.
Defined.

(** The general form of what C1 misses: an unselect that returns has
    set the status to ready and has left the active tool as it was. *)
Theorem select_tool_unselect_keeps_active_tool (depth : nat) (gcmd : GCodeCommand)
    (restore_axis : string) (self self' : Toolchanger) :
  status self = STATUS_READY ->
  select_tool (run_template depth) gcmd None restore_axis self = (Return tt, self') ->
  status self' = STATUS_READY /\ active_tool self' = active_tool self.
Proof.
  intros Hst Hrun.
  split; [by apply select_tool_Return_ready in Hrun|].
  destruct (Tool.opt_eqb (active_tool self) None) eqn:Heq.
  - revert Hrun. unfold select_tool. rewrite get_bind.
    rewrite (bool_decide_false (status self = STATUS_UNINITALIZED)) by (rewrite Hst; done).
    cbn [andb]. rewrite mret_bind, get_bind.
    rewrite bool_decide_false by (rewrite Hst; auto).
    rewrite Heq. intros [= <-]. reflexivity.
  - apply select_tool_change in Hrun; [|done|done].
    by apply same_toolchanger_fields in Hrun as (_ & -> & _).
Qed.

Lemma select_tool_unselect_keeps_active_tool_witness :
  let self := Example.machine STATUS_READY (Some Example.T2) in
  let self' :=
    (select_tool (run_template 4) (Example.gcmd "UNSELECT_TOOL") None "XYZ" self).2 in
  status self' = STATUS_READY /\ active_tool self' = Some Example.T2.
Proof.
  intros self self'.
  apply (select_tool_unselect_keeps_active_tool 4 (Example.gcmd "UNSELECT_TOOL")
           "XYZ" self self'); [reflexivity|].
  vm_compute. reflexivity.
Defined.

(** ** Restoring a position *)

Lemma INDEX_TO_XYZ_inj (i j : nat) (key : string) :
  INDEX_TO_XYZ i = Some key -> INDEX_TO_XYZ j = Some key -> i = j.
Proof.
  destruct i as [|[|[|i]]], j as [|[|[|j]]]; cbn; congruence.
Qed.

Lemma XYZ_TO_INDEX_range (i : ascii) (index : nat) :
  XYZ_TO_INDEX i = Some index -> index < 3.
Proof.
  unfold XYZ_TO_INDEX. repeat case_decide; intros [= <-]; lia.
Qed.

(** One turn of the loop: the key of the axis gets the coordinate,
    plus the offset of the tool when there is a tool. *)
Lemma restore_axis_step_Return (position : Coord) (tool : option Tool.t) (i : ascii)
    (acc result : gmap string float) :
  restore_axis_step position tool i acc = Return result ->
  exists index key v,
    XYZ_TO_INDEX i = Some index /\ INDEX_TO_XYZ index = Some key /\
    coord_index position index = Some v /\
    match tool with
    | None => result = <[key := v]> acc
    | Some t => exists o, tool_offset t index = Some o /\ result = <[key := (v + o)%float]> acc
    end.
Proof.
  unfold restore_axis_step.
  destruct (XYZ_TO_INDEX i) as [index|] eqn:Hi; [|discriminate].
  destruct (coord_index position index) as [v|] eqn:Hv; [|discriminate].
  destruct tool as [t|]; cbn.
  - fold (tool_offset t index).
    destruct (tool_offset t index) as [o|] eqn:Ho; cbn; [|discriminate].
    destruct (INDEX_TO_XYZ index) as [key|] eqn:Hk; [|discriminate].
    intros [= <-]. exists index, key, v. eauto 10.
  - destruct (INDEX_TO_XYZ index) as [key|] eqn:Hk; [|discriminate].
    intros [= <-]. exists index, key, v. eauto 10.
Qed.

Lemma restore_position_loop_lookup (position : Coord) (axis : string)
    (tool : option Tool.t) (acc result : gmap string float) :
  restore_position_loop position axis tool acc = Return result ->
  forall index key v,
    INDEX_TO_XYZ index = Some key -> coord_index position index = Some v ->
    if axis_listed axis index then
      match tool with
      | None => result !! key = Some v
      | Some t => exists o, tool_offset t index = Some o /\ result !! key = Some (v + o)%float
      end
    else result !! key = acc !! key.
Proof.
  revert acc. induction axis as [|i axis IH]; intros acc; cbn [restore_position_loop axis_listed].
  - intros [= <-] index key v _ _. reflexivity.
  - intros Hrun index key v Hkey Hv.
    destruct (restore_axis_step position tool i acc) as [acc1|] eqn:Hstep; [|discriminate].
    cbn in Hrun. specialize (IH _ Hrun index key v Hkey Hv).
    destruct (axis_listed axis index); [by rewrite orb_true_r|].
    rewrite orb_false_r.
    apply restore_axis_step_Return in Hstep
      as (index1 & key1 & v1 & Hi & Hkey1 & Hv1 & Hacc1).
    case_bool_decide as Hlisted.
    + assert (index1 = index) as -> by congruence.
      assert (key1 = key) as -> by congruence.
      assert (v1 = v) as -> by congruence.
      destruct tool as [t|].
      * destruct Hacc1 as (o & Ho & ->). exists o. split; [done|].
        rewrite IH. apply lookup_insert_eq.
      * subst acc1. rewrite IH. apply lookup_insert_eq.
    + assert (key1 <> key) as Hne.
      { intros ->. apply Hlisted. rewrite Hi. f_equal.
        by apply (INDEX_TO_XYZ_inj _ _ key). }
      rewrite IH. destruct tool as [t|].
      * destruct Hacc1 as (o & _ & ->). by apply lookup_insert_ne.
      * subst acc1. by apply lookup_insert_ne.
Qed.

(** The part of C2 that holds.  When [_restore_position_with_tool_offset]
    returns, each axis that [axis] lists is mapped to its coordinate
    when no tool is given, and to its coordinate plus the offset the
    tool defines on that axis when a tool is given; an axis that is
    not listed is not in the result. *)
Theorem _restore_position_with_tool_offset_correct (position : Coord) (axis : string)
    (tool : option Tool.t) (result : gmap string float) :
  _restore_position_with_tool_offset position axis tool = Return result ->
  forall index key v,
    INDEX_TO_XYZ index = Some key -> coord_index position index = Some v ->
    if axis_listed axis index then
      match tool with
      | None => result !! key = Some v
      | Some t => exists o, tool_offset t index = Some o /\ result !! key = Some (v + o)%float
      end
    else result !! key = None.
Proof.
  intros Hrun index key v Hkey Hv.
  pose proof (restore_position_loop_lookup _ _ _ _ _ Hrun index key v Hkey Hv) as H.
  destruct (axis_listed axis index); [exact H|].
  rewrite H. apply lookup_empty.
Qed.

(** The scenario of the specification: tool T3 has the offset
    (0, 0, 5) and the captured Z is 10, so Z is restored to 15; X and Y
    are not restored. *)
Lemma _restore_position_with_tool_offset_correct_witness :
  exists result,
    _restore_position_with_tool_offset Example.position "Z" (Some Example.T3)
    = Return result /\
    result !! "Z" = Some 15.0%float /\ result !! "X" = None /\ result !! "Y" = None.
Proof.
  destruct (_restore_position_with_tool_offset Example.position "Z" (Some Example.T3))
    as [result|] eqn:Hrun; [|vm_compute in Hrun; discriminate].
  exists result. split; [reflexivity|].
  pose proof (_restore_position_with_tool_offset_correct _ _ _ _ Hrun) as H.
  split_and!.
  - destruct (H 2 "Z" 10.0%float eq_refl eq_refl) as (o & Ho & ->).
    vm_compute in Ho. injection Ho as <-. reflexivity.
  - exact (H 0 "X" 100.0%float eq_refl eq_refl).
  - exact (H 1 "Y" 50.0%float eq_refl eq_refl).
Defined.

(** The call returns when every character of [axis] names an axis and
    the tool, if given, defines an offset on each axis that is listed;
    in particular it always returns for a valid [axis] and no tool. *)
Theorem _restore_position_with_tool_offset_returns (position : Coord) (axis : string)
    (tool : option Tool.t) :
  axis_valid axis = true ->
  (forall t index, tool = Some t -> axis_listed axis index = true ->
                   is_Some (tool_offset t index)) ->
  exists result, _restore_position_with_tool_offset position axis tool = Return result.
Proof.
  unfold _restore_position_with_tool_offset. generalize (∅ : gmap string float).
  induction axis as [|i axis IH]; intros acc Hvalid Hdefined;
    cbn [restore_position_loop axis_valid] in *.
  - by eexists.
  - destruct (XYZ_TO_INDEX i) as [index|] eqn:Hi; [|discriminate].
    assert (exists acc1, restore_axis_step position tool i acc = Return acc1) as [acc1 ->].
    { assert (forall t, tool = Some t -> is_Some (tool_offset t index)) as Hoff.
      { intros t Ht. apply (Hdefined t index Ht).
        cbn [axis_listed]. by rewrite bool_decide_true. }
      pose proof (XYZ_TO_INDEX_range _ _ Hi) as Hrange.
      unfold restore_axis_step. rewrite Hi.
      assert (is_Some (coord_index position index)) as [v ->].
      { destruct index as [|[|[|index]]]; [by eexists..|lia]. }
      assert (is_Some (INDEX_TO_XYZ index)) as [key ->].
      { destruct index as [|[|[|index]]]; [by eexists..|lia]. }
      destruct tool as [t|]; [|by eexists].
      fold (tool_offset t index).
      destruct (Hoff t eq_refl) as [o ->]. by eexists. }
    cbn. apply IH; [done|].
    intros t index' Ht Hl. apply (Hdefined t index' Ht).
    cbn [axis_listed]. rewrite Hl. apply orb_true_r.
Qed.

Lemma _restore_position_with_tool_offset_returns_witness :
  exists result,
    _restore_position_with_tool_offset Example.position "xyZ" None = Return result.
Proof.
  apply _restore_position_with_tool_offset_returns; [reflexivity|discriminate].
Defined.

(** ** The registry when no number is taken over *)

Lemma zip_split_elem_of (l1 l2 : list Z) (n1 n2 : list string) (p : Z) (x : string)
    (e : Z * string) :
  length l1 = length n1 ->
  e ∈ zip (l1 ++ p :: l2) (n1 ++ x :: n2) <-> e = (p, x) \/ e ∈ zip (l1 ++ l2) (n1 ++ n2).
Proof.
  intros Hlen.
  rewrite (zip_with_app pair l1 (p :: l2) n1 (x :: n2) Hlen).
  rewrite (zip_with_app pair l1 l2 n1 n2 Hlen). cbn.
  rewrite !elem_of_app, elem_of_cons. tauto.
Qed.

Lemma zip_insert_at_elem_of (position : nat) (number : Z) (x : string)
    (numbers : list Z) (names : list string) (e : Z * string) :
  length numbers = length names ->
  e ∈ zip (list_insert_at position number numbers) (list_insert_at position x names)
  <-> e = (number, x) \/ e ∈ zip numbers names.
Proof.
  intros Hlen. unfold list_insert_at.
  rewrite <- (take_drop position numbers) at 3.
  rewrite <- (take_drop position names) at 3.
  apply zip_split_elem_of. rewrite !length_take. lia.
Qed.

Lemma StronglySorted_lt_NoDup (l : list Z) : StronglySorted Z.lt l -> NoDup l.
Proof.
  induction 1 as [|x l Hs IH Hall]; constructor; [|done].
  intros Hin. rewrite Forall_forall in Hall. specialize (Hall _ Hin). lia.
Qed.

Lemma StronglySorted_lt_le (l : list Z) : StronglySorted Z.lt l -> StronglySorted Z.le l.
Proof.
  induction 1 as [|x l Hs IH Hall]; constructor; [done|].
  eapply Forall_impl; [exact Hall|]. intros y Hy. cbn in *. lia.
Qed.

Lemma elem_of_zip_numbers (numbers : list Z) (names : list string) (n : Z) :
  length numbers = length names ->
  n ∈ numbers -> exists name, (n, name) ∈ zip numbers names.
Proof.
  intros Hlen (i & Hi)%list_elem_of_lookup_1.
  destruct (names !! i) as [name|] eqn:Hname.
  - exists name. apply list_elem_of_lookup. exists i.
    rewrite lookup_zip_with, Hi. cbn. by rewrite Hname.
  - apply lookup_ge_None in Hname. apply lookup_lt_Some in Hi. lia.
Qed.

Lemma elem_of_zip_names (numbers : list Z) (names : list string) (name : string) :
  length numbers = length names ->
  name ∈ names -> exists n, (n, name) ∈ zip numbers names.
Proof.
  intros Hlen (i & Hi)%list_elem_of_lookup_1.
  destruct (numbers !! i) as [n|] eqn:Hn.
  - exists n. apply list_elem_of_lookup. exists i.
    rewrite lookup_zip_with, Hn. cbn. by rewrite Hi.
  - apply lookup_ge_None in Hn. apply lookup_lt_Some in Hi. lia.
Qed.

(** Dropping the entry of a registered tool. *)
Lemma registry_ok_remove (tool : Tool.t) (prev_number : Z) (self : Toolchanger) :
  registry_ok self ->
  (exists t, tools self !! prev_number = Some t /\ Tool.name t = Tool.name tool) ->
  exists numbers names,
    list_remove prev_number (tool_numbers self) = Some numbers /\
    list_remove (Tool.name tool) (tool_names self) = Some names /\
    registry_ok
      (set_tool_names names
         (set_tool_numbers numbers
            (set_tools (delete prev_number (tools self)) self))).
Proof.
  intros (Hlen & Hsorted & Hnodup & Hentries) Hprev.
  assert ((prev_number, Tool.name tool) ∈ zip (tool_numbers self) (tool_names self))
    as Hin by (by apply Hentries).
  assert (prev_number ∈ tool_numbers self) as Hin_numbers.
  { apply (elem_of_zip_l _ _ _ _ Hin). }
  assert (Tool.name tool ∈ tool_names self) as Hin_names.
  { apply (elem_of_zip_r _ _ _ _ Hin). }
  destruct (list_remove_is_Some _ _ Hin_numbers) as [numbers Hnumbers].
  destruct (list_remove_is_Some _ _ Hin_names) as [names Hnames].
  exists numbers, names. split; [done|]. split; [done|].
  apply list_remove_split in Hnumbers as (l1 & l2 & Hl & -> & Hl1).
  apply list_remove_split in Hnames as (n1 & n2 & Hn & -> & Hn1).
  rewrite Hl, Hn in *.
  assert (length l1 = length n1) as Hlen1.
  { destruct ((n1 ++ Tool.name tool :: n2) !! length l1) as [y|] eqn:Hy.
    - assert ((prev_number, y)
              ∈ zip (l1 ++ prev_number :: l2) (n1 ++ Tool.name tool :: n2)) as Hy'.
      { apply list_elem_of_lookup. exists (length l1).
        rewrite lookup_zip_with, (list_lookup_middle l1 l2 prev_number (length l1) eq_refl).
        cbn. by rewrite Hy. }
      apply Hentries in Hy' as (t' & Ht' & <-).
      destruct Hprev as (t & Ht & Hname). assert (t' = t) as -> by congruence.
      rewrite Hname in Hy.
      apply (NoDup_lookup _ _ _ _ Hnodup Hy). by apply list_lookup_middle.
    - apply lookup_ge_None in Hy. rewrite !length_app in *. cbn in *. lia. }
  assert (prev_number ∉ l1 ++ l2) as Hnotin.
  { apply StronglySorted_lt_NoDup in Hsorted.
    apply NoDup_app in Hsorted as (_ & Hdisj & Hsorted). apply NoDup_cons in Hsorted as [H2 _].
    rewrite elem_of_app. intros [?|?]; done. }
  unfold registry_ok. cbn. split_and!.
  - rewrite !length_app in *. cbn in Hlen. lia.
  - apply StronglySorted_app in Hsorted as (Hcross & Hs1 & Hs2).
    apply StronglySorted_cons in Hs2 as [_ Hs2].
    apply StronglySorted_app_2; [|done|done].
    intros x1 x2 H1 H2. apply Hcross; [done|]. by apply elem_of_cons; right.
  - apply NoDup_app in Hnodup as (Hd1 & Hdisj & Hd2).
    apply NoDup_cons in Hd2 as [_ Hd2].
    apply NoDup_app. split_and!; [done| |done].
    intros y Hy1 Hy2. apply (Hdisj y Hy1). by apply elem_of_cons; right.
  - intros n name.
    pose proof (zip_split_elem_of l1 l2 n1 n2 prev_number (Tool.name tool) (n, name) Hlen1)
      as Hsplit.
    split.
    + intros Hin'.
      assert (n <> prev_number) as Hne.
      { intros ->. apply Hnotin. apply (elem_of_zip_l _ _ _ _ Hin'). }
      destruct (proj1 (Hentries n name)) as (t & Ht & Hname); [apply Hsplit; by right|].
      exists t. split; [|done]. by rewrite lookup_delete_ne.
    + intros (t & Ht & Hname).
      apply lookup_delete_Some in Ht as [Hne Ht].
      destruct (proj1 Hsplit) as [Heq|Hin']; [apply Hentries; eauto| |done].
      congruence.
Qed.

(** Entering a tool under a number that is free, with a name that no
    registered tool has. *)
Lemma registry_ok_insert (tool : Tool.t) (number : Z) (self : Toolchanger) :
  registry_ok self ->
  tools self !! number = None ->
  (forall n t, tools self !! n = Some t -> Tool.name t <> Tool.name tool) ->
  let position := bisect_left (tool_numbers self) number in
  registry_ok
    (set_tool_names (list_insert_at position (Tool.name tool) (tool_names self))
       (set_tool_numbers (list_insert_at position number (tool_numbers self))
          (set_tools (<[number := tool]> (tools self)) self))).
Proof.
  intros (Hlen & Hsorted & Hnodup & Hentries) Hfree Hfresh position.
  assert (number ∉ tool_numbers self) as Hnotin.
  { intros Hin. destruct (elem_of_zip_numbers _ _ _ Hlen Hin) as (name & Hname).
    apply Hentries in Hname as (t & Ht & _). congruence. }
  assert (Tool.name tool ∉ tool_names self) as Hnotin_name.
  { intros Hin. destruct (elem_of_zip_names _ _ _ Hlen Hin) as (n & Hn).
    apply Hentries in Hn as (t & Ht & Hname). by apply (Hfresh n t). }
  unfold registry_ok. cbn. split_and!.
  - by rewrite !list_insert_at_length, Hlen.
  - destruct (bisect_left_spec (tool_numbers self) number
                (StronglySorted_lt_le _ Hsorted)) as (_ & Hlt & Hge).
    fold position in Hlt, Hge. unfold list_insert_at.
    rewrite <- (take_drop position (tool_numbers self)) in Hsorted, Hnotin.
    apply StronglySorted_app in Hsorted as (Hcross & Hs1 & Hs2).
    assert (Forall (Z.lt number) (drop position (tool_numbers self))) as Hgt.
    { apply Forall_forall. intros v Hv.
      rewrite Forall_forall in Hge. specialize (Hge v Hv). cbn in Hge.
      assert (v <> number); [|lia].
      intros ->. apply Hnotin. apply elem_of_app. by right. }
    apply StronglySorted_app_2; [|done|].
    + intros x1 x2 H1 H2. apply elem_of_cons in H2 as [->|H2].
      * rewrite Forall_forall in Hlt. apply (Hlt _ H1).
      * by apply Hcross.
    + by apply StronglySorted_cons.
  - unfold list_insert_at.
    rewrite <- (take_drop position (tool_names self)) in Hnodup, Hnotin_name.
    apply NoDup_app in Hnodup as (Hd1 & Hdisj & Hd2).
    rewrite elem_of_app in Hnotin_name.
    apply NoDup_app. split_and!; [done| |].
    + intros y Hy1 Hy2. apply elem_of_cons in Hy2 as [->|Hy2]; [tauto|].
      by apply (Hdisj y).
    + apply NoDup_cons. split; [tauto|done].
  - intros n name.
    rewrite (zip_insert_at_elem_of position number (Tool.name tool) _ _ (n, name) Hlen).
    split.
    + intros [[= -> ->]|Hin].
      * exists tool. split; [apply lookup_insert_eq|done].
      * apply Hentries in Hin as (t & Ht & Hname). exists t. split; [|done].
        rewrite lookup_insert_ne; [done|]. intros <-. congruence.
    + intros (t & Ht & Hname).
      apply lookup_insert_Some in Ht as [[<- <-]|[Hne Ht]].
      * left. by rewrite Hname.
      * right. apply Hentries. eauto.
Qed.

(** The part of C6 that holds.  A tool is registered, if at all, under
    [prev_number]; it is assigned a number that is free, or its own
    number again with [replace = True].  Then [assign_tool] returns,
    the mapping has the tool under [number] and no longer under
    [prev_number], and the registry is as lines 56-57 describe it: the
    old entry was removed once, and no number or name is listed
    twice. *)
Theorem assign_tool_keeps_registry (tool : Tool.t) (number prev_number : Z)
    (replace : bool) (self : Toolchanger) :
  registry_ok self ->
  (tools self !! number = None \/ (number = prev_number /\ replace = true)) ->
  (forall n t, tools self !! n = Some t ->
               (Tool.name t = Tool.name tool <-> n = prev_number)) ->
  exists self',
    assign_tool tool number prev_number replace self = (Return tt, self') /\
    registry_ok self' /\
    tools self' = <[number := tool]> (delete prev_number (tools self)).
Proof.
  intros Hok Hnumber Htool. rewrite assign_tool_unfold.
  assert (contains (tools self) number && negb replace = false) as ->.
  { destruct Hnumber as [Hfree|[_ ->]].
    - unfold contains. by rewrite Hfree.
    - apply andb_false_r. }
  cbn zeta.
  destruct (contains (tools self) prev_number) eqn:Hprev.
  - apply contains_is_Some in Hprev as [t Ht].
    assert (Tool.name t = Tool.name tool) as Hname by (by apply (Htool prev_number t)).
    destruct (registry_ok_remove tool prev_number self Hok)
      as (numbers & names & Hnumbers & Hnames & Hok'); [eauto|].
    cbn [tool_numbers tool_names set_tools set_tool_numbers set_tool_names].
    rewrite Hnumbers, Hnames.
    eexists. split; [reflexivity|]. split; [|reflexivity].
    apply (registry_ok_insert tool number _ Hok').
    + cbn. destruct Hnumber as [Hfree|[-> _]].
      * apply lookup_delete_None. by right.
      * apply lookup_delete_eq.
    + cbn. intros n t' Ht' Hname'.
      apply lookup_delete_Some in Ht' as [Hne Ht'].
      apply Hne. symmetry. by apply (Htool n t').
  - assert (tools self !! prev_number = None) as Hnone.
    { unfold contains in Hprev. by destruct (tools self !! prev_number). }
    eexists. split; [reflexivity|]. split.
    + apply (registry_ok_insert tool number self Hok).
      * destruct Hnumber as [Hfree|[-> _]]; done.
      * intros n t Ht Hname. apply (Htool n t Ht) in Hname. congruence.
    + cbn. by rewrite delete_id.
Qed.

(** Tool T1 of the example machine moves from number 1 to the free
    number 7. *)
Lemma assign_tool_keeps_registry_witness :
  let self := Example.machine STATUS_READY None in
  exists self',
    assign_tool Example.T1 7 1 true self = (Return tt, self') /\
    registry_ok self' /\
    tools self' = <[7%Z := Example.T1]> (delete 1%Z (tools self)).
Proof.
  intros self.
  apply (assign_tool_keeps_registry Example.T1 7 1 true self).
  - unfold registry_ok. split_and!.
    + reflexivity.
    + repeat constructor.
    + compute_done.
    + intros n name. cbn. split.
      * rewrite !elem_of_cons, elem_of_nil.
        intros [[= -> ->]|[[= -> ->]|[[= -> ->]|[]]]]; eexists; split; reflexivity.
      * intros (t & Ht & <-).
        apply lookup_insert_Some in Ht as [[<- <-]|[_ Ht]]; [set_solver|].
        apply lookup_insert_Some in Ht as [[<- <-]|[_ Ht]]; [set_solver|].
        apply lookup_insert_Some in Ht as [[<- <-]|[_ Ht]]; [set_solver|].
        by rewrite lookup_empty in Ht.
  - left. reflexivity.
  - intros n t Ht. cbn in Ht.
    apply lookup_insert_Some in Ht as [[<- <-]|[Hn1 Ht]]; [done|].
    apply lookup_insert_Some in Ht as [[<- <-]|[Hn2 Ht]]; [split; [discriminate|done]|].
    apply lookup_insert_Some in Ht as [[<- <-]|[Hn3 Ht]]; [split; [discriminate|done]|].
    by rewrite lookup_empty in Ht.
Defined.

(** ** The offset of the selected tool *)

(** The last clause of C1, for a tool that is given and was not
    active.  Whatever the scripts do, a [select_tool] that returns
    ends with: the saved gcode state restored, the offset of the tool
    applied again (lines 255-259), the status set to ready and the
    selection reported. *)
Theorem select_tool_reapplies_offset
    (run_gcode_from_command : Template -> Context -> M unit)
    (gcmd : GCodeCommand) (tool : Tool.t) (restore_axis : string)
    (self self' : Toolchanger) :
  status self = STATUS_READY ->
  Tool.opt_eqb (active_tool self) (Some tool) = false ->
  select_tool run_gcode_from_command gcmd (Some tool) restore_axis self = (Return tt, self') ->
  exists before after,
    _set_tool_gcode_offset (Some tool)
      (log (EvRunScript (RESTORE_GCODE_STATE "_toolchange_state" 0)) before)
    = (Return tt, after) /\
    self' = log (EvRespondInfo
                   (Some ("Selected tool " +:+ pretty (Tool.tool_number tool)
                          +:+ " (" +:+ Tool.name tool +:+ ")")))
              (set_status STATUS_READY after).
Proof.
  intros Hst Hne. unfold select_tool. rewrite get_bind.
  rewrite (bool_decide_false (status self = STATUS_UNINITALIZED)) by (rewrite Hst; done).
  cbn [andb]. rewrite mret_bind, get_bind.
  rewrite bool_decide_false by (rewrite Hst; auto).
  rewrite Hne, modify_bind, get_bind. intros Hrun.
  do 9 bind_inv Hrun.
  rewrite run_script_from_command_bind in Hrun.
  bind_inv Hrun. rewrite modify_bind in Hrun. injection Hrun as <-.
  eauto.
Qed.

(** Tool T1, with the offset (1, 2, 0), is active; tool T3, with the
    offset (0, 0, 5), is selected with Z restored from the captured
    Z = 10: the move goes to Z = 15 and the offset applied at the end
    is the one of T3. *)
Lemma select_tool_reapplies_offset_witness :
  let self := Example.machine STATUS_READY (Some Example.T1) in
  exists before after,
    _set_tool_gcode_offset (Some Example.T3)
      (log (EvRunScript (RESTORE_GCODE_STATE "_toolchange_state" 0)) before)
    = (Return tt, after) /\
    (select_tool (run_template 4) (Example.gcmd "SELECT_TOOL") (Some Example.T3) "Z" self).2
    = log (EvRespondInfo (Some "Selected tool 3 (tool T3)")) (set_status STATUS_READY after).
Proof.
  intros self.
  apply (select_tool_reapplies_offset (run_template 4) (Example.gcmd "SELECT_TOOL")
           Example.T3 "Z" self); [reflexivity|reflexivity|].
  vm_compute. reflexivity.
Defined.

(** ** The scenarios of the specification *)

(** A fresh machine with the first-use policy: selecting tool T2
    initializes the toolchanger first and then changes the tool. *)
Example scenario_first_use :
  let self := Example.machine STATUS_UNINITALIZED None in
  let result :=
    select_tool (run_template 4) (Example.gcmd "SELECT_TOOL") (Some Example.T2) "XY" self in
  result.1 = Return tt /\
  status result.2 = STATUS_READY /\
  active_tool result.2 = Some Example.T2 /\
  firstn 2 (trace (printer result.2))
  = [EvHook "initialize_gcode";
     EvRespondInfo (Some "toolchanger initialized, active None")].
Proof. split_and!; vm_compute; reflexivity. Qed.

(** Tool T1 active, tool T3 selected with Z restored: the calls into
    the printer, in order. *)
Example scenario_change :
  let self := Example.machine STATUS_READY (Some Example.T1) in
  let result :=
    select_tool (run_template 4) (Example.gcmd "SELECT_TOOL") (Some Example.T3) "Z" self in
  result.1 = Return tt /\
  active_tool result.2 = Some Example.T3 /\
  exists target,
    target !! "Z" = Some 15.0%float /\
    trace (printer result.2)
    = [EvRunScript (SAVE_GCODE_STATE "_toolchange_state");
       EvHook "before_change_gcode";
       EvRunScript (SET_GCODE_OFFSET (Some 0.0%float) (Some 0.0%float) (Some 0.0%float));
       EvHook "tool.dropoff_gcode";
       EvDeactivate "tool T1";
       EvActivate "tool T3";
       EvHook "tool.pickup_gcode";
       EvHook "after_change_gcode";
       EvMove target;
       EvRunScript (RESTORE_GCODE_STATE "_toolchange_state" 0);
       EvRunScript (SET_GCODE_OFFSET (Some 0.0%float) (Some 0.0%float) (Some 5.0%float));
       EvRespondInfo (Some "Selected tool 3 (tool T3)")].
Proof.
  split_and!; [vm_compute; reflexivity..|].
  eexists. split; [|vm_compute; reflexivity]. vm_compute. reflexivity.
Qed.

(** The initialize script selects the starting tool itself: the nested
    call activates the tool, and the initialize hook runs once. *)
Example scenario_initialize_from_script :
  let self :=
    Example.machine_with (Example.starting_with 2) Example.no_script Example.no_script
      STATUS_UNINITALIZED None in
  let result := initialize (run_template 4) None self in
  result.1 = Return tt /\
  status result.2 = STATUS_READY /\
  active_tool result.2 = Some Example.T2 /\
  trace (printer result.2)
  = [EvHook "initialize_gcode";
     EvActivate "tool T2";
     EvHook "after_change_gcode";
     EvRunScript (SET_GCODE_OFFSET (Some 0.5%float) (Some 0.25%float) None);
     EvRespondInfo (Some "toolchanger initialized, active tool T2")].
Proof. split_and!; vm_compute; reflexivity. Qed.

(** ** What no command changes *)

Section Keeps.

Variable R : Toolchanger -> Toolchanger -> Prop.
Hypothesis R_refl : forall self, R self self.
Hypothesis R_trans : forall self1 self2 self3, R self1 self2 -> R self2 self3 -> R self1 self3.

Lemma keeps_bind {A B : Type} (m : M A) (f : A -> M B) :
  keeps R m -> (forall a, keeps R (f a)) -> keeps R (m ≫= f).
Proof.
  intros Hm Hf self out self'. rewrite bind_run.
  destruct (m self) as [[a|e] self1] eqn:Hrun.
  - intros Hrun'. apply (R_trans _ self1); [by eapply Hm|by eapply Hf].
  - intros [= _ <-]. by eapply Hm.
Qed.

Lemma keeps_mret {A : Type} (a : A) : keeps R (mret a).
Proof. intros self out self' [= _ <-]. apply R_refl. Qed.

Lemma keeps_raise {A : Type} (e : Exn) : keeps R (raise e : M A).
Proof. intros self out self' [= _ <-]. apply R_refl. Qed.

Lemma keeps_get : keeps R get.
Proof. intros self out self' [= _ <-]. apply R_refl. Qed.

Lemma keeps_lift {A : Type} (o : Outcome A) : keeps R (lift o).
Proof. intros self out self' [= _ <-]. apply R_refl. Qed.

Lemma keeps_modify (f : Toolchanger -> Toolchanger) :
  (forall self, R self (f self)) -> keeps R (modify f).
Proof. intros Hf self out self' [= _ <-]. apply Hf. Qed.

Lemma keeps_try_except {A : Type} (body : M A) (handler : Exn -> M A) :
  keeps R body -> (forall e, keeps R (handler e)) -> keeps R (try_except body handler).
Proof.
  intros Hb Hh self out self'. unfold try_except.
  destruct (body self) as [[a|e] self1] eqn:Hrun.
  - intros [= _ <-]. by eapply Hb.
  - intros Hrun'. apply (R_trans _ self1); [by eapply Hb|by eapply Hh].
Qed.

End Keeps.

(** One step in taking a goal [keeps R m] apart along the binds and
    the branches of [m]. *)
Ltac keeps_step Hrefl Htrans :=
  first
    [ apply (keeps_mret _ Hrefl)
    | apply (keeps_raise _ Hrefl)
    | apply (keeps_get _ Hrefl)
    | apply (keeps_lift _ Hrefl)
    | match goal with
      | |- keeps _ (_ ≫= _) => apply (keeps_bind _ Htrans); [|intros ?]
      | |- keeps _ (try_except _ _) => apply (keeps_try_except _ Htrans); [|intros ?]
      | |- keeps _ (match ?x with _ => _ end) => destruct x
      | |- keeps _ (if ?b then _ else _) => destruct b
      end ].

Lemma same_registry_refl (self : Toolchanger) : same_registry self self.
Proof. repeat split. Qed.

Lemma same_registry_trans (self1 self2 self3 : Toolchanger) :
  same_registry self1 self2 -> same_registry self2 self3 -> same_registry self1 self3.
Proof.
  unfold same_registry. intros (?&?&?&?&?&?&?&?) (?&?&?&?&?&?&?&?).
  split_and!; congruence.
Qed.

Lemma keeps_registry_emit (ev : Event) : keeps same_registry (emit ev).
Proof. apply keeps_modify. intros self. repeat split. Qed.

Lemma keeps_registry_set_status (s : Status) : keeps same_registry (modify (set_status s)).
Proof. apply keeps_modify. intros self. repeat split. Qed.

Lemma keeps_registry_set_active_tool (t : option Tool.t) :
  keeps same_registry (modify (set_active_tool t)).
Proof. apply keeps_modify. intros self. repeat split. Qed.

Lemma keeps_registry_set_error_message (msg : string) :
  keeps same_registry (modify (set_error_message msg)).
Proof. apply keeps_modify. intros self. repeat split. Qed.

Create HintDb keeps_registry.
#[global] Hint Resolve keeps_registry_emit keeps_registry_set_status
  keeps_registry_set_active_tool keeps_registry_set_error_message : keeps_registry.

(** Proves that a method keeps the registry and the configuration from
    what is known of the methods it calls. *)
Ltac keeps_registry :=
  repeat first
    [ solve [auto with keeps_registry nocore]
    | keeps_step same_registry_refl same_registry_trans ].

Lemma keeps_registry__configure_toolhead_for_tool (tool : option Tool.t) :
  keeps same_registry (_configure_toolhead_for_tool tool).
Proof. unfold _configure_toolhead_for_tool. keeps_registry. Qed.

Lemma keeps_registry__set_tool_gcode_offset (tool : option Tool.t) :
  keeps same_registry (_set_tool_gcode_offset tool).
Proof.
  unfold _set_tool_gcode_offset, run_script_from_command.
  destruct tool as [tool|]; [|keeps_registry].
  destruct (Tool.gcode_x_offset tool), (Tool.gcode_y_offset tool),
    (Tool.gcode_z_offset tool); keeps_registry.
Qed.

Lemma keeps_registry__restore_axis (position : Coord) (axis : string)
    (tool : option Tool.t) :
  keeps same_registry (_restore_axis position axis tool).
Proof. unfold _restore_axis. keeps_registry. Qed.

Lemma keeps_registry_cmd_SELECT_TOOL_ERROR (gcmd : GCodeCommand) :
  keeps same_registry (cmd_SELECT_TOOL_ERROR gcmd).
Proof. unfold cmd_SELECT_TOOL_ERROR, respond_info. keeps_registry. Qed.

Lemma keeps_registry_lookup_object (name : string) :
  keeps same_registry (lookup_object name).
Proof. unfold lookup_object. keeps_registry. Qed.

Lemma same_toolchanger_same_registry (self self' : Toolchanger) :
  same_toolchanger self self' -> same_registry self self'.
Proof. intros ->. repeat split. Qed.

Lemma keeps_registry_cmd_SET_TOOL_TEMPERATURE (gcmd : GCodeCommand) :
  keeps same_registry (cmd_SET_TOOL_TEMPERATURE gcmd).
Proof.
  intros self out self' Hrun.
  by apply same_toolchanger_same_registry, (cmd_SET_TOOL_TEMPERATURE_same gcmd _ _ out).
Qed.

Lemma keeps_registry_cmd_SET_TOOL_PARAMETER (gcmd : GCodeCommand) :
  keeps same_registry (cmd_SET_TOOL_PARAMETER gcmd).
Proof.
  intros self out self' Hrun.
  by apply same_toolchanger_same_registry, (cmd_SET_TOOL_PARAMETER_same gcmd _ _ out).
Qed.

#[global] Hint Resolve keeps_registry__configure_toolhead_for_tool
  keeps_registry__set_tool_gcode_offset keeps_registry__restore_axis
  keeps_registry_cmd_SELECT_TOOL_ERROR keeps_registry_lookup_object
  keeps_registry_cmd_SET_TOOL_TEMPERATURE keeps_registry_cmd_SET_TOOL_PARAMETER
  : keeps_registry.

Section KeepsRegistry.

Variable run_gcode_from_command : Template -> Context -> M unit.
Hypothesis run_keeps :
  forall template context, keeps same_registry (run_gcode_from_command template context).

#[local] Hint Resolve run_keeps : keeps_registry.

Lemma keeps_registry_run_gcode (hook : string) (template : Template)
    (extra_context : option ExtraContext) :
  keeps same_registry (run_gcode run_gcode_from_command hook template extra_context).
Proof. unfold run_gcode. keeps_registry. Qed.

#[local] Hint Resolve keeps_registry_run_gcode : keeps_registry.

Lemma keeps_registry_initialize (select_tool : option Tool.t) :
  keeps same_registry (initialize run_gcode_from_command select_tool).
Proof.
  unfold initialize, respond_info. keeps_registry.
Qed.

#[local] Hint Resolve keeps_registry_initialize : keeps_registry.

Lemma keeps_registry_select_tool (gcmd : GCodeCommand) (tool : option Tool.t)
    (restore_axis : string) :
  keeps same_registry (select_tool run_gcode_from_command gcmd tool restore_axis).
Proof.
  unfold select_tool, respond_info, run_script_from_command. keeps_registry.
Qed.

Lemma keeps_registry_test_tool_selection (gcmd : GCodeCommand) (restore_axis : string) :
  keeps same_registry (test_tool_selection run_gcode_from_command gcmd restore_axis).
Proof.
  unfold test_tool_selection, respond_info, run_script_from_command. keeps_registry.
Qed.

#[local] Hint Resolve keeps_registry_select_tool keeps_registry_test_tool_selection
  : keeps_registry.

Lemma keeps_registry_dispatch (gcmd : GCodeCommand) :
  keeps same_registry (dispatch run_gcode_from_command gcmd).
Proof.
  unfold dispatch, cmd_INITIALIZE_TOOLCHANGER, cmd_SELECT_TOOL, cmd_UNSELECT_TOOL,
    cmd_TEST_TOOL_DOCKING.
  cbn zeta. keeps_registry.
Qed.

Lemma keeps_registry_run_lines (script : list ScriptLine) :
  keeps same_registry (run_lines run_gcode_from_command script).
Proof.
  pose proof keeps_registry_dispatch as Hdispatch.
  induction script as [|[gcmd|msg] script IH]; cbn [run_lines]; keeps_registry.
Qed.

End KeepsRegistry.

Lemma keeps_registry_run_template (depth : nat) (template : Template) (context : Context) :
  keeps same_registry (run_template depth template context).
Proof.
  revert template context. induction depth as [|depth IH]; intros template context;
    cbn [run_template].
  - keeps_registry.
  - by apply keeps_registry_run_lines.
Qed.

(** No command of this module, and no script made of its commands,
    changes the registry or the configuration: the mapping of the
    tools, the two sequences, the name, the policy and the three
    templates are the same after the call, whether it returns or
    raises. *)
Theorem commands_keep_registry (depth : nat) :
  (forall gcmd, keeps same_registry (dispatch (run_template depth) gcmd)) /\
  (forall gcmd tool restore_axis,
     keeps same_registry (select_tool (run_template depth) gcmd tool restore_axis)) /\
  (forall tool, keeps same_registry (initialize (run_template depth) tool)) /\
  (forall gcmd restore_axis,
     keeps same_registry (test_tool_selection (run_template depth) gcmd restore_axis)) /\
  keeps same_registry (_handle_home_rails_begin (run_template depth)) /\
  (forall template context, keeps same_registry (run_template depth template context)).
Proof.
  pose proof (keeps_registry_run_template depth) as Hrun.
  split_and!.
  - intros gcmd. by apply keeps_registry_dispatch.
  - intros gcmd tool restore_axis. by apply keeps_registry_select_tool.
  - intros tool. by apply keeps_registry_initialize.
  - intros gcmd restore_axis. by apply keeps_registry_test_tool_selection.
  - pose proof (keeps_registry_initialize _ Hrun) as Hinit.
    unfold _handle_home_rails_begin. keeps_registry.
  - exact Hrun.
Qed.

(** ** Commands that are refused *)

(** [select_tool] outside of the status ready (lines 216-220): unless
    the toolchanger is uninitialized with the first-use policy, the
    call raises, naming the status, and changes nothing. *)
Theorem select_tool_not_ready
    (run_gcode_from_command : Template -> Context -> M unit)
    (gcmd : GCodeCommand) (tool : option Tool.t) (restore_axis : string)
    (self : Toolchanger) :
  status self <> STATUS_READY ->
  status self <> STATUS_UNINITALIZED \/ initialize_on self <> INIT_FIRST_USE ->
  select_tool run_gcode_from_command gcmd tool restore_axis self
  = (Raise (CommandError ("Cannot select tool, toolchanger status is "
                          +:+ status_str (status self))), self).
Proof.
  intros Hst Hguard. unfold select_tool. rewrite get_bind.
  assert (bool_decide (status self = STATUS_UNINITALIZED)
          && bool_decide (initialize_on self = INIT_FIRST_USE) = false) as ->.
  { destruct Hguard as [H|H].
    - by rewrite (bool_decide_false _ H).
    - rewrite (bool_decide_false _ H). apply andb_false_r. }
  rewrite mret_bind, get_bind. by rewrite bool_decide_true.
Qed.

Lemma select_tool_not_ready_witness :
  let self := Example.machine STATUS_ERROR (Some Example.T1) in
  select_tool (run_template 4) (Example.gcmd "SELECT_TOOL") (Some Example.T3) "" self
  = (Raise (CommandError "Cannot select tool, toolchanger status is error"), self).
Proof.
  intros self.
  apply (select_tool_not_ready (run_template 4) (Example.gcmd "SELECT_TOOL")
           (Some Example.T3) "" self); [discriminate|left; discriminate].
Defined.

(** [TEST_TOOL_DOCKING] (lines 183-187 and 268-272) is refused, with
    nothing changed, when no tool is active, and when a tool is active
    but the status is not ready. *)
Theorem cmd_TEST_TOOL_DOCKING_refused
    (run_gcode_from_command : Template -> Context -> M unit)
    (gcmd : GCodeCommand) (self : Toolchanger) :
  active_tool self = None \/ status self <> STATUS_READY ->
  cmd_TEST_TOOL_DOCKING run_gcode_from_command gcmd self
  = (Raise (CommandError
              match active_tool self with
              | Some _ =>
                "Cannot test tool, toolchanger status is " +:+ status_str (status self)
              | None => "Cannot test tool, no active tool"
              end), self).
Proof.
  intros Hrefused. unfold cmd_TEST_TOOL_DOCKING. rewrite get_bind.
  destruct (active_tool self) as [active|] eqn:Hactive; [|reflexivity].
  destruct Hrefused as [?|Hst]; [discriminate|].
  unfold test_tool_selection. rewrite get_bind. by rewrite bool_decide_true.
Qed.

Lemma cmd_TEST_TOOL_DOCKING_refused_witness :
  let self := Example.machine STATUS_UNINITALIZED (Some Example.T1) in
  cmd_TEST_TOOL_DOCKING (run_template 4) (Example.gcmd "TEST_TOOL_DOCKING") self
  = (Raise (CommandError "Cannot test tool, toolchanger status is uninitialized"), self).
Proof.
  intros self.
  apply (cmd_TEST_TOOL_DOCKING_refused (run_template 4)
           (Example.gcmd "TEST_TOOL_DOCKING") self).
  right. discriminate.
Defined.

(** ** Testing the docking of a tool *)

(** Scripts are run by [run_template].  A [test_tool_selection] that
    returns has changed nothing of the toolchanger but its printer:
    the status is ready again, and the active tool, the registry and
    the error message are the ones from before. *)
Theorem test_tool_selection_keeps_toolchanger (depth : nat) (gcmd : GCodeCommand)
    (restore_axis : string) (self self' : Toolchanger) :
  test_tool_selection (run_template depth) gcmd restore_axis self = (Return tt, self') ->
  status self = STATUS_READY /\ same_toolchanger self self'.
Proof.
  unfold test_tool_selection. rewrite get_bind. intros Hrun.
  case_bool_decide as Hst; [discriminate|].
  split; [exact Hst|].
  destruct (active_tool self) as [tool|] eqn:Hactive; [|discriminate].
  rewrite modify_bind, get_bind in Hrun.
  set (self1 := set_status STATUS_CHANGING self) in *.
  assert (forall s, same_toolchanger self1 s -> status s = STATUS_CHANGING) as Hchanging.
  { intros s Hs. by apply same_toolchanger_fields in Hs as (-> & _). }
  bind_inv Hrun. unfold lift in Hrun0. injection Hrun0 as _ <-.
  rewrite run_script_from_command_bind, get_bind in Hrun.
  bind_inv Hrun.
  assert (same_toolchanger self1 self0) as Hsame0.
  { eapply same_toolchanger_trans; [apply same_toolchanger_log|].
    destruct (active_tool (log _ self1)); [|discriminate].
    apply run_gcode_changing in Hrun0; [done|reflexivity]. }
  clear Hrun0.
  bind_inv Hrun. apply run_gcode_changing in Hrun0; [|by apply Hchanging].
  bind_inv Hrun. apply _restore_axis_same in Hrun1.
  rewrite modify_bind in Hrun. injection Hrun as <-.
  assert (same_toolchanger self1 self3) as Hsame.
  { eapply same_toolchanger_trans; [exact Hsame0|].
    eapply same_toolchanger_trans; [exact Hrun0|exact Hrun1]. }
  apply (same_toolchanger_set_status STATUS_READY) in Hsame.
  eapply same_toolchanger_trans; [|apply same_toolchanger_log].
  assert (set_status STATUS_READY self1 = self) as Heq.
  { unfold self1. destruct self. cbn in Hst. by subst. }
  by rewrite Heq in Hsame.
Qed.

Lemma test_tool_selection_keeps_toolchanger_witness :
  let self := Example.machine STATUS_READY (Some Example.T1) in
  let self' :=
    (test_tool_selection (run_template 4) (Example.gcmd "TEST_TOOL_DOCKING") "XY" self).2 in
  status self = STATUS_READY /\ same_toolchanger self self'.
Proof.
  intros self self'.
  apply (test_tool_selection_keeps_toolchanger 4 (Example.gcmd "TEST_TOOL_DOCKING")
           "XY" self self').
  vm_compute. reflexivity.
Defined.

(** ** The commands that name a tool *)

Lemma select_tool_Return_active (depth : nat) (gcmd : GCodeCommand) (tool : Tool.t)
    (restore_axis : string) (self self' : Toolchanger) :
  select_tool (run_template depth) gcmd (Some tool) restore_axis self = (Return tt, self') ->
  Tool.opt_eqb (active_tool self') (Some tool) = true.
Proof.
  intros Hrun.
  apply select_tool_after_guard in Hrun as (self0 & _ & Hst & Hrun).
  destruct (Tool.opt_eqb (active_tool self0) (Some tool)) eqn:Heq.
  - revert Hrun. unfold select_tool. rewrite get_bind.
    rewrite (bool_decide_false (status self0 = STATUS_UNINITALIZED)) by (rewrite Hst; done).
    cbn [andb]. rewrite mret_bind, get_bind.
    rewrite bool_decide_false by (rewrite Hst; auto).
    rewrite Heq. intros [= <-]. exact Heq.
  - apply select_tool_change in Hrun; [|done|done].
    apply same_toolchanger_fields in Hrun as (_ & -> & _).
    apply (opt_eqb_refl (Some tool)).
Qed.

(** [SELECT_TOOL] (lines 123-138), with scripts run by [run_template].
    A command that returns has resolved a tool, by the name [TOOL]
    when one is given and by the number [T] otherwise; the status is
    then ready, that tool is the active tool, and the number still
    looks up the same tool. *)
Theorem cmd_SELECT_TOOL_selects (depth : nat) (gcmd : GCodeCommand)
    (self self' : Toolchanger) :
  cmd_SELECT_TOOL (run_template depth) gcmd self = (Return tt, self') ->
  exists tool,
    (if truthy (g_TOOL gcmd)
     then objects (printer self) !! str_opt (g_TOOL gcmd) = Some tool
     else exists nr, g_T gcmd = Some nr /\ lookup_tool self nr = Some tool
                     /\ lookup_tool self' nr = Some tool) /\
    status self' = STATUS_READY /\
    Tool.opt_eqb (active_tool self') (Some tool) = true.
Proof.
  unfold cmd_SELECT_TOOL. cbn zeta. destruct (truthy (g_TOOL gcmd)).
  - intros Hrun. bind_inv Hrun.
    unfold lookup_object in Hrun0. rewrite get_bind in Hrun0.
    destruct (objects (printer self) !! str_opt (g_TOOL gcmd)) as [tool|] eqn:Hobj;
      [|discriminate].
    injection Hrun0 as <- <-. exists tool. split_and!; [done| |].
    + by apply select_tool_Return_ready in Hrun.
    + by apply select_tool_Return_active in Hrun.
  - destruct (g_T gcmd) as [nr|]; [|discriminate].
    rewrite get_bind. destruct (lookup_tool self nr) as [tool|] eqn:Hlookup; [|discriminate].
    intros Hrun. exists tool. split_and!.
    + exists nr. split_and!; [done|done|].
      apply (keeps_registry_select_tool _ (keeps_registry_run_template depth)) in Hrun
        as (Htools & _).
      unfold lookup_tool in *. by rewrite Htools.
    + by apply select_tool_Return_ready in Hrun.
    + by apply select_tool_Return_active in Hrun.
Qed.

Lemma cmd_SELECT_TOOL_selects_witness :
  let self := Example.machine STATUS_READY (Some Example.T1) in
  let gcmd :=
    {| g_command := "SELECT_TOOL"; g_TOOL := None; g_T := Some 2%Z;
       g_RESTORE_AXIS := Some "XY"; g_MESSAGE := None;
     g_TARGET := None; g_WAIT := None; g_PARAMETER := None; g_VALUE := None |} in
  let self' := (cmd_SELECT_TOOL (run_template 4) gcmd self).2 in
  exists tool,
    (exists nr, Some 2%Z = Some nr /\ lookup_tool self nr = Some tool
                /\ lookup_tool self' nr = Some tool) /\
    status self' = STATUS_READY /\
    Tool.opt_eqb (active_tool self') (Some tool) = true.
Proof.
  intros self gcmd self'.
  apply (cmd_SELECT_TOOL_selects 4 gcmd self self').
  vm_compute. reflexivity.
Defined.

(** [SELECT_TOOL] with no name and no usable number raises and changes
    nothing: with neither parameter, and with a number that no tool is
    registered under. *)
Theorem cmd_SELECT_TOOL_unresolved
    (run_gcode_from_command : Template -> Context -> M unit)
    (gcmd : GCodeCommand) (self : Toolchanger) :
  truthy (g_TOOL gcmd) = false ->
  match g_T gcmd with
  | Some nr => lookup_tool self nr = None
  | None => True
  end ->
  cmd_SELECT_TOOL run_gcode_from_command gcmd self
  = (Raise (CommandError
              match g_T gcmd with
              | Some nr => "Select tool: T" +:+ pretty nr +:+ " not found"
              | None => "Select tool: Either TOOL or T needs to be specified"
              end), self).
Proof.
  intros Hname Hnumber. unfold cmd_SELECT_TOOL. cbn zeta. rewrite Hname.
  destruct (g_T gcmd) as [nr|]; [|reflexivity].
  rewrite get_bind, Hnumber. reflexivity.
Qed.

Lemma cmd_SELECT_TOOL_unresolved_witness :
  let self := Example.machine STATUS_READY None in
  let gcmd :=
    {| g_command := "SELECT_TOOL"; g_TOOL := Some ""; g_T := Some 9%Z;
       g_RESTORE_AXIS := None; g_MESSAGE := None;
     g_TARGET := None; g_WAIT := None; g_PARAMETER := None; g_VALUE := None |} in
  cmd_SELECT_TOOL (run_template 4) gcmd self
  = (Raise (CommandError "Select tool: T9 not found"), self).
Proof.
  intros self gcmd.
  apply (cmd_SELECT_TOOL_unresolved (run_template 4) gcmd self); reflexivity.
Defined.

(** When a command gives both a name and a number, [SELECT_TOOL]
    takes the tool of the name (lines 124-129) and
    [INITIALIZE_TOOLCHANGER] the tool of the number (lines 114-118). *)
Theorem tool_parameters_precedence
    (run_gcode_from_command : Template -> Context -> M unit)
    (gcmd : GCodeCommand) (nr : Z) (named numbered : Tool.t) (self : Toolchanger) :
  truthy (g_TOOL gcmd) = true ->
  objects (printer self) !! str_opt (g_TOOL gcmd) = Some named ->
  g_T gcmd = Some nr ->
  lookup_tool self nr = Some numbered ->
  cmd_SELECT_TOOL run_gcode_from_command gcmd self
  = select_tool run_gcode_from_command gcmd (Some named)
      (default (Tool.t_command_restore_axis named) (g_RESTORE_AXIS gcmd)) self
  /\
  cmd_INITIALIZE_TOOLCHANGER run_gcode_from_command gcmd self
  = initialize run_gcode_from_command (Some numbered) self.
Proof.
  intros Hname Hobj Hnr Hlookup. split.
  - unfold cmd_SELECT_TOOL. cbn zeta. rewrite Hname.
    rewrite bind_run. unfold lookup_object. rewrite get_bind, Hobj. reflexivity.
  - unfold cmd_INITIALIZE_TOOLCHANGER, lookup_tool in *. cbn zeta. rewrite Hname, Hnr.
    rewrite bind_run. unfold lookup_object.
    rewrite (bind_run (get ≫= _)), get_bind, Hobj. cbn.
    rewrite (bind_run (get ≫= _)), get_bind, Hlookup. reflexivity.
Qed.

Lemma tool_parameters_precedence_witness :
  let self := Example.machine STATUS_READY None in
  let gcmd :=
    {| g_command := "SELECT_TOOL"; g_TOOL := Some "tool T1"; g_T := Some 3%Z;
       g_RESTORE_AXIS := None; g_MESSAGE := None;
     g_TARGET := None; g_WAIT := None; g_PARAMETER := None; g_VALUE := None |} in
  cmd_SELECT_TOOL (run_template 4) gcmd self
  = select_tool (run_template 4) gcmd (Some Example.T1) "" self
  /\
  cmd_INITIALIZE_TOOLCHANGER (run_template 4) gcmd self
  = initialize (run_template 4) (Some Example.T3) self.
Proof.
  intros self gcmd.
  apply (tool_parameters_precedence (run_template 4) gcmd 3 Example.T1 Example.T3 self);
    reflexivity.
Defined.

(** [INITIALIZE_TOOLCHANGER] with a number that no tool is registered
    under raises and changes nothing, also when [TOOL] names a tool
    that exists (lines 116-119). *)
Theorem cmd_INITIALIZE_TOOLCHANGER_unassigned
    (run_gcode_from_command : Template -> Context -> M unit)
    (gcmd : GCodeCommand) (nr : Z) (self : Toolchanger) :
  g_T gcmd = Some nr ->
  lookup_tool self nr = None ->
  truthy (g_TOOL gcmd) = false
  \/ is_Some (objects (printer self) !! str_opt (g_TOOL gcmd)) ->
  cmd_INITIALIZE_TOOLCHANGER run_gcode_from_command gcmd self
  = (Raise (CommandError ("Tool #" +:+ pretty nr +:+ " is not assigned")), self).
Proof.
  intros Hnr Hlookup Hname. unfold cmd_INITIALIZE_TOOLCHANGER, lookup_tool in *.
  cbn zeta. rewrite Hnr, bind_run.
  destruct Hname as [->|[named Hobj]].
  - cbn. rewrite (bind_run (get ≫= _)), get_bind, Hlookup. reflexivity.
  - destruct (truthy (g_TOOL gcmd)).
    + unfold lookup_object. rewrite (bind_run (get ≫= _)), get_bind, Hobj. cbn.
      rewrite (bind_run (get ≫= _)), get_bind, Hlookup. reflexivity.
    + cbn. rewrite (bind_run (get ≫= _)), get_bind, Hlookup. reflexivity.
Qed.

Lemma cmd_INITIALIZE_TOOLCHANGER_unassigned_witness :
  let self := Example.machine STATUS_UNINITALIZED None in
  let gcmd :=
    {| g_command := "INITIALIZE_TOOLCHANGER"; g_TOOL := Some "tool T1"; g_T := Some 8%Z;
       g_RESTORE_AXIS := None; g_MESSAGE := None;
     g_TARGET := None; g_WAIT := None; g_PARAMETER := None; g_VALUE := None |} in
  cmd_INITIALIZE_TOOLCHANGER (run_template 4) gcmd self
  = (Raise (CommandError "Tool #8 is not assigned"), self).
Proof.
  intros self gcmd.
  apply (cmd_INITIALIZE_TOOLCHANGER_unassigned (run_template 4) gcmd 8 self);
    [reflexivity|reflexivity|].
  right. by eexists.
Defined.

(** ** The homing event *)

(** [_handle_home_rails_begin] (lines 83-85): the event does nothing
    at all unless the policy is on-home and the toolchanger is
    uninitialized; in that case it initializes, and when the call
    returns the status is ready. *)
Theorem _handle_home_rails_begin_correct
    (run_gcode_from_command : Template -> Context -> M unit) (self : Toolchanger) :
  (initialize_on self <> INIT_ON_HOME \/ status self <> STATUS_UNINITALIZED ->
   _handle_home_rails_begin run_gcode_from_command self = (Return tt, self))
  /\
  (initialize_on self = INIT_ON_HOME -> status self = STATUS_UNINITALIZED ->
   _handle_home_rails_begin run_gcode_from_command self
   = initialize run_gcode_from_command None self
   /\
   forall self',
     _handle_home_rails_begin run_gcode_from_command self = (Return tt, self') ->
     status self' = STATUS_READY).
Proof.
  unfold _handle_home_rails_begin. rewrite get_bind. split.
  - intros [H|H].
    + by rewrite (bool_decide_false _ H).
    + rewrite (bool_decide_false _ H). by rewrite andb_false_r.
  - intros Hpolicy Hst. rewrite !bool_decide_true by done. cbn [andb].
    split; [reflexivity|].
    intros self' Hrun.
    apply (initialize_outer_ready _ _ _ _ ltac:(rewrite Hst; discriminate)
             ltac:(rewrite Hst; discriminate) Hrun).
Qed.

(** The example machine has the first-use policy: homing leaves it
    uninitialized. *)
Lemma _handle_home_rails_begin_correct_witness :
  let self := Example.machine STATUS_UNINITALIZED None in
  _handle_home_rails_begin (run_template 4) self = (Return tt, self).
Proof.
  intros self.
  apply (proj1 (_handle_home_rails_begin_correct (run_template 4) self)).
  left. discriminate.
Defined.

(** ** The move that restores the axes *)

(** [_restore_axis] (lines 341-345).  With no axis to restore nothing
    is done.  Otherwise, when the call returns, exactly one move was
    issued; its target has, for each axis listed, the coordinate (plus
    the offset of the tool when a tool is given) and has no other
    axis.  When the call raises, nothing was issued. *)
Theorem _restore_axis_correct (position : Coord) (axis : string) (tool : option Tool.t)
    (self : Toolchanger) :
  (axis = "" -> _restore_axis position axis tool self = (Return tt, self))
  /\
  (forall e self', _restore_axis position axis tool self = (Raise e, self') -> self' = self)
  /\
  (axis <> "" ->
   forall self',
     _restore_axis position axis tool self = (Return tt, self') ->
     exists target,
       self' = log (EvMove target) self /\
       forall index key v,
         INDEX_TO_XYZ index = Some key -> coord_index position index = Some v ->
         if axis_listed axis index then
           match tool with
           | None => target !! key = Some v
           | Some t =>
             exists o, tool_offset t index = Some o /\ target !! key = Some (v + o)%float
           end
         else target !! key = None).
Proof.
  unfold _restore_axis. split_and!.
  - intros ->. reflexivity.
  - intros e self'. case_bool_decide; [discriminate|].
    rewrite bind_run. unfold lift.
    destruct (_restore_position_with_tool_offset position axis tool); [discriminate|].
    by intros [= _ <-].
  - intros Hne self'. rewrite bool_decide_false by done.
    rewrite bind_run. unfold lift.
    destruct (_restore_position_with_tool_offset position axis tool) as [target|] eqn:Hpos;
      [|discriminate].
    intros [= <-]. exists target. split; [reflexivity|].
    intros index key v Hkey Hv.
    pose proof (restore_position_loop_lookup _ _ _ _ _ Hpos index key v Hkey Hv) as H.
    destruct (axis_listed axis index); [exact H|].
    rewrite H. apply lookup_empty.
Qed.

Lemma _restore_axis_correct_witness :
  let self := Example.machine STATUS_CHANGING (Some Example.T3) in
  exists target,
    (_restore_axis Example.position "Z" (Some Example.T3) self).2
    = log (EvMove target) self /\
    target !! "Z" = Some 15.0%float /\ target !! "X" = None.
Proof.
  intros self.
  destruct (proj2 (proj2 (_restore_axis_correct Example.position "Z"
                            (Some Example.T3) self))
              ltac:(discriminate)
              (_restore_axis Example.position "Z" (Some Example.T3) self).2)
    as (target & Htarget & Hlookup).
  { vm_compute. reflexivity. }
  exists target. split; [exact Htarget|]. split.
  - destruct (Hlookup 2 "Z" 10.0%float eq_refl eq_refl) as (o & Ho & ->).
    vm_compute in Ho. injection Ho as <-. reflexivity.
  - exact (Hlookup 0 "X" 100.0%float eq_refl eq_refl).
Defined.

(** ** The registry as a function of the mapping *)

Lemma registry_ok_numbers (self : Toolchanger) (n : Z) :
  registry_ok self -> n ∈ tool_numbers self <-> is_Some (tools self !! n).
Proof.
  intros (Hlen & _ & _ & Hentries). split.
  - intros Hin. destruct (elem_of_zip_numbers _ _ _ Hlen Hin) as (nm & Hnm).
    apply Hentries in Hnm as (t & Ht & _). by eexists.
  - intros [t Ht].
    assert ((n, Tool.name t) ∈ zip (tool_numbers self) (tool_names self)) as Hin
      by (apply Hentries; eauto).
    apply (elem_of_zip_l _ _ _ _ Hin).
Qed.

Lemma registry_ok_unique (self self' : Toolchanger) :
  registry_ok self -> registry_ok self' -> tools self = tools self' ->
  tool_numbers self = tool_numbers self' /\ tool_names self = tool_names self'.
Proof.
  intros Hok Hok' Htools.
  assert (tool_numbers self = tool_numbers self') as Hnumbers.
  { pose proof (fun n => registry_ok_numbers self n Hok) as Hin.
    pose proof (fun n => registry_ok_numbers self' n Hok') as Hin'.
    destruct Hok as (_ & Hs & _), Hok' as (_ & Hs' & _).
    apply (StronglySorted_unique_strong Z.lt); [|done|done|].
    - intros x1 x2 _ _ H1 H2. lia.
    - apply NoDup_Permutation; [by apply StronglySorted_lt_NoDup..|].
      intros n. by rewrite Hin, Hin', Htools. }
  split; [exact Hnumbers|].
  destruct Hok as (Hlen & _ & _ & Hentries), Hok' as (Hlen' & _ & _ & Hentries').
  rewrite <- Hnumbers in *.
  apply list_eq. intros i.
  destruct (tool_numbers self !! i) as [n|] eqn:Hn.
  - destruct (tool_names self !! i) as [a|] eqn:Ha;
      [|apply lookup_ge_None in Ha; apply lookup_lt_Some in Hn; lia].
    destruct (tool_names self' !! i) as [b|] eqn:Hb;
      [|apply lookup_ge_None in Hb; apply lookup_lt_Some in Hn; lia].
    assert ((n, a) ∈ zip (tool_numbers self) (tool_names self)) as Hina.
    { apply list_elem_of_lookup. exists i. rewrite lookup_zip_with, Hn. cbn. by rewrite Ha. }
    assert ((n, b) ∈ zip (tool_numbers self) (tool_names self')) as Hinb.
    { apply list_elem_of_lookup. exists i. rewrite lookup_zip_with, Hn. cbn. by rewrite Hb. }
    apply Hentries in Hina as (t & Ht & <-).
    apply Hentries' in Hinb as (t' & Ht' & <-).
    rewrite Htools in Ht. congruence.
  - apply lookup_ge_None in Hn.
    rewrite (proj2 (lookup_ge_None _ _)) by lia.
    rewrite (proj2 (lookup_ge_None _ _)) by lia. reflexivity.
Qed.

(** What [assign_tool] does when no number is taken over: it returns,
    the registry is consistent again, and nothing but the mapping and
    the two sequences has changed. *)
Lemma assign_tool_registry_step (tool : Tool.t) (number prev_number : Z)
    (replace : bool) (self : Toolchanger) :
  registry_ok self ->
  (tools self !! number = None \/ (number = prev_number /\ replace = true)) ->
  (forall n t, tools self !! n = Some t ->
               (Tool.name t = Tool.name tool <-> n = prev_number)) ->
  exists self',
    assign_tool tool number prev_number replace self = (Return tt, self') /\
    registry_ok self' /\
    tools self' = <[number := tool]> (delete prev_number (tools self)) /\
    self' = set_tool_names (tool_names self')
              (set_tool_numbers (tool_numbers self') (set_tools (tools self') self)).
Proof.
  intros Hok Hnumber Htool. rewrite assign_tool_unfold.
  assert (contains (tools self) number && negb replace = false) as ->.
  { destruct Hnumber as [Hfree|[_ ->]].
    - unfold contains. by rewrite Hfree.
    - apply andb_false_r. }
  cbn zeta.
  destruct (contains (tools self) prev_number) eqn:Hprev.
  - apply contains_is_Some in Hprev as [t Ht].
    assert (Tool.name t = Tool.name tool) as Hname by (by apply (Htool prev_number t)).
    destruct (registry_ok_remove tool prev_number self Hok)
      as (numbers & names & Hnumbers & Hnames & Hok'); [eauto|].
    cbn [tool_numbers tool_names set_tools set_tool_numbers set_tool_names].
    rewrite Hnumbers, Hnames.
    eexists. split; [reflexivity|]. split_and!; [|reflexivity|reflexivity].
    apply (registry_ok_insert tool number _ Hok').
    + cbn. destruct Hnumber as [Hfree|[-> _]].
      * apply lookup_delete_None. by right.
      * apply lookup_delete_eq.
    + cbn. intros n t' Ht' Hname'.
      apply lookup_delete_Some in Ht' as [Hne Ht'].
      apply Hne. symmetry. by apply (Htool n t').
  - assert (tools self !! prev_number = None) as Hnone.
    { unfold contains in Hprev. by destruct (tools self !! prev_number). }
    eexists. split; [reflexivity|]. split_and!; [| |reflexivity].
    + apply (registry_ok_insert tool number self Hok).
      * destruct Hnumber as [Hfree|[-> _]]; done.
      * intros n t Ht Hname. apply (Htool n t Ht) in Hname. congruence.
    + cbn. by rewrite delete_id.
Qed.

Lemma toolchanger_registry_eq (self self' : Toolchanger) :
  self' = set_tool_names (tool_names self')
            (set_tool_numbers (tool_numbers self') (set_tools (tools self') self)) ->
  tools self' = tools self -> tool_numbers self' = tool_numbers self ->
  tool_names self' = tool_names self -> self' = self.
Proof.
  intros -> Ht Hn Hm. cbn in *. rewrite Ht, Hn, Hm. by destruct self.
Qed.

(** A round trip of [assign_tool].  In a consistent registry, a tool
    registered under [a] is moved to a free number [b] and then back
    to [a]: both calls return, and the toolchanger is exactly as it
    was before. *)
Theorem assign_tool_round_trip (tool : Tool.t) (a b : Z) (self : Toolchanger) :
  registry_ok self ->
  tools self !! a = Some tool ->
  tools self !! b = None ->
  (forall n t, tools self !! n = Some t -> Tool.name t = Tool.name tool -> n = a) ->
  exists self1,
    assign_tool tool b a false self = (Return tt, self1) /\
    lookup_tool self1 b = Some tool /\ lookup_tool self1 a = None /\
    assign_tool tool a b false self1 = (Return tt, self).
Proof.
  intros Hok Ha Hb Hname.
  assert (a <> b) as Hab by congruence.
  destruct (assign_tool_registry_step tool b a false self Hok)
    as (self1 & Hrun1 & Hok1 & Htools1 & Hshape1); [by left| |].
  { intros n t Ht. split; [by apply (Hname n t)|]. intros ->. congruence. }
  exists self1. split; [exact Hrun1|].
  unfold lookup_tool. rewrite Htools1.
  split; [apply lookup_insert_eq|].
  split; [rewrite lookup_insert_ne by done; apply lookup_delete_eq|].
  destruct (assign_tool_registry_step tool a b false self1 Hok1)
    as (self2 & Hrun2 & Hok2 & Htools2 & Hshape2).
  { left. rewrite Htools1, lookup_insert_ne by done. apply lookup_delete_eq. }
  { intros n t. rewrite Htools1. intros Ht.
    apply lookup_insert_Some in Ht as [[<- <-]|[Hne Ht]]; [done|].
    apply lookup_delete_Some in Ht as [Hna Ht].
    split; [|done]. intros Heq. by apply (Hname n t Ht) in Heq. }
  assert (tools self2 = tools self) as Htools.
  { rewrite Htools2, Htools1. apply map_eq. intros n.
    destruct (decide (n = a)) as [->|Hna]; [by rewrite lookup_insert_eq|].
    rewrite lookup_insert_ne by done.
    destruct (decide (n = b)) as [->|Hnb]; [by rewrite lookup_delete_eq|].
    rewrite lookup_delete_ne, lookup_insert_ne, lookup_delete_ne by done. reflexivity. }
  destruct (registry_ok_unique self2 self Hok2 Hok Htools) as [Hnumbers Hnames].
  assert (self2 = self) as <-; [|exact Hrun2].
  apply toolchanger_registry_eq; [|done..].
  rewrite Hshape2 at 1. rewrite Hshape1 at 1. reflexivity.
Qed.

Lemma example_registry_ok (s : Status) (active : option Tool.t) :
  registry_ok (Example.machine s active).
Proof.
  unfold registry_ok. split_and!.
  - reflexivity.
  - repeat constructor.
  - compute_done.
  - intros n name. cbn. split.
    + rewrite !elem_of_cons, elem_of_nil.
      intros [[= -> ->]|[[= -> ->]|[[= -> ->]|[]]]]; eexists; split; reflexivity.
    + intros (t & Ht & <-).
      apply lookup_insert_Some in Ht as [[<- <-]|[_ Ht]]; [set_solver|].
      apply lookup_insert_Some in Ht as [[<- <-]|[_ Ht]]; [set_solver|].
      apply lookup_insert_Some in Ht as [[<- <-]|[_ Ht]]; [set_solver|].
      by rewrite lookup_empty in Ht.
Qed.

Lemma assign_tool_round_trip_witness :
  let self := Example.machine STATUS_READY None in
  exists self1,
    assign_tool Example.T2 5 2 false self = (Return tt, self1) /\
    lookup_tool self1 5 = Some Example.T2 /\ lookup_tool self1 2 = None /\
    assign_tool Example.T2 2 5 false self1 = (Return tt, self).
Proof.
  intros self.
  apply (assign_tool_round_trip Example.T2 2 5 self).
  - apply example_registry_ok.
  - reflexivity.
  - reflexivity.
  - intros n t Ht Hname. cbn in Ht.
    apply lookup_insert_Some in Ht as [[<- <-]|[_ Ht]]; [discriminate|].
    apply lookup_insert_Some in Ht as [[<- <-]|[_ Ht]]; [done|].
    apply lookup_insert_Some in Ht as [[<- <-]|[_ Ht]]; [discriminate|].
    by rewrite lookup_empty in Ht.
Defined.

(** Registering a tool that is new: its number is free, it has no
    previous number in the registry, and no registered tool has its
    name. *)
Lemma assign_tool_new (tool : Tool.t) (number prev_number : Z) (replace : bool)
    (self : Toolchanger) :
  registry_ok self ->
  tools self !! number = None ->
  tools self !! prev_number = None ->
  (forall n t, tools self !! n = Some t -> Tool.name t <> Tool.name tool) ->
  exists self',
    assign_tool tool number prev_number replace self = (Return tt, self') /\
    registry_ok self' /\
    tools self' = <[number := tool]> (tools self) /\
    self' = set_tool_names (tool_names self')
              (set_tool_numbers (tool_numbers self') (set_tools (tools self') self)).
Proof.
  intros Hok Hnumber Hprev Hname.
  destruct (assign_tool_registry_step tool number prev_number replace self Hok)
    as (self' & Hrun & Hok' & Htools & Hshape); [by left| |].
  { intros n t Ht. split; [intros Heq; by apply (Hname n t) in Heq|].
    intros ->. congruence. }
  exists self'. split_and!; [done|done| |done].
  by rewrite Htools, delete_id.
Qed.

(** The order of registration does not matter.  Two new tools with
    different names are assigned different free numbers of a
    consistent registry: either order of the two calls returns, and
    gives the same toolchanger. *)
Theorem assign_tool_order (tool1 tool2 : Tool.t) (n1 n2 p1 p2 : Z)
    (replace1 replace2 : bool) (self : Toolchanger) :
  registry_ok self ->
  n1 <> n2 -> Tool.name tool1 <> Tool.name tool2 ->
  tools self !! n1 = None -> tools self !! n2 = None ->
  tools self !! p1 = None -> tools self !! p2 = None -> p1 <> n2 -> p2 <> n1 ->
  (forall n t, tools self !! n = Some t ->
               Tool.name t <> Tool.name tool1 /\ Tool.name t <> Tool.name tool2) ->
  exists self',
    (assign_tool tool1 n1 p1 replace1;; assign_tool tool2 n2 p2 replace2) self
    = (Return tt, self') /\
    (assign_tool tool2 n2 p2 replace2;; assign_tool tool1 n1 p1 replace1) self
    = (Return tt, self') /\
    registry_ok self' /\
    lookup_tool self' n1 = Some tool1 /\ lookup_tool self' n2 = Some tool2.
Proof.
  intros Hok Hn Hnames Hn1 Hn2 Hp1 Hp2 Hp1n Hp2n Hfresh.
  destruct (assign_tool_new tool1 n1 p1 replace1 self Hok Hn1 Hp1)
    as (sa & Hra & Hoka & Htoolsa & Hshapea); [intros n t Ht; by apply (Hfresh n t)|].
  destruct (assign_tool_new tool2 n2 p2 replace2 sa Hoka)
    as (sab & Hrab & Hokab & Htoolsab & Hshapeab).
  { by rewrite Htoolsa, lookup_insert_ne. }
  { by rewrite Htoolsa, lookup_insert_ne. }
  { intros n t. rewrite Htoolsa. intros Ht.
    apply lookup_insert_Some in Ht as [[_ <-]|[_ Ht]]; [done|by apply (Hfresh n t)]. }
  destruct (assign_tool_new tool2 n2 p2 replace2 self Hok Hn2 Hp2)
    as (sb & Hrb & Hokb & Htoolsb & Hshapeb); [intros n t Ht; by apply (Hfresh n t)|].
  destruct (assign_tool_new tool1 n1 p1 replace1 sb Hokb)
    as (sba & Hrba & Hokba & Htoolsba & Hshapeba).
  { by rewrite Htoolsb, lookup_insert_ne. }
  { by rewrite Htoolsb, lookup_insert_ne. }
  { intros n t. rewrite Htoolsb. intros Ht.
    apply lookup_insert_Some in Ht as [[_ <-]|[_ Ht]]; [done|by apply (Hfresh n t)]. }
  assert (tools sba = tools sab) as Htools.
  { rewrite Htoolsba, Htoolsb, Htoolsab, Htoolsa. by apply insert_insert_ne. }
  destruct (registry_ok_unique sba sab Hokba Hokab Htools) as [Hnumbers Hnamesl].
  assert (sba = sab) as Heq.
  { rewrite Hshapeba, Hshapeab, Hshapeb, Hshapea, Htools, Hnumbers, Hnamesl.
    reflexivity. }
  exists sab. split_and!.
  - by rewrite bind_run, Hra.
  - by rewrite bind_run, Hrb, Hrba, Heq.
  - done.
  - unfold lookup_tool. rewrite Htoolsab, Htoolsa.
    rewrite lookup_insert_ne by done. apply lookup_insert_eq.
  - unfold lookup_tool. rewrite Htoolsab. apply lookup_insert_eq.
Qed.

Lemma assign_tool_order_witness :
  let self := Example.machine STATUS_READY None in
  let tool1 := Example.tool "tool T7" 7 None None None in
  let tool2 := Example.tool "tool T5" 5 None None None in
  exists self',
    (assign_tool tool1 7 (-1) false;; assign_tool tool2 5 (-1) false) self
    = (Return tt, self') /\
    (assign_tool tool2 5 (-1) false;; assign_tool tool1 7 (-1) false) self
    = (Return tt, self') /\
    registry_ok self' /\
    lookup_tool self' 7 = Some tool1 /\ lookup_tool self' 5 = Some tool2.
Proof.
  intros self tool1 tool2.
  apply (assign_tool_order tool1 tool2 7 5 (-1) (-1) false false self);
    try done.
  - apply example_registry_ok.
  - intros n t Ht. cbn in Ht.
    apply lookup_insert_Some in Ht as [[<- <-]|[_ Ht]]; [done|].
    apply lookup_insert_Some in Ht as [[<- <-]|[_ Ht]]; [done|].
    apply lookup_insert_Some in Ht as [[<- <-]|[_ Ht]]; [done|].
    by rewrite lookup_empty in Ht.
Defined.

(** ** How a failed initialization is reported *)

(** For every behaviour of the scripts, [initialize] never raises the
    command error of lines 212-213, "<name> failed to initialize,
    error: <message>": a script that leaves another status than the
    one it found makes [run_gcode] raise first, and the steps in
    between do not touch the status.  Every error of [initialize] is
    an [Exception] (the guard of line 191, or an error of [run_gcode])
    or the [TypeError] of a missing offset in [_set_tool_gcode_offset].
    The activation of a tool ([tool.activate], outside this file) is a
    call that does not change the status. *)
Theorem initialize_never_reports_failure
    (run_gcode_from_command : Template -> Context -> M unit)
    (select_tool : option Tool.t) (self self' : Toolchanger) (e : Exn) :
  initialize run_gcode_from_command select_tool self = (Raise e, self') ->
  (exists msg, e = Exception msg \/ e = TypeError msg) /\
  forall msg, e <> CommandError msg.
Proof.
  intros Hrun.
  assert (exists msg, e = Exception msg \/ e = TypeError msg) as Hkind.
  { revert Hrun. unfold initialize. rewrite get_bind.
    case_bool_decide as Hc; [intros [= <- _]; eauto|].
    case_bool_decide as Hi.
    - rewrite (bind_run (modify _ ≫= _)), modify_bind, get_bind.
      destruct (run_gcode _ _ _ _ (set_status STATUS_INITIALIZING self))
        as [[[]|e1] s1] eqn:Hhook.
      + apply run_gcode_Return in Hhook as [Hst1 _]. cbn in Hst1.
        intros Hrun.
        apply bind_Raise_inv in Hrun as [Hact|(a & s2 & Hact & Hrun)].
        * by apply initialize_activation in Hact.
        * apply initialize_activation in Hact. rewrite get_bind in Hrun.
          rewrite bool_decide_true in Hrun by congruence. discriminate.
      + apply run_gcode_Raise in Hhook as [msg ->]. intros [= <- _]. eauto.
    - rewrite mret_bind, bind_unit_r. intros Hact.
      by apply initialize_activation in Hact. }
  split; [exact Hkind|].
  intros msg ->. destruct Hkind as [msg' [?|?]]; discriminate.
Qed.

Lemma initialize_never_reports_failure_witness :
  let self :=
    Example.machine_with (Example.signalling "no tool detected") Example.no_script
      Example.no_script STATUS_UNINITALIZED None in
  let result := initialize (run_template 4) (Some Example.T1) self in
  (exists msg, Exception "Unexpected status during initialize_gcode, status = error, message = no tool detected, aborting"
               = Exception msg \/
               Exception "Unexpected status during initialize_gcode, status = error, message = no tool detected, aborting"
               = TypeError msg) /\
  forall msg,
    Exception "Unexpected status during initialize_gcode, status = error, message = no tool detected, aborting"
    <> CommandError msg.
Proof.
  intros self result.
  apply (initialize_never_reports_failure (run_template 4) (Some Example.T1) self result.2).
  vm_compute. reflexivity.
Defined.

(** ** Which tool a later command addresses *)

(** [_get_tool_from_gcmd] (lines 150-163) after a [SELECT_TOOL] by
    number that returned: a command that names no tool, and a command
    that gives the same number, both resolve to the tool that is now
    active, and resolving changes nothing. *)
Theorem _get_tool_from_gcmd_after_select (depth : nat) (gcmd gcmd' : GCodeCommand)
    (self self' : Toolchanger) :
  truthy (g_TOOL gcmd) = false ->
  cmd_SELECT_TOOL (run_template depth) gcmd self = (Return tt, self') ->
  truthy (g_TOOL gcmd') = false ->
  g_T gcmd' = None \/ g_T gcmd' = g_T gcmd ->
  exists tool,
    _get_tool_from_gcmd gcmd' self' = (Return tool, self') /\
    Tool.opt_eqb (active_tool self') (Some tool) = true /\
    exists nr, g_T gcmd = Some nr /\ Tool.opt_eqb (lookup_tool self nr) (Some tool) = true.
Proof.
  intros Hname. unfold cmd_SELECT_TOOL. cbn zeta. rewrite Hname.
  destruct (g_T gcmd) as [nr|] eqn:HT; [|discriminate].
  rewrite get_bind.
  destruct (lookup_tool self nr) as [tool|] eqn:Hlookup; [|discriminate].
  intros Hrun Hname' HT'.
  pose proof (select_tool_Return_active _ _ _ _ _ _ Hrun) as Hactive.
  apply (keeps_registry_select_tool _ (keeps_registry_run_template depth)) in Hrun
    as (Htools & _).
  unfold _get_tool_from_gcmd. cbn zeta. rewrite Hname'.
  destruct HT' as [->| ->].
  - rewrite get_bind.
    destruct (active_tool self') as [active|] eqn:Ha; [|discriminate].
    exists active. split_and!; [done|apply (opt_eqb_refl (Some active))|].
    exists nr. split; [done|].
    rewrite Hlookup. cbn [Tool.opt_eqb] in *. unfold Tool.eqb in *.
    apply bool_decide_eq_true in Hactive. by apply bool_decide_eq_true.
  - rewrite get_bind. unfold lookup_tool in *. rewrite Htools, Hlookup.
    exists tool. split_and!; [done|done|].
    exists nr. split; [done|]. rewrite Hlookup. apply (opt_eqb_refl (Some tool)).
Qed.

Lemma _get_tool_from_gcmd_after_select_witness :
  let self := Example.machine STATUS_READY (Some Example.T1) in
  let gcmd :=
    {| g_command := "SELECT_TOOL"; g_TOOL := None; g_T := Some 2%Z;
       g_RESTORE_AXIS := Some "XY"; g_MESSAGE := None;
     g_TARGET := None; g_WAIT := None; g_PARAMETER := None; g_VALUE := None |} in
  let self' := (cmd_SELECT_TOOL (run_template 4) gcmd self).2 in
  exists tool,
    _get_tool_from_gcmd (Example.gcmd "SET_TOOL_TEMPERATURE") self' = (Return tool, self') /\
    Tool.opt_eqb (active_tool self') (Some tool) = true /\
    exists nr, Some 2%Z = Some nr /\ Tool.opt_eqb (lookup_tool self nr) (Some tool) = true.
Proof.
  intros self gcmd self'.
  apply (_get_tool_from_gcmd_after_select 4 gcmd (Example.gcmd "SET_TOOL_TEMPERATURE")
           self self'); [reflexivity|vm_compute; reflexivity|reflexivity|by left].
Defined.

(** ** Tool changes that complete *)

Lemma other_module_dispatch
    (run_gcode_from_command : Template -> Context -> M unit)
    (gcmd : GCodeCommand) :
  other_module (Command gcmd) = true ->
  dispatch run_gcode_from_command gcmd = emit (EvOther gcmd).
Proof.
  cbn [other_module]. intros Hother%negb_true_iff%bool_decide_eq_false.
  unfold dispatch. cbn zeta.
  repeat (case_bool_decide as Heq;
          [exfalso; apply Hother; rewrite Heq; set_solver|clear Heq]).
  reflexivity.
Qed.

Lemma run_lines_other_module
    (run_gcode_from_command : Template -> Context -> M unit)
    (script : list ScriptLine) (self : Toolchanger) :
  forallb other_module script = true ->
  exists self',
    run_lines run_gcode_from_command script self = (Return tt, self') /\
    same_toolchanger self self' /\
    bed_mesh (printer self') = bed_mesh (printer self).
Proof.
  revert self. induction script as [|line script IH]; intros self Hplain.
  - exists self. split_and!; [reflexivity|apply same_toolchanger_refl|reflexivity].
  - cbn [forallb] in Hplain. apply andb_true_iff in Hplain as [Hline Hplain].
    destruct line as [gcmd|msg]; [|discriminate].
    cbn [run_lines]. rewrite other_module_dispatch by done.
    destruct (IH (log (EvOther gcmd) self) Hplain) as (self' & Hrun & Hsame & Hmesh).
    exists self'. split_and!; [exact Hrun| |exact Hmesh].
    eapply same_toolchanger_trans; [apply same_toolchanger_log|exact Hsame].
Qed.

(** A hook whose script has only commands of other modules returns,
    and has changed nothing of the toolchanger. *)
Lemma run_gcode_plain (depth : nat) (hook : string) (template : Template)
    (extra_context : option ExtraContext) (self : Toolchanger) :
  plain template ->
  exists self',
    run_gcode (run_template (S depth)) hook template extra_context self = (Return tt, self') /\
    same_toolchanger self self' /\
    bed_mesh (printer self') = bed_mesh (printer self).
Proof.
  intros Hplain. rewrite run_gcode_unfold. cbn [run_template].
  destruct (run_lines_other_module (run_template depth)
              (template {| ctx_tool := Tool.get_status <$> active_tool self;
                           ctx_toolchanger := get_status self;
                           ctx_extra := extra_context |})
              (log (EvHook hook) self) (Hplain _)) as (self' & -> & Hsame & Hmesh).
  pose proof (same_toolchanger_fields _ _ Hsame) as (Hst & _).
  exists self'. rewrite bool_decide_true by exact Hst.
  split_and!; [reflexivity| |exact Hmesh].
  eapply same_toolchanger_trans; [apply same_toolchanger_log|exact Hsame].
Qed.

Lemma _set_tool_gcode_offset_returns (tool : Tool.t) (self : Toolchanger) :
  (bed_mesh (printer self) = Some true ->
   is_Some (Tool.gcode_x_offset tool) /\ is_Some (Tool.gcode_y_offset tool)) ->
  exists self', _set_tool_gcode_offset (Some tool) self = (Return tt, self').
Proof.
  intros Hmesh. unfold _set_tool_gcode_offset.
  destruct (bed_mesh (printer self)) as [[]|] eqn:Hbed.
  - destruct (Hmesh eq_refl) as [[x ->] [y ->]].
    rewrite run_script_from_command_bind, get_bind.
    change (bed_mesh (printer (log _ self))) with (bed_mesh (printer self)).
    rewrite Hbed. by eexists.
  - destruct (Tool.gcode_x_offset tool), (Tool.gcode_y_offset tool),
      (Tool.gcode_z_offset tool); try (by eexists);
      rewrite run_script_from_command_bind, get_bind;
      change (bed_mesh (printer (log _ self))) with (bed_mesh (printer self));
      rewrite Hbed; by eexists.
  - destruct (Tool.gcode_x_offset tool), (Tool.gcode_y_offset tool),
      (Tool.gcode_z_offset tool); try (by eexists);
      rewrite run_script_from_command_bind, get_bind;
      change (bed_mesh (printer (log _ self))) with (bed_mesh (printer self));
      rewrite Hbed; by eexists.
Qed.

Lemma _configure_toolhead_for_tool_returns (tool : option Tool.t) (self : Toolchanger) :
  exists self',
    _configure_toolhead_for_tool tool self = (Return tt, self') /\
    same_toolchanger (set_active_tool tool self) self' /\
    bed_mesh (printer self') = bed_mesh (printer self).
Proof.
  unfold _configure_toolhead_for_tool, mbind, M_bind, get, emit, modify.
  cbn beta iota.
  destruct (active_tool self) as [old|], tool as [new|]; cbn;
    eexists; split_and!; reflexivity.
Qed.

Lemma _restore_axis_returns (position : Coord) (axis : string) (tool : option Tool.t)
    (restore : gmap string float) (self : Toolchanger) :
  _restore_position_with_tool_offset position axis tool = Return restore ->
  exists self',
    _restore_axis position axis tool self = (Return tt, self') /\
    same_toolchanger self self' /\
    bed_mesh (printer self') = bed_mesh (printer self).
Proof.
  intros Hrestore. unfold _restore_axis. case_bool_decide.
  - exists self. split_and!; [reflexivity|apply same_toolchanger_refl|reflexivity].
  - rewrite Hrestore, lift_Return_bind. eexists. split_and!; reflexivity.
Qed.

Lemma select_tool_ready_completes (depth : nat) (gcmd : GCodeCommand) (tool : Tool.t)
    (restore_axis : string) (restore : gmap string float) (self : Toolchanger) :
  status self = STATUS_READY ->
  Tool.opt_eqb (active_tool self) (Some tool) = false ->
  plain (before_change_gcode self) -> plain (after_change_gcode self) ->
  plain (Tool.pickup_gcode tool) ->
  (forall active, active_tool self = Some active -> plain (Tool.dropoff_gcode active)) ->
  _restore_position_with_tool_offset (gcode_position (printer self)) restore_axis (Some tool)
  = Return restore ->
  (bed_mesh (printer self) = Some true ->
   is_Some (Tool.gcode_x_offset tool) /\ is_Some (Tool.gcode_y_offset tool)) ->
  exists self',
    select_tool (run_template (S depth)) gcmd (Some tool) restore_axis self
    = (Return tt, self').
Proof.
  intros Hst Hne Hbefore Hafter Hpickup Hdropoff Hrestore Hmesh.
  unfold select_tool. rewrite get_bind.
  rewrite (bool_decide_false (status self = STATUS_UNINITALIZED)) by (rewrite Hst; done).
  cbn [andb]. rewrite mret_bind, get_bind.
  rewrite bool_decide_false by (rewrite Hst; auto).
  rewrite Hne, modify_bind, get_bind.
  change (gcode_position (printer (set_status STATUS_CHANGING self)))
    with (gcode_position (printer self)).
  rewrite Hrestore, lift_Return_bind.
  rewrite run_script_from_command_bind, get_bind.
  set (extra_context := Some {| dropoff_tool := _; pickup_tool := _; restore_position := _ |}).
  (* before_change_gcode *)
  destruct (run_gcode_plain depth "before_change_gcode" (before_change_gcode self)
              extra_context
              (log (EvRunScript (SAVE_GCODE_STATE "_toolchange_state"))
                 (set_status STATUS_CHANGING self)) Hbefore)
    as (s1 & Hrun1 & Hsame1 & Hmesh1).
  change (before_change_gcode (log _ (set_status STATUS_CHANGING self)))
    with (before_change_gcode self).
  rewrite bind_run, Hrun1.
  apply same_toolchanger_fields in Hsame1 as (_ & Hactive1 & _ & _ & _ & _ & Hafter1).
  cbn in Hactive1, Hafter1, Hmesh1.
  rewrite run_script_from_command_bind, get_bind.
  (* tool.dropoff_gcode *)
  set (s1' := log _ s1).
  assert (exists s2,
            match active_tool s1' with
            | Some active =>
              run_gcode (run_template (S depth)) "tool.dropoff_gcode"
                (Tool.dropoff_gcode active) extra_context
            | None => mret tt
            end s1' = (Return tt, s2) /\
            after_change_gcode s2 = after_change_gcode self /\
            bed_mesh (printer s2) = bed_mesh (printer self)) as (s2 & Hrun2 & Hafter2 & Hmesh2).
  { change (active_tool s1') with (active_tool s1). rewrite Hactive1.
    destruct (active_tool self) as [active|] eqn:Hactive.
    - destruct (run_gcode_plain depth "tool.dropoff_gcode" (Tool.dropoff_gcode active)
                  extra_context s1' (Hdropoff active eq_refl))
        as (s2 & Hrun2 & Hsame2 & Hmesh2).
      exists s2. split_and!; [exact Hrun2| |].
      + apply same_toolchanger_fields in Hsame2 as (_ & _ & _ & _ & _ & _ & ->).
        exact Hafter1.
      + rewrite Hmesh2. exact Hmesh1.
    - exists s1'. split_and!; [reflexivity|exact Hafter1|exact Hmesh1]. }
  rewrite bind_run, Hrun2.
  (* the activation of the tool *)
  destruct (_configure_toolhead_for_tool_returns (Some tool) s2)
    as (s3 & Hrun3 & Hsame3 & Hmesh3).
  rewrite (bind_run (_configure_toolhead_for_tool _ ≫= _)), bind_run, Hrun3.
  apply same_toolchanger_fields in Hsame3 as (_ & _ & _ & _ & _ & _ & Hafter3).
  cbn in Hafter3.
  (* tool.pickup_gcode *)
  destruct (run_gcode_plain depth "tool.pickup_gcode" (Tool.pickup_gcode tool)
              extra_context s3 Hpickup) as (s4 & Hrun4 & Hsame4 & Hmesh4).
  rewrite bind_run, Hrun4, get_bind.
  apply same_toolchanger_fields in Hsame4 as (_ & _ & _ & _ & _ & _ & Hafter4).
  (* after_change_gcode *)
  destruct (run_gcode_plain depth "after_change_gcode" (after_change_gcode s4)
              extra_context s4) as (s5 & Hrun5 & _ & Hmesh5).
  { rewrite Hafter4, Hafter3, Hafter2. exact Hafter. }
  rewrite Hrun5.
  (* the position, the saved state and the offset *)
  destruct (_restore_axis_returns (gcode_position (printer self)) restore_axis
              (Some tool) restore s5 Hrestore) as (s6 & Hrun6 & _ & Hmesh6).
  rewrite bind_run, Hrun6, run_script_from_command_bind.
  destruct (_set_tool_gcode_offset_returns tool
              (log (EvRunScript (RESTORE_GCODE_STATE "_toolchange_state" 0)) s6))
    as (s7 & Hrun7).
  { change (bed_mesh (printer (log _ s6))) with (bed_mesh (printer s6)).
    rewrite Hmesh6, Hmesh5, Hmesh4, Hmesh3, Hmesh2. exact Hmesh. }
  rewrite bind_run, Hrun7, modify_bind.
  by eexists.
Qed.

(** A change to another tool from the status ready completes when the
    hooks only run commands of other modules: the before-change and
    after-change scripts, the dropoff script of the active tool and
    the pickup script of the new one; the restore position can be
    computed; and, if a bed mesh is loaded, the tool defines its X and
    Y offsets.  The call returns, and the toolchanger is then the one
    from before with the status ready and the new tool active. *)
Theorem select_tool_completes (depth : nat) (gcmd : GCodeCommand) (tool : Tool.t)
    (restore_axis : string) (restore : gmap string float) (self : Toolchanger) :
  status self = STATUS_READY ->
  Tool.opt_eqb (active_tool self) (Some tool) = false ->
  plain (before_change_gcode self) -> plain (after_change_gcode self) ->
  plain (Tool.pickup_gcode tool) ->
  (forall active, active_tool self = Some active -> plain (Tool.dropoff_gcode active)) ->
  _restore_position_with_tool_offset (gcode_position (printer self)) restore_axis (Some tool)
  = Return restore ->
  (bed_mesh (printer self) = Some true ->
   is_Some (Tool.gcode_x_offset tool) /\ is_Some (Tool.gcode_y_offset tool)) ->
  exists self',
    select_tool (run_template (S depth)) gcmd (Some tool) restore_axis self
    = (Return tt, self') /\
    same_toolchanger (set_status STATUS_READY (set_active_tool (Some tool) self)) self'.
Proof.
  intros Hst Hne Hbefore Hafter Hpickup Hdropoff Hrestore Hmesh.
  destruct (select_tool_ready_completes depth gcmd tool restore_axis restore self)
    as (self' & Hrun); try done.
  exists self'. split; [exact Hrun|].
  by apply select_tool_change in Hrun.
Qed.

Lemma select_tool_completes_witness :
  let self :=
    Example.machine_with Example.no_script Example.moving Example.moving
      STATUS_READY (Some Example.T1) in
  exists self',
    select_tool (run_template 1) (Example.gcmd "SELECT_TOOL") (Some Example.T3) "Z" self
    = (Return tt, self') /\
    same_toolchanger (set_status STATUS_READY (set_active_tool (Some Example.T3) self)) self'.
Proof.
  intros self.
  apply (select_tool_completes 0 (Example.gcmd "SELECT_TOOL") Example.T3 "Z"
           (<["Z" := 15.0%float]> ∅) self).
  - reflexivity.
  - reflexivity.
  - intros context. reflexivity.
  - intros context. reflexivity.
  - intros context. reflexivity.
  - intros active [= <-] context. reflexivity.
  - vm_compute. reflexivity.
  - discriminate.
Defined.

(** ** A script that calls back without end *)

Section Loop.

Variable gcmd : GCodeCommand.
Variable template : Template.
Hypothesis gcmd_command : g_command gcmd = "INITIALIZE_TOOLCHANGER".
Hypothesis gcmd_tool : truthy (g_TOOL gcmd) = true \/ is_Some (g_T gcmd).
Hypothesis template_calls : forall context, exists rest, template context = Command gcmd :: rest.

(** [initialize] with a tool raises as soon as its after-change hook
    does. *)
Lemma initialize_after_change_raises
    (run_gcode_from_command : Template -> Context -> M unit)
    (tool : Tool.t) (self : Toolchanger) :
  (forall template context, keeps same_registry (run_gcode_from_command template context)) ->
  (forall context self,
     after_change_gcode self = template ->
     exists e self', run_gcode_from_command template context self = (Raise e, self')) ->
  after_change_gcode self = template ->
  exists e self', initialize run_gcode_from_command (Some tool) self = (Raise e, self').
Proof.
  intros Hkeeps Hraises Hafter.
  assert (forall s, after_change_gcode s = template ->
            exists e s',
              (_configure_toolhead_for_tool (Some tool);;
               self ← get;
               run_gcode run_gcode_from_command "after_change_gcode"
                 (after_change_gcode self) None;;
               _set_tool_gcode_offset (Some tool)) s = (Raise e, s')) as Hactivation.
  { intros s Hs. rewrite bind_run.
    destruct (_configure_toolhead_for_tool_run (Some tool) s) as (s1 & -> & _ & Hsame).
    apply same_toolchanger_fields in Hsame as (_ & _ & _ & _ & _ & _ & Hafter1).
    cbn in Hafter1. rewrite get_bind, bind_run, run_gcode_unfold, Hafter1, Hs.
    destruct (Hraises {| ctx_tool := Tool.get_status <$> active_tool s1;
                         ctx_toolchanger := get_status s1;
                         ctx_extra := None |} (log (EvHook "after_change_gcode") s1))
      as (e & s2 & ->); [cbn; congruence|].
    by eexists _, _. }
  unfold initialize. rewrite get_bind.
  case_bool_decide; [by eexists _, _|].
  case_bool_decide.
  - rewrite (bind_run (modify _ ≫= _)), modify_bind, get_bind.
    destruct (run_gcode _ _ _ _ (set_status STATUS_INITIALIZING self))
      as [[[]|e1] s1] eqn:Hhook; [|by eexists _, _].
    apply keeps_registry_run_gcode in Hhook as (_ & _ & _ & _ & _ & _ & _ & Hafter1);
      [|exact Hkeeps].
    cbn in Hafter1. rewrite bind_run.
    destruct (Hactivation s1) as (e & s2 & ->); [congruence|].
    by eexists _, _.
  - rewrite mret_bind, bind_run.
    destruct (Hactivation self Hafter) as (e & s2 & ->).
    by eexists _, _.
Qed.

(** One more level of scripts: the first line of the template is the
    command, which resolves its tool and initializes with it. *)
Lemma run_template_loops_step (depth : nat) :
  (forall tool self, after_change_gcode self = template ->
     exists e self', initialize (run_template depth) (Some tool) self = (Raise e, self')) ->
  forall context self, after_change_gcode self = template ->
    exists e self', run_template (S depth) template context self = (Raise e, self').
Proof.
  intros IH context self Hafter. cbn [run_template].
  destruct (template_calls context) as [rest ->]. cbn [run_lines].
  rewrite bind_run. unfold dispatch. cbn zeta.
  rewrite (bool_decide_true _ gcmd_command).
  assert (exists e self',
            cmd_INITIALIZE_TOOLCHANGER (run_template depth) gcmd self = (Raise e, self'))
    as (e & self' & ->); [|by eexists _, _].
  unfold cmd_INITIALIZE_TOOLCHANGER. cbn zeta.
  assert (forall tool : option Tool.t,
            (tool = None -> is_Some (g_T gcmd)) ->
            exists e self',
              (tool ← match g_T gcmd with
                      | Some number =>
                        self ← get;
                        match lookup_tool self number with
                        | Some t => mret (Some t)
                        | None =>
                          raise (CommandError ("Tool #" +:+ pretty number
                                               +:+ " is not assigned"))
                        end
                      | None => mret tool
                      end;
               initialize (run_template depth) tool) self = (Raise e, self')) as Hnumber.
  { intros tool Htool. rewrite bind_run.
    destruct (g_T gcmd) as [nr|].
    - rewrite get_bind. destruct (lookup_tool self nr) as [t|]; [|by eexists _, _].
      by apply IH.
    - destruct tool as [t|]; [by apply IH|].
      by destruct (Htool eq_refl). }
  rewrite bind_run.
  destruct (truthy (g_TOOL gcmd)) eqn:Hname.
  - unfold lookup_object. rewrite bind_run, get_bind.
    destruct (objects (printer self) !! str_opt (g_TOOL gcmd)) as [found|];
      [|by eexists _, _].
    apply Hnumber. discriminate.
  - apply Hnumber. intros _. by destruct gcmd_tool.
Qed.

Lemma initialize_loops (depth : nat) (tool : Tool.t) (self : Toolchanger) :
  after_change_gcode self = template ->
  exists e self', initialize (run_template depth) (Some tool) self = (Raise e, self').
Proof.
  revert tool self. induction depth as [|depth IH]; intros tool self Hafter.
  - apply initialize_after_change_raises; [apply (keeps_registry_run_template 0)| |done].
    intros context s _. by eexists _, _.
  - apply initialize_after_change_raises;
      [apply (keeps_registry_run_template (S depth))| |done].
    intros context s Hs. by apply run_template_loops_step.
Qed.

End Loop.

(** An after-change script that calls [INITIALIZE_TOOLCHANGER] with a
    tool never lets [initialize] return for a tool: the nested call
    runs the after-change script again (line 203 runs it also in the
    nested call), and so on until the nesting of scripts is exhausted
    or the tool cannot be resolved.  However deep scripts may nest,
    the call raises. *)
Theorem initialize_after_change_loops (depth : nat) (gcmd : GCodeCommand)
    (tool : Tool.t) (self : Toolchanger) :
  g_command gcmd = "INITIALIZE_TOOLCHANGER" ->
  truthy (g_TOOL gcmd) = true \/ is_Some (g_T gcmd) ->
  (forall context, exists rest, after_change_gcode self context = Command gcmd :: rest) ->
  exists e self', initialize (run_template depth) (Some tool) self = (Raise e, self').
Proof.
  intros Hcommand Htool Hcalls.
  by apply (initialize_loops gcmd (after_change_gcode self) Hcommand Htool Hcalls).
Qed.

Lemma initialize_after_change_loops_witness :
  let self :=
    Example.machine_with Example.no_script Example.no_script (Example.starting_with 2)
      STATUS_UNINITALIZED None in
  exists e self', initialize (run_template 4) (Some Example.T1) self = (Raise e, self').
Proof.
  intros self.
  apply (initialize_after_change_loops 4
           {| g_command := "INITIALIZE_TOOLCHANGER"; g_TOOL := None;
              g_T := Some 2%Z; g_RESTORE_AXIS := None; g_MESSAGE := None;
     g_TARGET := None; g_WAIT := None; g_PARAMETER := None; g_VALUE := None |}
           Example.T1 self).
  - reflexivity.
  - right. by eexists.
  - intros context. by eexists.
Defined.

(** ** What the status dictionary shows after a change *)

(** [get_status] (lines 87-95) after a [select_tool] for a tool that
    returned, with scripts that may call back into the toolchanger:
    the dictionary shows the status "ready" and the name of that tool,
    and the name of the toolchanger and the two lists of the registry
    as they were before the call. *)
Theorem get_status_after_select (depth : nat) (gcmd : GCodeCommand) (tool : Tool.t)
    (restore_axis : string) (self self' : Toolchanger) :
  select_tool (run_template depth) gcmd (Some tool) restore_axis self = (Return tt, self') ->
  s_status (get_status self') = "ready" /\
  s_tool (get_status self') = Some (Tool.name tool) /\
  s_name (get_status self') = s_name (get_status self) /\
  s_tool_numbers (get_status self') = s_tool_numbers (get_status self) /\
  s_tool_names (get_status self') = s_tool_names (get_status self).
Proof.
  intros Hrun.
  pose proof (select_tool_Return_ready _ _ _ _ _ _ Hrun) as Hst.
  pose proof (select_tool_Return_active _ _ _ _ _ _ Hrun) as Hactive.
  apply (keeps_registry_select_tool _ (keeps_registry_run_template depth)) in Hrun
    as (_ & Hnumbers & Hnames & Hname & _).
  unfold get_status. cbn. rewrite Hst.
  split_and!; [reflexivity| |done..].
  destruct (active_tool self') as [active|]; [|discriminate].
  cbn in *. unfold Tool.eqb in Hactive.
  apply bool_decide_eq_true in Hactive. by rewrite Hactive.
Qed.

Lemma get_status_after_select_witness :
  let self := Example.machine STATUS_UNINITALIZED None in
  let self' :=
    (select_tool (run_template 4) (Example.gcmd "SELECT_TOOL") (Some Example.T2) "XY" self).2 in
  s_status (get_status self') = "ready" /\
  s_tool (get_status self') = Some "tool T2" /\
  s_name (get_status self') = "toolchanger" /\
  s_tool_numbers (get_status self') = [1; 2; 3]%Z /\
  s_tool_names (get_status self') = ["tool T1"; "tool T2"; "tool T3"].
Proof.
  intros self self'.
  apply (get_status_after_select 4 (Example.gcmd "SELECT_TOOL") Example.T2 "XY" self self').
  vm_compute. reflexivity.
Defined.

(** ** Scripts that signal an error, and scripts that fail *)

(** Commands of other modules at the head of a script run one by one
    and leave the toolchanger alone; the script goes on with the rest. *)
Lemma run_lines_other_module_app
    (run_gcode_from_command : Template -> Context -> M unit)
    (pre : list ScriptLine) (self : Toolchanger) :
  forallb other_module pre = true ->
  exists self1 events,
    (forall rest,
       run_lines run_gcode_from_command (pre ++ rest) self
       = run_lines run_gcode_from_command rest self1) /\
    same_toolchanger self self1 /\
    trace (printer self1) = trace (printer self) ++ events /\
    Forall (fun ev => exists gcmd, ev = EvOther gcmd) events.
Proof.
  revert self. induction pre as [|line pre IH]; intros self Hplain.
  - exists self, []. split_and!; [done|apply same_toolchanger_refl| |done].
    by rewrite app_nil_r.
  - cbn [forallb] in Hplain. apply andb_true_iff in Hplain as [Hline Hplain].
    destruct line as [gcmd|msg]; [|discriminate].
    destruct (IH (log (EvOther gcmd) self) Hplain)
      as (self1 & events & Hrun & Hsame & Htrace & Hevents).
    exists self1, (EvOther gcmd :: events). split_and!.
    + intros rest. cbn [app run_lines]. rewrite other_module_dispatch by done.
      apply Hrun.
    + eapply same_toolchanger_trans; [apply same_toolchanger_log|exact Hsame].
    + rewrite Htrace. cbn. by rewrite <- app_assoc.
    + apply Forall_cons. split; [by eexists|done].
Qed.

(** A hook whose script, among commands of other modules, calls
    [SELECT_TOOL_ERROR] once, while the tool is being changed or the
    toolchanger initialized: [run_gcode] raises with the name of the
    hook, and the status is left "error" with the message recorded. *)
Lemma run_gcode_signalling (depth : nat) (hook : string) (template : Template)
    (signal : GCodeCommand) (extra_context : option ExtraContext) (self : Toolchanger) :
  status self = STATUS_CHANGING \/ status self = STATUS_INITIALIZING ->
  g_command signal = "SELECT_TOOL_ERROR" ->
  (forall context, exists pre post,
     template context = pre ++ Command signal :: post /\
     forallb other_module pre = true /\ forallb other_module post = true) ->
  exists self' events,
    run_gcode (run_template (S depth)) hook template extra_context self
    = (Raise (Exception ("Unexpected status during " +:+ hook
                         +:+ ", status = error, message = "
                         +:+ default "" (g_MESSAGE signal) +:+ ", aborting")), self') /\
    same_toolchanger
      (set_error_message (default "" (g_MESSAGE signal)) (set_status STATUS_ERROR self))
      self' /\
    trace (printer self') = trace (printer self) ++ EvHook hook :: events /\
    Forall (fun ev => exists gcmd, ev = EvOther gcmd) events.
Proof.
  intros Hst Hcommand Hscript. rewrite run_gcode_unfold. cbn [run_template].
  destruct (Hscript {| ctx_tool := Tool.get_status <$> active_tool self;
                       ctx_toolchanger := get_status self;
                       ctx_extra := extra_context |})
    as (pre & post & -> & Hpre & Hpost).
  destruct (run_lines_other_module_app (run_template depth) pre
              (log (EvHook hook) self) Hpre)
    as (s1 & events1 & -> & Hsame1 & Htrace1 & Hevents1).
  pose proof (same_toolchanger_fields _ _ Hsame1) as (Hst1 & _). cbn in Hst1.
  cbn [run_lines]. unfold dispatch. cbn zeta. rewrite Hcommand.
  repeat (case_bool_decide; [discriminate|]).
  rewrite bool_decide_true by done.
  rewrite bind_run. unfold cmd_SELECT_TOOL_ERROR. rewrite get_bind.
  assert (bool_decide (status s1 ≠ STATUS_CHANGING)
          && bool_decide (status s1 ≠ STATUS_INITIALIZING) = false) as ->.
  { rewrite Hst1. destruct Hst as [-> | ->].
    - by rewrite (bool_decide_false (STATUS_CHANGING ≠ STATUS_CHANGING)) by auto.
    - rewrite (bool_decide_false (STATUS_INITIALIZING ≠ STATUS_INITIALIZING)) by auto.
      apply andb_false_r. }
  rewrite modify_bind. unfold modify at 1.
  set (s2 := set_error_message _ (set_status STATUS_ERROR s1)).
  destruct (run_lines_other_module_app (run_template depth) post s2 Hpost)
    as (s3 & events2 & Hrun3 & Hsame3 & Htrace3 & Hevents3).
  specialize (Hrun3 []). rewrite app_nil_r in Hrun3. rewrite Hrun3. cbn [run_lines].
  pose proof (same_toolchanger_fields _ _ Hsame3) as (Hst3 & _ & _ & _ & _ & Hmsg3 & _).
  cbn in Hst3, Hmsg3.
  exists s3, (events1 ++ events2). split_and!.
  - change ((mret tt : M unit) s3) with (Return tt, s3). cbn beta iota.
    rewrite bool_decide_false by (rewrite Hst3; destruct Hst as [-> | ->]; discriminate).
    by rewrite Hst3, Hmsg3.
  - eapply same_toolchanger_trans; [|exact Hsame3].
    unfold s2, same_toolchanger in *. rewrite Hsame1. reflexivity.
  - rewrite Htrace3. unfold s2. cbn. rewrite Htrace1. cbn.
    by rewrite <- !app_assoc.
  - by apply Forall_app.
Qed.

(** The property of the specification on a failed change.  The
    before-change script, made of commands of other modules and one
    call of [SELECT_TOOL_ERROR], signals an error: [select_tool] raises
    the consistency error, the status is left "error" with the message
    recorded, and the active tool is the one from before. *)
Theorem select_tool_error_signal (depth : nat) (gcmd signal : GCodeCommand)
    (tool : option Tool.t) (restore_axis : string) (self : Toolchanger) :
  status self = STATUS_READY ->
  Tool.opt_eqb (active_tool self) tool = false ->
  g_command signal = "SELECT_TOOL_ERROR" ->
  (forall context, exists pre post,
     before_change_gcode self context = pre ++ Command signal :: post /\
     forallb other_module pre = true /\ forallb other_module post = true) ->
  is_Some (match _restore_position_with_tool_offset
                   (gcode_position (printer self)) restore_axis tool with
           | Return result => Some result
           | Raise _ => None
           end) ->
  exists self',
    select_tool (run_template (S depth)) gcmd tool restore_axis self
    = (Raise (Exception ("Unexpected status during before_change_gcode"
                         +:+ ", status = error, message = "
                         +:+ default "" (g_MESSAGE signal) +:+ ", aborting")),
       self') /\
    status self' = STATUS_ERROR /\
    error_message self' = default "" (g_MESSAGE signal) /\
    active_tool self' = active_tool self.
Proof.
  intros Hst Hne Hcommand Hscript [result Hrestore].
  destruct (_restore_position_with_tool_offset _ restore_axis tool) as [r|] eqn:Hr;
    [|discriminate].
  set (extra_context :=
         Some {| dropoff_tool := Tool.name <$> active_tool (set_status STATUS_CHANGING self);
                 pickup_tool := Tool.name <$> tool;
                 restore_position := r |}).
  destruct (run_gcode_signalling depth "before_change_gcode" (before_change_gcode self)
              signal extra_context
              (log (EvRunScript (SAVE_GCODE_STATE "_toolchange_state"))
                 (set_status STATUS_CHANGING self)))
    as (self' & events & Hrun & Hsame & _); [by left|done|done|].
  exists self'. split.
  { unfold select_tool. rewrite get_bind.
    rewrite (bool_decide_false (status self = STATUS_UNINITALIZED)) by (rewrite Hst; done).
    cbn [andb]. rewrite mret_bind, get_bind.
    rewrite bool_decide_false by (rewrite Hst; auto).
    rewrite Hne, modify_bind, get_bind.
    change (gcode_position (printer (set_status STATUS_CHANGING self)))
      with (gcode_position (printer self)).
    rewrite Hr, lift_Return_bind.
    rewrite run_script_from_command_bind, get_bind.
    change (before_change_gcode (log _ (set_status STATUS_CHANGING self)))
      with (before_change_gcode self).
    rewrite bind_run. unfold extra_context in Hrun. rewrite Hrun. reflexivity. }
  apply same_toolchanger_fields in Hsame as (-> & -> & _ & _ & _ & -> & _).
  split_and!; reflexivity.
Qed.

Lemma select_tool_error_signal_witness :
  let self :=
    Example.machine_with Example.no_script (Example.signalling "dock jammed")
      Example.no_script STATUS_READY (Some Example.T1) in
  exists self',
    select_tool (run_template 4) (Example.gcmd "SELECT_TOOL") (Some Example.T3) "Z" self
    = (Raise (Exception "Unexpected status during before_change_gcode, status = error, message = dock jammed, aborting"),
       self') /\
    status self' = STATUS_ERROR /\
    error_message self' = "dock jammed" /\
    active_tool self' = Some Example.T1.
Proof.
  intros self.
  apply (select_tool_error_signal 3 (Example.gcmd "SELECT_TOOL")
           {| g_command := "SELECT_TOOL_ERROR"; g_TOOL := None; g_T := None;
              g_RESTORE_AXIS := None; g_MESSAGE := Some "dock jammed";
              g_TARGET := None; g_WAIT := None; g_PARAMETER := None; g_VALUE := None |}
           (Some Example.T3) "Z" self); [reflexivity|reflexivity|reflexivity| |].
  - intros context. by exists [], [].
  - vm_compute. by eexists.
Defined.

(** An initialize script that, among commands of other modules, calls
    [SELECT_TOOL_ERROR] once: [initialize] raises the error of
    [run_gcode] that names the hook, the status and the message; the
    status is left "error" with the message recorded, and the tool
    that was to be selected is not activated: the only calls made are
    the hook and the commands of other modules in its script. *)
Theorem initialize_error_signal (depth : nat) (select_tool : option Tool.t)
    (signal : GCodeCommand) (self : Toolchanger) :
  status self <> STATUS_CHANGING -> status self <> STATUS_INITIALIZING ->
  g_command signal = "SELECT_TOOL_ERROR" ->
  (forall context, exists pre post,
     initialize_gcode self context = pre ++ Command signal :: post /\
     forallb other_module pre = true /\ forallb other_module post = true) ->
  exists self' events,
    initialize (run_template (S depth)) select_tool self
    = (Raise (Exception ("Unexpected status during initialize_gcode"
                         +:+ ", status = error, message = "
                         +:+ default "" (g_MESSAGE signal) +:+ ", aborting")),
       self') /\
    status self' = STATUS_ERROR /\
    error_message self' = default "" (g_MESSAGE signal) /\
    active_tool self' = active_tool self /\
    trace (printer self') = trace (printer self) ++ EvHook "initialize_gcode" :: events /\
    Forall (fun ev => exists gcmd, ev = EvOther gcmd) events.
Proof.
  intros Hc Hi Hcommand Hscript.
  destruct (run_gcode_signalling depth "initialize_gcode" (initialize_gcode self)
              signal None (set_status STATUS_INITIALIZING self))
    as (self' & events & Hrun & Hsame & Htrace & Hevents); [by right|done|done|].
  exists self', events. split.
  { unfold initialize. rewrite get_bind.
    rewrite bool_decide_false by done.
    rewrite (bool_decide_true (status self ≠ STATUS_INITIALIZING)) by done.
    rewrite (bind_run (modify _ ≫= _)), modify_bind, get_bind.
    change (initialize_gcode (set_status STATUS_INITIALIZING self))
      with (initialize_gcode self).
    rewrite Hrun. reflexivity. }
  apply same_toolchanger_fields in Hsame as (-> & -> & _ & _ & _ & -> & _).
  split_and!; [reflexivity..|exact Htrace|exact Hevents].
Qed.

Lemma initialize_error_signal_witness :
  let self :=
    Example.machine_with (Example.signalling "no tool detected") Example.no_script
      Example.no_script STATUS_UNINITALIZED None in
  exists self' events,
    initialize (run_template 4) (Some Example.T1) self
    = (Raise (Exception "Unexpected status during initialize_gcode, status = error, message = no tool detected, aborting"),
       self') /\
    status self' = STATUS_ERROR /\
    error_message self' = "no tool detected" /\
    active_tool self' = None /\
    trace (printer self') = [] ++ EvHook "initialize_gcode" :: events /\
    Forall (fun ev => exists gcmd, ev = EvOther gcmd) events.
Proof.
  intros self.
  apply (initialize_error_signal 3 (Some Example.T1)
           {| g_command := "SELECT_TOOL_ERROR"; g_TOOL := None; g_T := None;
              g_RESTORE_AXIS := None; g_MESSAGE := Some "no tool detected";
              g_TARGET := None; g_WAIT := None; g_PARAMETER := None; g_VALUE := None |}
           self); [discriminate|discriminate|reflexivity|].
  intros context. by exists [], [].
Defined.

(** ** A change that fails half way *)

(** A before-change script that raises an error of its own, after
    commands of other modules only, during a change started from the
    status ready: [select_tool] raises the script-running error and
    leaves the status "changing", with the active tool unchanged.  In
    that state every further [select_tool] and every [initialize] is
    refused with nothing changed, whatever the scripts are. *)
Theorem select_tool_failed_hook_stays_changing (depth : nat) (gcmd : GCodeCommand)
    (tool : option Tool.t) (restore_axis msg : string) (restore : gmap string float)
    (self : Toolchanger) :
  status self = STATUS_READY ->
  Tool.opt_eqb (active_tool self) tool = false ->
  (forall context, exists pre rest,
     before_change_gcode self context = pre ++ RaiseError msg :: rest /\
     forallb other_module pre = true) ->
  _restore_position_with_tool_offset (gcode_position (printer self)) restore_axis tool
  = Return restore ->
  exists self',
    select_tool (run_template (S depth)) gcmd tool restore_axis self
    = (Raise (Exception ("Script running error: " +:+ msg)), self') /\
    status self' = STATUS_CHANGING /\
    active_tool self' = active_tool self /\
    (forall run_gcode_from_command gcmd' tool' restore_axis',
       select_tool run_gcode_from_command gcmd' tool' restore_axis' self'
       = (Raise (CommandError "Cannot select tool, toolchanger status is changing"), self')) /\
    (forall run_gcode_from_command tool',
       initialize run_gcode_from_command tool' self'
       = (Raise (Exception "Cannot initialize while changing tools"), self')).
Proof.
  intros Hst Hne Hscript Hrestore.
  set (extra_context :=
         Some {| dropoff_tool := Tool.name <$> active_tool (set_status STATUS_CHANGING self);
                 pickup_tool := Tool.name <$> tool;
                 restore_position := restore |}).
  set (s0 := log (EvRunScript (SAVE_GCODE_STATE "_toolchange_state"))
               (set_status STATUS_CHANGING self)).
  assert (exists self',
            run_gcode (run_template (S depth)) "before_change_gcode"
              (before_change_gcode self) extra_context s0
            = (Raise (Exception ("Script running error: " +:+ msg)), self') /\
            same_toolchanger s0 self') as (self' & Hrun & Hsame).
  { rewrite run_gcode_unfold. cbn [run_template].
    destruct (Hscript {| ctx_tool := Tool.get_status <$> active_tool s0;
                         ctx_toolchanger := get_status s0;
                         ctx_extra := extra_context |}) as (pre & rest & -> & Hpre).
    destruct (run_lines_other_module_app (run_template depth) pre
                (log (EvHook "before_change_gcode") s0) Hpre)
      as (s1 & events & -> & Hsame & _).
    exists s1. split; [reflexivity|].
    eapply same_toolchanger_trans; [apply same_toolchanger_log|exact Hsame]. }
  pose proof (same_toolchanger_fields _ _ Hsame) as (Hst' & Hactive' & _).
  cbn in Hst', Hactive'.
  exists self'. split_and!; [|exact Hst'|exact Hactive'| |].
  - unfold select_tool. rewrite get_bind.
    rewrite (bool_decide_false (status self = STATUS_UNINITALIZED)) by (rewrite Hst; done).
    cbn [andb]. rewrite mret_bind, get_bind.
    rewrite bool_decide_false by (rewrite Hst; auto).
    rewrite Hne, modify_bind, get_bind.
    change (gcode_position (printer (set_status STATUS_CHANGING self)))
      with (gcode_position (printer self)).
    rewrite Hrestore, lift_Return_bind.
    rewrite run_script_from_command_bind, get_bind.
    change (before_change_gcode (log _ (set_status STATUS_CHANGING self)))
      with (before_change_gcode self).
    unfold extra_context, s0 in Hrun. rewrite bind_run, Hrun. reflexivity.
  - intros run_gcode_from_command gcmd' tool' restore_axis'.
    unfold select_tool. rewrite get_bind.
    rewrite (bool_decide_false (status _ = STATUS_UNINITALIZED)) by (rewrite Hst'; done).
    cbn [andb]. rewrite mret_bind, get_bind.
    rewrite bool_decide_true by (rewrite Hst'; done). by rewrite Hst'.
  - intros run_gcode_from_command tool'. by apply initialize_changing.
Qed.

Lemma select_tool_failed_hook_stays_changing_witness :
  let self :=
    Example.machine_with Example.no_script (Example.failing "dock jammed")
      Example.no_script STATUS_READY (Some Example.T1) in
  exists self',
    select_tool (run_template 4) (Example.gcmd "SELECT_TOOL") (Some Example.T3) "Z" self
    = (Raise (Exception ("Script running error: " +:+ "dock jammed")), self') /\
    status self' = STATUS_CHANGING /\
    active_tool self' = Some Example.T1 /\
    (forall run_gcode_from_command gcmd' tool' restore_axis',
       select_tool run_gcode_from_command gcmd' tool' restore_axis' self'
       = (Raise (CommandError "Cannot select tool, toolchanger status is changing"), self')) /\
    (forall run_gcode_from_command tool',
       initialize run_gcode_from_command tool' self'
       = (Raise (Exception "Cannot initialize while changing tools"), self')).
Proof.
  intros self.
  apply (select_tool_failed_hook_stays_changing 3 (Example.gcmd "SELECT_TOOL")
           (Some Example.T3) "Z" "dock jammed" (<["Z" := 15.0%float]> ∅) self);
    [reflexivity|reflexivity| |vm_compute; reflexivity].
  intros context. by exists [], [].
Defined.

(** ** Parameters of a tool *)

(** [SET_TOOL_PARAMETER] (lines 364-369).  A command that raises (the
    tool cannot be resolved, [PARAMETER] or [VALUE] is missing, or the
    value is not a literal) has changed nothing at all.  A command
    that returns has resolved a tool and set the parameter to the
    value in both dictionaries of that tool; the parameters of every
    other tool, the trace and the toolchanger itself are as before. *)
Theorem cmd_SET_TOOL_PARAMETER_correct (gcmd : GCodeCommand) (self self' : Toolchanger)
    (out : Outcome unit) :
  cmd_SET_TOOL_PARAMETER gcmd self = (out, self') ->
  match out with
  | Raise _ => self' = self
  | Return _ =>
    exists tool name value,
      _get_tool_from_gcmd gcmd self = (Return tool, self) /\
      g_PARAMETER gcmd = Some name /\ g_VALUE gcmd = Some (Return value) /\
      (tool_params (printer self') !! Tool.name tool ≫= (.!! name)) = Some value /\
      (tool_modified_params (printer self') !! Tool.name tool ≫= (.!! name)) = Some value /\
      (forall other,
         other <> Tool.name tool ->
         tool_params (printer self') !! other = tool_params (printer self) !! other /\
         tool_modified_params (printer self') !! other
         = tool_modified_params (printer self) !! other) /\
      trace (printer self') = trace (printer self) /\
      same_toolchanger self self'
  end.
Proof.
  unfold cmd_SET_TOOL_PARAMETER, gcmd_get, lift. rewrite bind_run.
  destruct (_get_tool_from_gcmd gcmd self) as [[tool|e] self1] eqn:Htool;
    pose proof (_get_tool_from_gcmd_same _ _ _ _ Htool) as ->;
    [|by intros [= <- <-]].
  destruct (g_PARAMETER gcmd) as [name|]; [|by intros [= <- <-]].
  destruct (g_VALUE gcmd) as [[value|e]|]; [|by intros [= <- <-]..].
  intros [= <- <-]. exists tool, name, value.
  split_and!; [done|done|done| | | |done|done].
  - cbn. rewrite lookup_insert_eq. cbn. apply lookup_insert_eq.
  - cbn. rewrite lookup_insert_eq. cbn. apply lookup_insert_eq.
  - intros other Hother. cbn. by rewrite !lookup_insert_ne.
Qed.

Lemma cmd_SET_TOOL_PARAMETER_correct_witness :
  let self := Example.machine STATUS_READY (Some Example.T1) in
  let gcmd :=
    {| g_command := "SET_TOOL_PARAMETER"; g_TOOL := None; g_T := Some 2%Z;
       g_RESTORE_AXIS := None; g_MESSAGE := None;
       g_TARGET := None; g_WAIT := None;
       g_PARAMETER := Some "params_park_x"; g_VALUE := Some (Return (LitInt 25)) |} in
  let self' := (cmd_SET_TOOL_PARAMETER gcmd self).2 in
  exists tool name value,
    _get_tool_from_gcmd gcmd self = (Return tool, self) /\
    Some "params_park_x" = Some name /\ Some (Return (LitInt 25)) = Some (Return value) /\
    (tool_params (printer self') !! Tool.name tool ≫= (.!! name)) = Some value /\
    (tool_modified_params (printer self') !! Tool.name tool ≫= (.!! name)) = Some value /\
    (forall other,
       other <> Tool.name tool ->
       tool_params (printer self') !! other = tool_params (printer self) !! other /\
       tool_modified_params (printer self') !! other
       = tool_modified_params (printer self) !! other) /\
    trace (printer self') = trace (printer self) /\
    same_toolchanger self self'.
Proof.
  intros self gcmd self'.
  apply (cmd_SET_TOOL_PARAMETER_correct gcmd self self' (Return tt)).
  reflexivity.
Defined.

(** A before-change script that sets the temperature of a tool that
    has no extruder: the command raises, the hook fails, and the
    change is left half way. *)
Example scenario_temperature_in_hook :
  let heat : Template := fun _ =>
    [Command {| g_command := "SET_TOOL_TEMPERATURE"; g_TOOL := None; g_T := Some 3%Z;
                g_RESTORE_AXIS := None; g_MESSAGE := None;
                g_TARGET := Some 200.0%float; g_WAIT := None;
                g_PARAMETER := None; g_VALUE := None |}] in
  let self :=
    Example.machine_with Example.no_script heat Example.no_script
      STATUS_READY (Some Example.T1) in
  let result :=
    select_tool (run_template 4) (Example.gcmd "SELECT_TOOL") (Some Example.T3) "Z" self in
  result.1 = Raise (Exception "Script running error: SET_TOOL_TEMPERATURE: No extruder specified for tool tool T3") /\
  status result.2 = STATUS_CHANGING /\
  active_tool result.2 = Some Example.T1.
Proof. split_and!; vm_compute; reflexivity. Qed.
